(** * API-Telegram: the rate notifier of [src/app.js]

    A shallow embedding of the single-file Node.js program [app.js]
    and the properties of its report pipeline, port-retry bootstrap,
    scheduler trigger and process-level handlers.

    Layout:
    - [Text]      strings as the UTF-8 bytes of the JavaScript text;
    - [Number]    the JavaScript Number type (IEEE 754 binary64) with the
                  built-ins the program calls: [parseFloat], [isNaN],
                  [toFixed], [+], [/] and [Number::toString];
    - [Js]        JavaScript values as they come out of [JSON.parse],
                  [ToString], [ToBoolean], property access;
    - [Effects]   the observable events and the monad of the two
                  [async] pipelines (trace, exceptions, process exit);
    - [App]       the program itself, function by function;
    - [Observe]   what a trace shows: the messages sent, the requests
                  made, the ports tried, and the captions as texts;
    - [Sample], [Scenarios]: concrete configurations and worlds;
    - [Environment] the port read from the environment with [parseInt];
    - [Expected]  the events and texts the later properties speak of;
    - [IOFacts], [ErrorLogging], [Report], [Delivery], [TextFacts],
      [Pipeline], [NumberFacts], [JsFacts]: the supporting lemmas;
    - [PipelineProperties], [RateProperties], [DateProperties],
      [Bootstrap], [Scheduler], [Handlers]: the properties the
      specification states;
    - [Parsing], [Rendering], [ErrorPrinter], [Traffic],
      [BootstrapRuns], [Lifecycle]: further properties of the same
      code. *)

From Stdlib Require Import ZArith String Ascii List Lia Bool.
From Stdlib Require Import Floats.SpecFloat Numbers.DecimalString.
From Stdlib Require Decimal DecimalFacts DecimalPos.
From Equations Require Import Equations.
Import ListNotations.

Local Open Scope string_scope.
Local Open Scope Z_scope.
Set Warnings "-register-all".

(* ===================================================================== *)
(** * Text *)
(* ===================================================================== *)

Module Text.

(** The line feed written [\n] in the JavaScript source. *)
Definition LF : string := String (ascii_of_nat 10) EmptyString.

(** Decimal digits of an integer, as [String(n)] prints an integer. *)
Definition of_Z (z : Z) : string := NilEmpty.string_of_int (Z.to_int z).

Fixpoint zeros (n : nat) : string :=
  match n with
  | O => EmptyString
  | S n' => String "0" (zeros n')
  end.

(** [String.prototype.substring(0, n)] and [substring(n)]. *)
Fixpoint take (n : nat) (s : string) : string :=
  match n, s with
  | S n', String c s' => String c (take n' s')
  | _, _ => EmptyString
  end.

Fixpoint drop (n : nat) (s : string) : string :=
  match n, s with
  | S n', String _ s' => drop n' s'
  | _, _ => s
  end.

(** [s.startsWith(p)], and when it holds the text after [p]. *)
Fixpoint strip_prefix (p s : string) : option string :=
  match p, s with
  | EmptyString, _ => Some s
  | String a p', String b s' =>
      if Ascii.eqb a b then strip_prefix p' s' else None
  | String _ _, EmptyString => None
  end.

Definition starts_with (p s : string) : bool :=
  match strip_prefix p s with Some _ => true | None => false end.

(** [s.includes(p)]. *)
Fixpoint includes (p s : string) : bool :=
  starts_with p s ||
  match s with
  | EmptyString => false
  | String _ s' => includes p s'
  end.

Fixpoint rev_onto (s acc : string) : string :=
  match s with
  | EmptyString => acc
  | String c s' => rev_onto s' (String c acc)
  end.

Definition rev (s : string) : string := rev_onto s EmptyString.

(** The characters of a list of digits. *)
Fixpoint chars (l : list DecimalFacts.digits) : string :=
  match l with
  | [] => ""
  | d :: l' =>
      String (match d with
              | DecimalFacts.d0 => "0" | DecimalFacts.d1 => "1" | DecimalFacts.d2 => "2" | DecimalFacts.d3 => "3" | DecimalFacts.d4 => "4"
              | DecimalFacts.d5 => "5" | DecimalFacts.d6 => "6" | DecimalFacts.d7 => "7" | DecimalFacts.d8 => "8" | DecimalFacts.d9 => "9"
              end%char) (chars l')
  end.

End Text.

(* ===================================================================== *)
(** * Number: IEEE 754 binary64 and the numeric built-ins *)
(* ===================================================================== *)

Module Number.

(** A JavaScript Number is a binary64 value; [spec_float] is the
    Standard Library's bit-exact description of one. *)
Definition number : Set := spec_float.

Definition prec : Z := 53.
Definition emax : Z := 1024.

Definition NaN : number := S754_nan.

(** [a + b] and [a / b] on Numbers: round to nearest, ties to even. *)
Definition add (a b : number) : number := SFadd prec emax a b.
Definition div (a b : number) : number := SFdiv prec emax a b.

(** The Number of an integer literal such as the [2] of [/ 2]. *)
Definition of_Z (z : Z) : number := binary_normalize prec emax z 0 false.

(** The global [isNaN] on a Number. *)
Definition isNaN (x : number) : bool :=
  match x with S754_nan => true | _ => false end.

Definition isFinite (x : number) : bool :=
  match x with
  | S754_zero _ | S754_finite _ _ _ => true
  | S754_infinity _ | S754_nan => false
  end.

Definition eqb (x y : number) : bool :=
  match x, y with
  | S754_zero a, S754_zero b => Bool.eqb a b
  | S754_infinity a, S754_infinity b => Bool.eqb a b
  | S754_nan, S754_nan => true
  | S754_finite a m e, S754_finite b m' e' =>
      Bool.eqb a b && Pos.eqb m m' && Z.eqb e e'
  | _, _ => false
  end.

(** The mathematical value [m * 2^e] as a fraction [num / den]. *)
Definition fraction (m : positive) (e : Z) : Z * Z :=
  if 0 <=? e then (Zpos m * 2 ^ e, 1) else (Zpos m, 2 ^ (- e)).

(** ** Decimal text to Number (StringNumericValue, correctly rounded)

    [of_decimal neg m e10] is the Number nearest to [± m * 10^e10]. *)
Definition of_decimal (neg : bool) (m : Z) (e10 : Z) : number :=
  match m with
  | Zpos p =>
      if 0 <=? e10 then
        match Zpos p * 10 ^ e10 with
        | Zpos q => binary_round prec emax neg q 0
        | _ => S754_zero neg
        end
      else
        let '(q, e', l) :=
          SFdiv_core_binary prec emax (Zpos p) 0 (10 ^ (- e10)) 0 in
        binary_round_aux prec emax neg q e' l
  | _ => S754_zero neg
  end.

Definition is_digit (c : ascii) : bool :=
  let n := Z.of_N (N_of_ascii c) in (48 <=? n) && (n <=? 57).

Definition digit_value (c : ascii) : Z := Z.of_N (N_of_ascii c) - 48.

(** Reads the longest run of decimal digits at the head of [s]: the
    integer they spell on top of [acc], how many there were, the rest. *)
Fixpoint scan_digits (acc : Z) (count : Z) (s : string) : Z * Z * string :=
  match s with
  | String c s' =>
      if is_digit c
      then scan_digits (10 * acc + digit_value c) (count + 1) s'
      else (acc, count, s)
  | EmptyString => (acc, count, s)
  end.

Definition scan_sign (s : string) : bool * string :=
  match s with
  | String "+" s' => (false, s')
  | String "-" s' => (true, s')
  | _ => (false, s)
  end.

(** ExponentPart, optional: [e] or [E], a sign, at least one digit. *)
Definition scan_exponent (s : string) : Z :=
  match s with
  | String c s' =>
      if Ascii.eqb c "e" || Ascii.eqb c "E" then
        let '(eneg, s'') := scan_sign s' in
        let '(ev, ec, _) := scan_digits 0 0 s'' in
        if 0 <? ec then (if eneg then - ev else ev) else 0
      else 0
  | EmptyString => 0
  end.

(** The longest prefix of [s] that is a StrDecimalLiteral, as a Number;
    [None] when no prefix is one. *)
Definition parse_decimal_prefix (s : string) : option number :=
  let '(neg, s1) := scan_sign s in
  if Text.starts_with "Infinity" s1 then Some (S754_infinity neg)
  else
    let '(ip, ic, s2) := scan_digits 0 0 s1 in
    let '(mant, fc, s3) :=
      match s2 with
      | String "." s2' => scan_digits ip 0 s2'
      | _ => (ip, 0, s2)
      end in
    if 0 <? ic + fc
    then Some (of_decimal neg mant (scan_exponent s3 - fc))
    else None.

(** Leading StrWhiteSpaceChar: TAB, LF, VT, FF, CR, SP, and in UTF-8
    U+00A0, U+1680, U+2000..U+200A, U+2028, U+2029, U+202F, U+205F,
    U+3000 and U+FEFF. *)
Fixpoint trim_start (s : string) : string :=
  match s with
  | String c s1 =>
      let n := Z.of_N (N_of_ascii c) in
      if ((9 <=? n) && (n <=? 13)) || (n =? 32) then trim_start s1
      else
        match s1 with
        | String c1 s2 =>
            let n1 := Z.of_N (N_of_ascii c1) in
            if (n =? 194) && (n1 =? 160) then trim_start s2
            else
              match s2 with
              | String c2 s3 =>
                  let n2 := Z.of_N (N_of_ascii c2) in
                  if ((n =? 225) && (n1 =? 154) && (n2 =? 128))
                     || ((n =? 226) && (n1 =? 128)
                         && (((128 <=? n2) && (n2 <=? 138))
                             || (n2 =? 168) || (n2 =? 169) || (n2 =? 175)))
                     || ((n =? 226) && (n1 =? 129) && (n2 =? 159))
                     || ((n =? 227) && (n1 =? 128) && (n2 =? 128))
                     || ((n =? 239) && (n1 =? 187) && (n2 =? 191))
                  then trim_start s3
                  else s
              | EmptyString => s
              end
        | EmptyString => s
        end
  | EmptyString => s
  end.

(** The global [parseFloat] applied to a string. *)
Definition parseFloat_string (s : string) : number :=
  match parse_decimal_prefix (trim_start s) with
  | Some x => x
  | None => NaN
  end.

(** ** Number::toString (radix 10)

    For a positive finite [x = num / den]: the decimal exponent [n]
    with [10^(n-1) <= x < 10^n], then the shortest digit string [s] of
    [k] digits such that [s * 10^(n-k)] reads back as [x]. *)
Definition digit_count (z : Z) : Z := Z.of_nat (String.length (Text.of_Z z)).

Definition decimal_exponent (num den : Z) : Z :=
  if den <=? num then digit_count (num / den)
  else 1 - digit_count ((den - 1) / num).

(** The candidates with [k] digits: [x * 10^(k-n)] rounded down and up;
    the one that reads back as [x], the nearer of the two when both do,
    the even one on a tie. *)
Definition digits_candidate (x : number) (num den n k : Z) : option Z :=
  let '(a, b) :=
    if 0 <=? k - n then (num * 10 ^ (k - n), den)
    else (num, den * 10 ^ (n - k)) in
  let lo := a / b in
  let r := a mod b in
  let hi := lo + 1 in
  let lo_ok := eqb (of_decimal false lo (n - k)) x in
  let hi_ok := eqb (of_decimal false hi (n - k)) x in
  match lo_ok, hi_ok with
  | true, true =>
      match 2 * r ?= b with
      | Lt => Some lo
      | Gt => Some hi
      | Eq => Some (if Z.even lo then lo else hi)
      end
  | true, false => Some lo
  | false, true => Some hi
  | false, false => None
  end.

(** Tries [k], [k+1], ... for [fuel] steps. Seventeen digits identify
    every binary64 value, so the last line is reached only for a
    [spec_float] that is not one. *)
Fixpoint shortest_digits (fuel : nat) (x : number) (num den n k : Z) : Z * Z :=
  match fuel with
  | O => (num * 10 ^ (17 - n) / den, 17)
  | S fuel' =>
      match digits_candidate x num den n k with
      | Some s => (s, k)
      | None => shortest_digits fuel' x num den n (k + 1)
      end
  end.

Definition exponent_text (e : Z) : string :=
  (if 0 <=? e then "e+" else "e-") ++ Text.of_Z (Z.abs e).

(** Steps 6 to 10 of Number::toString: where the point or the exponent
    goes, given the digits [d] (there are [k]) and the exponent [n]. *)
Definition layout_digits (d : string) (k n : Z) : string :=
  if (k <=? n) && (n <=? 21) then d ++ Text.zeros (Z.to_nat (n - k))
  else if (0 <? n) && (n <=? 21) then
    Text.take (Z.to_nat n) d ++ "." ++ Text.drop (Z.to_nat n) d
  else if (-6 <? n) && (n <=? 0) then
    "0." ++ Text.zeros (Z.to_nat (- n)) ++ d
  else if k =? 1 then d ++ exponent_text (n - 1)
  else Text.take 1 d ++ "." ++ Text.drop 1 d ++ exponent_text (n - 1).

Definition toString_positive (m : positive) (e : Z) : string :=
  let '(num, den) := fraction m e in
  let n := decimal_exponent num den in
  let '(s, k) := shortest_digits 17 (S754_finite false m e) num den n 1 in
  if s =? 10 ^ k then layout_digits "1" 1 (n + 1)
  else layout_digits (Text.of_Z s) k n.

Definition toString (x : number) : string :=
  match x with
  | S754_nan => "NaN"
  | S754_zero _ => "0"
  | S754_infinity s => if s then "-Infinity" else "Infinity"
  | S754_finite s m e => (if s then "-" else "") ++ toString_positive m e
  end.

(** ** Number.prototype.toFixed *)

(** The integer [n] for which [n - num/den] is as close to zero as
    possible, the larger one when there are two. *)
Definition round_half_up (num den : Z) : Z := (2 * num + den) / (2 * den).

(** Steps 9.b to 9.c: the digits of [n] with a point before the last
    [f] of them, left-padded with zeros to [f + 1] digits. *)
Definition fixed_digits (n : Z) (f : nat) : string :=
  let m := Text.of_Z n in
  match f with
  | O => m
  | S _ =>
      let k := String.length m in
      let m := if Nat.leb k f then Text.zeros (S f - k) ++ m else m in
      let k := String.length m in
      Text.take (k - f) m ++ "." ++ Text.drop (k - f) m
  end.

Definition toFixed (x : number) (f : nat) : string :=
  match x with
  | S754_nan | S754_infinity _ => toString x
  | S754_zero _ => fixed_digits 0 f
  | S754_finite s m e =>
      let '(num, den) := fraction m e in
      (if s then "-" else "") ++
      (if 10 ^ 21 * den <=? num then toString (S754_finite false m e)
       else fixed_digits (round_half_up (num * 10 ^ Z.of_nat f) den) f)
  end.

End Number.

(* ===================================================================== *)
(** * Js: values, conversions, property access *)
(* ===================================================================== *)

Module Js.

Import Number.

(** The values the program handles: what [JSON.parse] builds, plus
    [undefined]. An object is its list of own properties. *)
Inductive value : Set :=
| Undefined
| Null
| Bool (b : bool)
| Num (x : number)
| Str (s : string)
| Arr (items : list value)
| Obj (props : list (string * value)).

(** An Error instance, by its own properties ([message], [code],
    [response], [request], ...). *)
Definition props : Set := list (string * value).

(** Whether ToString of [v] ends normally. An object built by
    [JSON.parse] holds no function: if it has an own property [toString]
    that property is not callable, [valueOf] yields the object itself or
    is not callable either, and the conversion throws a TypeError. An
    array is joined through ToString of its elements, [undefined] and
    [null] excepted. *)
Fixpoint has_key (k : string) (ps : list (string * value)) : bool :=
  match ps with
  | [] => false
  | (k', _) :: rest => String.eqb k k' || has_key k rest
  end.

Fixpoint converts (v : value) : bool :=
  match v with
  | Obj ps => negb (has_key "toString" ps)
  | Arr items =>
      (fix all (l : list value) : bool :=
         match l with
         | [] => true
         | x :: rest =>
             match x with
             | Undefined | Null => true
             | _ => converts x
             end && all rest
         end) items
  | _ => true
  end.

(** ToString, as the text it yields on the values that convert
    ([converts]); [ToString_or_throw] below is the operation with its
    TypeError. An array prints its elements joined by commas, with
    [undefined] and [null] elements printed empty; a plain object prints
    as [[object Object]]. *)
Fixpoint ToString (v : value) : string :=
  match v with
  | Undefined => "undefined"
  | Null => "null"
  | Bool true => "true"
  | Bool false => "false"
  | Num x => Number.toString x
  | Str s => s
  | Arr items =>
      (fix join (l : list value) : string :=
         match l with
         | [] => ""
         | x :: rest =>
             let e := match x with
                      | Undefined | Null => ""
                      | _ => ToString x
                      end in
             match rest with
             | [] => e
             | _ :: _ => e ++ "," ++ join rest
             end
         end) items
  | Obj _ => "[object Object]"
  end.

(** ToBoolean. *)
Definition ToBoolean (v : value) : bool :=
  match v with
  | Undefined | Null => false
  | Bool b => b
  | Num (S754_zero _) | Num S754_nan => false
  | Num _ => true
  | Str EmptyString => false
  | Str _ => true
  | Arr _ | Obj _ => true
  end.

(** [a || b]. *)
Definition or_else (a b : value) : value := if ToBoolean a then a else b.

(** [typeof v === 'string']. *)
Definition is_string (v : value) : bool :=
  match v with Str _ => true | _ => false end.

(** [v === 'text'] for a string literal. *)
Definition equals_string (v : value) (text : string) : bool :=
  match v with Str s => String.eqb s text | _ => false end.

Fixpoint lookup (k : string) (ps : props) : value :=
  match ps with
  | [] => Undefined
  | (k', v) :: rest => if String.eqb k k' then v else lookup k rest
  end.

(** [v?.k]: the property [k] of [v], [undefined] when [v] is [undefined]
    or [null]. The names the program reads ([data], [monitors], [bcv],
    [enparalelovzla], [price], [response], [body], [status], [request],
    [code], [message], [error_code], [description]) are defined on no
    prototype, so on a string, number, boolean or array the result is
    [undefined] too. *)
Definition get_optional (v : value) (k : string) : value :=
  match v with
  | Obj ps => lookup k ps
  | _ => Undefined
  end.

Definition TypeError (message : string) : value :=
  Obj [("name", Str "TypeError"); ("message", Str message)].

(** [v.k]: throws a TypeError when [v] is [undefined] or [null]. *)
Definition get (v : value) (k : string) : value + value :=
  match v with
  | Undefined =>
      inr (TypeError ("Cannot read properties of undefined (reading '"
                      ++ k ++ "')"))
  | Null =>
      inr (TypeError ("Cannot read properties of null (reading '"
                      ++ k ++ "')"))
  | _ => inl (get_optional v k)
  end.

(** ToString as an operation: the text, or the TypeError thrown for a
    value that does not convert. *)
Definition ToString_or_throw (v : value) : string + value :=
  if converts v then inl (ToString v)
  else inr (TypeError "Cannot convert object to primitive value").

(** The global [parseFloat] on a value that converts: its argument goes
    through ToString. *)
Definition parseFloat (v : value) : number :=
  parseFloat_string (ToString v).

(** The call [parseFloat(v)]: the Number, or the TypeError of the
    conversion of its argument. *)
Definition parseFloat_or_throw (v : value) : number + value :=
  match ToString_or_throw v with
  | inl text => inl (parseFloat_string text)
  | inr e => inr e
  end.

(** What an environment variable holds: a string, or nothing. [!x] is
    true for an absent and for an empty one. *)
Definition truthy (x : option string) : bool :=
  match x with
  | Some (String _ _) => true
  | Some EmptyString | None => false
  end.

End Js.

(* ===================================================================== *)
(** * Effects: events, outcomes and the monad of the async functions *)
(* ===================================================================== *)

Module Effects.

Import Js.

Inductive level : Type := LOG | WARN | ERROR.

(** The options object handed to [bot.sendPhoto] and [bot.sendMessage]. *)
Record SendOptions : Type := {
  message_thread_id : option string;
  parse_mode : option string;
  caption : option string
}.

(** What a callback handed to [server.close] or [setTimeout] does when
    it runs: print some lines and leave the process, start the next
    bind attempt, or arm a timer. *)
Inductive continuation : Type :=
| ThenExit (lines : list (level * list value)) (code : Z)
| ThenStartServer (port : Z)
| ThenSetTimeout (then_ : continuation) (ms : Z).

(** The observable actions of the program, in program order. *)
Inductive event : Type :=
| Console (lvl : level) (args : list value)
| HttpGet (url : string) (timeout : Z)
| SendPhoto (chat : option string) (photo : string) (options : SendOptions)
| SendMessage (chat : option string) (text : string) (options : SendOptions)
| NewTelegramBot (token : option string)
| Listen (port : Z)
| ServerClose (then_ : continuation)
| SetTimeout (then_ : continuation) (ms : Z)
| CronSchedule (expression : string) (scheduled : bool) (timezone : string).

(** How a piece of code ends: with a value, with an exception in
    flight, or by [process.exit(code)]. *)
Inductive outcome (A : Type) : Type :=
| Returned (a : A)
| Thrown (e : value)
| Exited (code : Z).
Arguments Returned {A} a.
Arguments Thrown {A} e.
Arguments Exited {A} code.

(** A computation: the events it performed and how it ended. *)
Definition IO (A : Type) : Type := list event * outcome A.

Definition ret {A} (a : A) : IO A := ([], Returned a).

Definition bind {A B} (m : IO A) (f : A -> IO B) : IO B :=
  match m with
  | (t, Returned a) => let '(t', o) := f a in ((t ++ t')%list, o)
  | (t, Thrown e) => (t, Thrown e)
  | (t, Exited c) => (t, Exited c)
  end.

Definition emit (e : event) : IO unit := ([e], Returned tt).

Definition throw {A} (e : value) : IO A := ([], Thrown e).

(** [process.exit(code)]: nothing after it runs, no [catch] sees it. *)
Definition exit {A} (code : Z) : IO A := ([], Exited code).

(** [try { m } catch (e) { h e }], and [m.catch(h)] on a promise. *)
Definition try_catch {A} (m : IO A) (h : value -> IO A) : IO A :=
  match m with
  | (t, Thrown e) => let '(t', o) := h e in ((t ++ t')%list, o)
  | _ => m
  end.

(** A call into a library that either yields a value or fails with an
    Error object. *)
Inductive result (A : Type) : Type :=
| Ok (a : A)
| Err (error : props).
Arguments Ok {A} a.
Arguments Err {A} error.

Definition call {A} (e : event) (r : result A) : IO A :=
  ([e], match r with Ok a => Returned a | Err error => Thrown (Obj error) end).

Definition of_result {A} (r : result A) : IO A :=
  ([], match r with Ok a => Returned a | Err error => Thrown (Obj error) end).

Definition lift_get (r : value + value) : IO value :=
  ([], match r with inl v => Returned v | inr e => Thrown e end).

(** An operation of the language that yields a result or throws. *)
Definition of_sum {A} (r : A + value) : IO A :=
  ([], match r with inl a => Returned a | inr e => Thrown e end).

Definition console_log (args : list value) : IO unit := emit (Console LOG args).
Definition console_warn (args : list value) : IO unit := emit (Console WARN args).
Definition console_error (args : list value) : IO unit := emit (Console ERROR args).

Definition trace {A} (m : IO A) : list event := fst m.
Definition result_of {A} (m : IO A) : outcome A := snd m.

Declare Scope io_scope.
Delimit Scope io_scope with io.
Notation "x <- m ;; k" := (bind m (fun x => k))
  (at level 61, m at next level, right associativity) : io_scope.
Notation "' p <- m ;; k" := (bind m (fun p => k))
  (at level 61, p pattern, m at next level, right associativity) : io_scope.
Notation "m ;; k" := (bind m (fun _ => k))
  (at level 61, right associativity) : io_scope.

End Effects.

(* ===================================================================== *)
(** * App: the program of [src/app.js] *)
(* ===================================================================== *)

Module App.

Import Text Number Js Effects.
Local Open Scope io_scope.

(** ** Configuration (lines 9-17) *)

(** The constants read once from the environment. [initialPort] is the
    integer [parseInt(process.env.PORT || '10000', 10)] yields for a PORT
    that is unset, empty or begins with digits. The [NaN] it yields for
    any other PORT is not an integer and is outside this record. *)
Record Config : Type := {
  initialPort : Z;
  botToken : option string;
  chatId : option string;
  messageThreadId : option string;
  imageUrl : option string;
  dollarApiUrl : option string
}.

Definition MAX_PORT_ATTEMPTS : Z := 10.

(** ** The world outside the process *)

(** The option bag of [Date.prototype.toLocaleString]. *)
Record DateTimeFormatOptions : Type := {
  timeZone : option string;
  day : option string;
  month : option string;
  year : option string;
  hour : option string;
  minute : option string;
  hour12 : option bool
}.

(** The outcome of [server.listen(port)]: the [listening] callback with
    the port the socket is bound to, the [error] event, or an exception
    thrown by the call itself (the platform throws a RangeError at once
    for a port outside 0..65535). *)
Inductive listen_result : Type :=
| Bound (port : Z)
| Failed (error : props)
| Threw (error : props).

(** Everything the program asks of its platform and its peers, as the
    answers it gets during one run of a handler.
    - [toLocaleString locale options] is [new Date().toLocaleString];
    - [axios_get url timeout] resolves to the response object or rejects;
    - [bot_sendPhoto], [bot_sendMessage] are the Telegram calls;
    - [server_listen], [cron_schedule], [new_TelegramBot] likewise. *)
Record World : Type := {
  toLocaleString : string -> DateTimeFormatOptions -> result string;
  JSON_parse : string -> result value;
  JSON_stringify : value -> value;
  axios_get : string -> Z -> result value;
  bot_sendPhoto : option string -> string -> SendOptions -> result unit;
  bot_sendMessage : option string -> string -> SendOptions -> result unit;
  new_TelegramBot : option string -> result unit;
  server_listen : Z -> listen_result;
  cron_schedule : string -> bool -> string -> result unit
}.

(** The three option bags the program passes (lines 120-123, 244-250
    and 369). *)
Definition startup_date_options : DateTimeFormatOptions :=
  {| timeZone := Some "America/Caracas";
     day := Some "2-digit";
     month := Some "2-digit";
     year := Some "numeric";
     hour := None; minute := None; hour12 := None |}.

Definition daily_date_options : DateTimeFormatOptions :=
  {| timeZone := Some "Etc/GMT-3";
     day := Some "2-digit";
     month := Some "2-digit";
     year := Some "numeric";
     hour := Some "2-digit";
     minute := Some "2-digit";
     hour12 := Some false |}.

Definition cron_log_options : DateTimeFormatOptions :=
  {| timeZone := Some "Etc/GMT-3";
     day := None; month := None; year := None;
     hour := None; minute := None; hour12 := None |}.

(** [v.k] inside a computation. *)
Definition member (v : value) (k : string) : IO value := lift_get (get v k).

(** ** The state of the process *)

(** An [http.Server] that is listening: [address().port]. *)
Record Server : Type := { address_port : Z }.

(** A task registered with [cron.schedule]. *)
Record CronTask : Type := {
  expression : string;
  scheduled : bool;
  timezone : string
}.

(** The file-scope variable [serverInstance] (line 69) and the tasks the
    scheduler holds. The program keeps no other state between events. *)
Record Proc : Type := {
  serverInstance : option Server;
  cronTasks : list CronTask
}.

Definition initial_proc : Proc :=
  {| serverInstance := None; cronTasks := [] |}.

Section Program.

Variable w : World.
Variable cfg : Config.

(** ** buildTelegramOptions (lines 72-78) *)
Definition buildTelegramOptions : SendOptions :=
  let options :=
    {| message_thread_id := None; parse_mode := None; caption := None |} in
  if truthy (messageThreadId cfg)
  then {| message_thread_id := messageThreadId cfg;
          parse_mode := parse_mode options;
          caption := caption options |}
  else options.

Definition with_parse_mode (options : SendOptions) (mode : string) : SendOptions :=
  {| message_thread_id := message_thread_id options;
     parse_mode := Some mode;
     caption := caption options |}.

Definition with_caption (options : SendOptions) (text : string) : SendOptions :=
  {| message_thread_id := message_thread_id options;
     parse_mode := parse_mode options;
     caption := Some text |}.

(** ** handleTelegramError (lines 81-100)

    The code and the description of the decoded body are whatever the
    peer sent, and their conversion to text can throw, inside the [try].
    The code and the message of the error itself (lines 94-95) are
    printed with [ToString]: that is their text whenever they convert,
    as the strings of library errors do. *)
Definition handleTelegramError (actionDescription : string) (error : value) : IO unit :=
  console_error [Str ("❌ Error " ++ actionDescription ++ ":")] ;;
  response <- member error "response" ;;
  body <- (if ToBoolean response then member response "body" else ret response) ;;
  (if ToBoolean body then
     try_catch
       (errorBody <- (if is_string body
                      then of_result (JSON_parse w (ToString body))
                      else ret body) ;;
        error_code <- member errorBody "error_code" ;;
        codeText <- of_sum (ToString_or_throw (or_else error_code (Str "N/A"))) ;;
        description <- member errorBody "description" ;;
        descriptionText <-
          of_sum (ToString_or_throw (or_else description (Str "No description"))) ;;
        console_error
          [Str ("   Telegram API Error (" ++ codeText ++ "): " ++ descriptionText)])
       (fun parseError =>
          console_error [Str "   Telegram API Error (raw response body):"; body])
   else
     code <- member error "code" ;;
     if ToBoolean code then
       console_error [Str ("   Error Code: " ++ ToString code)] ;;
       message <- member error "message" ;;
       console_error [Str ("   Error Message: " ++ ToString message)]
     else
       message <- member error "message" ;;
       console_error [Str "   Error Details:"; or_else message error]) ;;
  console_error
    [Str "   (Check BOT_TOKEN, CHAT_ID, Thread ID, bot permissions in chat, network connectivity)"].

(** Lines 176-186 and 287-294: what the [catch] of the rate fetch
    prints after its first line. The error is a rejection of axios or
    the TypeError of a price that [parseFloat] could not read. The status
    is printed with [ToString]: that is its text whenever it converts, as
    the number of an axios response does. *)
Definition log_api_error (apiError : value) : IO unit :=
  response <- member apiError "response" ;;
  if ToBoolean response then
    status <- member response "status" ;;
    data <- member response "data" ;;
    console_error
      [Str ("   Status: " ++ ToString status ++ ", Data: "
            ++ ToString (JSON_stringify w data))]
  else
    request <- member apiError "request" ;;
    message <- member apiError "message" ;;
    if ToBoolean request then
      console_error [Str "   No response received from API:"; message]
    else
      console_error [Str "   Error en la configuración de Axios:"; message].

(** Lines 139-141 and 263-265: the two prices of the response, through
    the optional chain. *)
Definition bcvPrice_of (response : value) : value :=
  let monitors := get_optional (get_optional response "data") "monitors" in
  get_optional (get_optional monitors "bcv") "price".

Definition paraleloPrice_of (response : value) : value :=
  let monitors := get_optional (get_optional response "data") "monitors" in
  get_optional (get_optional monitors "enparalelovzla") "price".

(** The Numbers they read as (lines 146-147 and 267-268) when their
    conversion to text does not throw. *)
Definition bcvNum_of (response : value) : number :=
  parseFloat (bcvPrice_of response).

Definition paraleloNum_of (response : value) : number :=
  parseFloat (paraleloPrice_of response).

(** ** sendTelegramStartupPhotoWithRates (lines 104-224) *)

(** Lines 115-129: the date stamp and the default caption. Yields
    [currentDateVE] and [captionText]. *)
Definition startup_date : IO (string * string) :=
  let captionText := "⚡️ Bot iniciado y listo." in
  try_catch
    (currentDateVE <-
       of_result (toLocaleString w "es-VE" startup_date_options) ;;
     ret (currentDateVE,
          "🗓️ *Fecha:* " ++ currentDateVE ++ LF ++ LF ++ captionText))
    (fun dateError =>
       console_error [Str "❌ Error al formatear la fecha:"; dateError] ;;
       ret ("", "[Fecha no disponible]" ++ LF ++ LF ++ captionText)).

(** Lines 133-193: the caption after the rate fetch. *)
Definition startup_caption (currentDateVE captionText : string) : IO string :=
  match dollarApiUrl cfg with
  | Some (String c u) =>
      let url := String c u in
      try_catch
        (response <- call (HttpGet url 10000) (axios_get w url 10000) ;;
         bcvNum <- of_sum (parseFloat_or_throw (bcvPrice_of response)) ;;
         paraleloNum <- of_sum (parseFloat_or_throw (paraleloPrice_of response)) ;;
         if negb (isNaN bcvNum) && negb (isNaN paraleloNum) then
           let formattedBcv := toFixed bcvNum 2 in
           let formattedParalelo := toFixed paraleloNum 2 in
           let promedioNum := div (add bcvNum paraleloNum) (Number.of_Z 2) in
           let Promedio := toFixed promedioNum 2 in
           ret ("🗓️ *Fecha:* " ++ currentDateVE ++ LF ++ LF
                ++ "*Cotización (VEN 🇻🇪)*" ++ LF ++ LF
                ++ "*BCV:* " ++ formattedBcv ++ " Bs" ++ LF
                ++ "*Paralelo:* " ++ formattedParalelo ++ " Bs" ++ LF
                ++ "*Promedio:* " ++ Promedio ++ " Bs")
         else
           console_warn
             [Str "⚠️ No se pudieron obtener precios válidos de la API (BCV o Paralelo no son números). Usando caption sin tasas específicas."] ;;
           ret ("🗓️ *Fecha:* " ++ currentDateVE ++ LF ++ LF
                ++ "⚠️ No se pudieron obtener las tasas actuales."
                ++ LF ++ LF ++ "⚡️ Bot iniciado y listo."))
        (fun apiError =>
           console_error [Str "❌ Error al obtener las tasas del dólar de la API:"] ;;
           log_api_error apiError ;;
           ret ("🗓️ *Fecha:* " ++ currentDateVE ++ LF ++ LF
                ++ "⚠️ Error al obtener las tasas."
                ++ LF ++ LF ++ "⚡️ Bot iniciado y listo."))
  | _ => ret (captionText ++ " (URL de API no configurada)")
  end.

(** Lines 196-223: the photo, and the text message if the photo fails. *)
Definition startup_send (image : string) (captionText : string) : IO unit :=
  let options := with_parse_mode buildTelegramOptions "Markdown" in
  try_catch
    (let photoOptions := with_caption options captionText in
     call (SendPhoto (chatId cfg) image photoOptions)
          (bot_sendPhoto w (chatId cfg) image photoOptions) ;;
     console_log [Str "✅ Foto de inicio con caption enviada exitosamente."])
    (fun telegramError =>
       handleTelegramError "enviando la foto de inicio" telegramError ;;
       try_catch
         (let fallbackOptions := with_parse_mode buildTelegramOptions "Markdown" in
          let text := "⚠️ *Error al enviar foto de inicio.*" ++ LF ++ LF ++ captionText in
          call (SendMessage (chatId cfg) text fallbackOptions)
               (bot_sendMessage w (chatId cfg) text fallbackOptions) ;;
          console_log [Str "   Mensaje de texto de fallback enviado."])
         (fun fallbackError =>
            handleTelegramError "enviando mensaje de texto de fallback" fallbackError)).

(** Lines 115-193 together: the caption of the startup report. *)
Definition startup_report : IO string :=
  '(currentDateVE, captionText) <- startup_date ;;
  startup_caption currentDateVE captionText.

Definition sendTelegramStartupPhotoWithRates : IO unit :=
  match imageUrl cfg with
  | Some (String c u) =>
      let image := String c u in
      (if negb (truthy (dollarApiUrl cfg))
       then console_warn [Str "⚠️ No se pueden obtener tasas: PYDOLARVE_API_URL no está definido."]
       else ret tt) ;;
      captionText <- startup_report ;;
      startup_send image captionText
  | _ =>
      console_warn [Str "⚠️ No se enviará la foto de inicio: TELEGRAM_IMAGE_URL no está definido."]
  end.

(** ** sendDailyUpdate (lines 228-323) *)

(** Lines 238-257: the date and time stamp and the title. *)
Definition daily_date : IO string :=
  let captionText := "📊 *Reporte Diario*" in
  currentDateTimeUTC3 <-
    try_catch
      (of_result (toLocaleString w "es-ES" daily_date_options))
      (fun dateError =>
         console_error [Str "❌ Error al formatear la fecha para el reporte diario (UTC+3):"; dateError] ;;
         ret "[Fecha/Hora no disponible]") ;;
  ret ("🗓️ *Fecha:* " ++ currentDateTimeUTC3 ++ " (UTC+3)" ++ LF ++ LF ++ captionText).

(** Lines 260-299: the caption after the rate fetch. *)
Definition daily_caption (captionText : string) : IO string :=
  match dollarApiUrl cfg with
  | Some (String c u) =>
      let url := String c u in
      try_catch
        (response <- call (HttpGet url 10000) (axios_get w url 10000) ;;
         bcvNum <- of_sum (parseFloat_or_throw (bcvPrice_of response)) ;;
         paraleloNum <- of_sum (parseFloat_or_throw (paraleloPrice_of response)) ;;
         if negb (isNaN bcvNum) && negb (isNaN paraleloNum) then
           let formattedBcv := toFixed bcvNum 2 in
           let formattedParalelo := toFixed paraleloNum 2 in
           let promedioNum := div (add bcvNum paraleloNum) (Number.of_Z 2) in
           let Promedio := toFixed promedioNum 2 in
           ret (captionText
                ++ (LF ++ LF ++ "*Cotización (VEN 🇻🇪)*" ++ LF ++ LF
                    ++ "*BCV:* " ++ formattedBcv ++ " Bs" ++ LF
                    ++ "*Paralelo:* " ++ formattedParalelo ++ " Bs" ++ LF
                    ++ "*Promedio:* " ++ Promedio ++ " Bs"))
         else
           console_warn
             [Str "⚠️ No se pudieron obtener precios válidos de la API para el reporte diario."] ;;
           ret (captionText ++ (LF ++ LF ++ "⚠️ No se pudieron obtener las tasas actuales.")))
        (fun apiError =>
           console_error [Str "❌ Error al obtener las tasas del dólar para el reporte diario:"] ;;
           log_api_error apiError ;;
           ret (captionText ++ (LF ++ LF ++ "⚠️ Error al obtener las tasas actuales.")))
  | _ => ret (captionText ++ (LF ++ LF ++ "(URL de API no configurada para tasas)"))
  end.

(** Lines 302-322: the photo, and the text message if the photo fails. *)
Definition daily_send (image : string) (captionText : string) : IO unit :=
  let options := with_parse_mode buildTelegramOptions "Markdown" in
  try_catch
    (let photoOptions := with_caption options captionText in
     call (SendPhoto (chatId cfg) image photoOptions)
          (bot_sendPhoto w (chatId cfg) image photoOptions) ;;
     console_log [Str "✅ Reporte diario enviado exitosamente."])
    (fun error =>
       handleTelegramError "enviando el reporte diario" error ;;
       try_catch
         (let fallbackOptions := with_parse_mode buildTelegramOptions "Markdown" in
          let text := "⚠️ *Error al enviar foto del reporte diario.*" ++ LF ++ LF ++ captionText in
          call (SendMessage (chatId cfg) text fallbackOptions)
               (bot_sendMessage w (chatId cfg) text fallbackOptions) ;;
          console_log [Str "   Mensaje de texto de fallback para reporte diario enviado."])
         (fun fallbackError =>
            handleTelegramError "enviando mensaje de texto de fallback para reporte diario" fallbackError)).

(** Lines 238-299 together: the caption of the daily report. *)
Definition daily_report : IO string :=
  captionText <- daily_date ;;
  daily_caption captionText.

Definition sendDailyUpdate : IO unit :=
  console_log [Str "ℹ️ Iniciando envío de reporte diario..."] ;;
  match imageUrl cfg with
  | Some (String c u) =>
      let image := String c u in
      captionText <- daily_report ;;
      daily_send image captionText
  | _ =>
      console_warn [Str "⚠️ No se enviará la foto diaria: TELEGRAM_IMAGE_URL no está definido."]
  end.

(** ** The liveness endpoint, [app.get('/')] (lines 62-67)

    The text handed to [res.send]. A port prints as its decimal
    digits. *)
Definition root_handler (proc : Proc) : string :=
  let runningPort :=
    match serverInstance proc with
    | Some server => Text.of_Z (address_port server)
    | None => "unknown"
    end in
  "API Telegram Server is running on port " ++ runningPort.

(** ** shutdown (lines 401-420) *)
Definition shutdown (signal : string) (proc : Proc) : IO unit :=
  console_log [Str (LF ++ signal ++ " signal received: closing HTTP server...")] ;;
  match serverInstance proc with
  | Some _ =>
      emit (ServerClose (ThenExit [(LOG, [Str "✅ HTTP server closed."])] 0)) ;;
      emit (SetTimeout
              (ThenExit [(ERROR, [Str "⚠️ Server close timed out, forcing exit."])] 1)
              5000)
  | None =>
      console_log [Str "ℹ️ No active server to close."] ;;
      exit 0
  end.

(** Lines 422-423. *)
Definition on_SIGTERM (proc : Proc) : IO unit := shutdown "SIGTERM" proc.
Definition on_SIGINT (proc : Proc) : IO unit := shutdown "SIGINT (Ctrl+C)" proc.

(** Lines 426-430: the [unhandledRejection] listener. *)
Definition on_unhandledRejection (reason promise : value) : IO unit :=
  console_error [Str "❌ Unhandled Rejection at:"; promise; Str "reason:"; reason].

(** Lines 433-439: the [uncaughtException] listener. *)
Definition on_uncaughtException (error : value) (proc : Proc) : IO unit :=
  console_error [Str "❌ Uncaught Exception:"; error] ;;
  shutdown "uncaughtException" proc ;;
  emit (SetTimeout (ThenExit [] 1) 2000).

(** ** The scheduled callback (lines 366-373)

    [pipeline] stands for the call [sendDailyUpdate()]; the program's
    own callback is [cron_callback] below. *)
Definition cron_callback_with (pipeline : IO unit) : IO unit :=
  stamp <- of_result (toLocaleString w "en-GB" cron_log_options) ;;
  console_log
    [Str ("⏰ [" ++ stamp ++ "] Ejecutando tarea programada (14:00 UTC+3)...")] ;;
  try_catch pipeline
    (fun cronJobError =>
       console_error
         [Str "❌ Error dentro de la tarea programada (sendDailyUpdate):";
          cronJobError]).

Definition cron_callback : IO unit := cron_callback_with sendDailyUpdate.

(** ** The [listening] callback of [server.listen] (lines 354-388) *)
Definition on_listening (actualPort : Z) : IO Proc :=
  let proc :=
    {| serverInstance := Some {| address_port := actualPort |};
       cronTasks := [] |} in
  console_log [Str ("✅ Servidor API corriendo en http://localhost:" ++ Text.of_Z actualPort)] ;;
  match sendTelegramStartupPhotoWithRates with
  | (t, Thrown reason) =>
      (* the async callback rejects: nobody awaits it *)
      (t, Returned tt) ;; on_unhandledRejection reason (Obj []) ;; ret proc
  | startup =>
      startup ;;
      try_catch
        (call (CronSchedule "0 14 * * *" true "Etc/GMT-3")
              (cron_schedule w "0 14 * * *" true "Etc/GMT-3") ;;
         console_log [Str "⏰ Tarea diaria programada para ejecutarse a las 14:00 (2 PM) UTC+3."] ;;
         ret {| serverInstance := serverInstance proc;
                cronTasks := [{| expression := "0 14 * * *";
                                 scheduled := true;
                                 timezone := "Etc/GMT-3" |}] |})
        (fun cronError =>
           console_error [Str "❌ Error al programar la tarea diaria con cron:"; cronError] ;;
           ret proc)
  end.

(** ** A callback run by a timer while no server is bound

    An exception that leaves the callback is uncaught: the listener of
    lines 433-439 runs, with [serverInstance] still [null]. *)
Definition in_timer (callback : IO Proc) : IO Proc :=
  try_catch callback
    (fun error => on_uncaughtException error initial_proc ;; ret initial_proc).

(** ** startServer (lines 327-393)

    One bind attempt on [currentPort]; on [EADDRINUSE] the server is
    closed and, 200 ms later, the next port is tried from the callback
    of a timer. The recursion stops at [initialPort + MAX_PORT_ATTEMPTS].
    The first call is made by the top level of the file (line 397),
    before the listeners of lines 422-439 are registered: an exception
    [listen] throws there leaves the program. *)
Equations? startServer (currentPort : Z) : IO Proc
  by wf (Z.to_nat (initialPort cfg + MAX_PORT_ATTEMPTS - currentPort)) lt :=
  startServer currentPort with Z_ge_dec currentPort (initialPort cfg + MAX_PORT_ATTEMPTS) => {
    | left _ =>
        console_error
          [Str ("❌ Failed to find an available port after trying from "
                ++ Text.of_Z (initialPort cfg) ++ " up to "
                ++ Text.of_Z (currentPort - 1) ++ ". Exiting.")] ;;
        exit 1
    | right _ =>
        emit (Listen currentPort) ;;
        match server_listen w currentPort with
        | Threw error => throw (Obj error)
        | Failed error =>
            code <- member (Obj error) "code" ;;
            if equals_string code "EADDRINUSE" then
              console_warn
                [Str ("⚠️ Port " ++ Text.of_Z currentPort
                      ++ " is already in use. Trying port "
                      ++ Text.of_Z (currentPort + 1) ++ "...")] ;;
              emit (ServerClose (ThenSetTimeout (ThenStartServer (currentPort + 1)) 200)) ;;
              emit (SetTimeout (ThenStartServer (currentPort + 1)) 200) ;;
              in_timer (startServer (currentPort + 1))
            else
              console_error [Str "❌ Fatal server startup error:"; Obj error] ;;
              exit 1
        | Bound actualPort => on_listening actualPort
        end
  }.
Proof. lia. Qed.

(** ** The top level of the file (lines 20-57 and 397) *)
Definition main : IO Proc :=
  (if negb (truthy (botToken cfg)) then
     console_error [Str "❌ CRITICAL ERROR: TELEGRAM_BOT_TOKEN is not defined in your .env file or environment variables."] ;;
     console_error [Str "   The bot cannot start without the token."] ;;
     exit 1
   else ret tt) ;;
  (if negb (truthy (chatId cfg)) then
     console_error [Str "❌ CRITICAL ERROR: TELEGRAM_CHAT_ID is not defined in your .env file or environment variables."] ;;
     console_error [Str "   The bot needs a chat ID to send messages."] ;;
     exit 1
   else ret tt) ;;
  (if negb (truthy (messageThreadId cfg)) then
     console_warn [Str "⚠️  Optional: TELEGRAM_MESSAGE_THREAD_ID is not defined. Messages will be sent to the main chat, not a specific topic/thread."]
   else ret tt) ;;
  (if negb (truthy (imageUrl cfg)) then
     console_warn [Str "⚠️  Optional: TELEGRAM_IMAGE_URL is not defined. Startup/daily photos will not be sent."]
   else ret tt) ;;
  (if negb (truthy (dollarApiUrl cfg)) then
     console_warn [Str "⚠️  Optional: PYDOLARVE_API_URL is not defined. Dollar rates cannot be fetched."]
   else ret tt) ;;
  try_catch
    (call (NewTelegramBot (botToken cfg)) (new_TelegramBot w (botToken cfg)) ;;
     console_log [Str "🤖 Telegram Bot initialized."])
    (fun error =>
       console_error [Str "❌ Failed to initialize Telegram Bot instance."] ;;
       message <- member error "message" ;;
       console_error [Str "   Error:"; message] ;;
       exit 1) ;;
  startServer (initialPort cfg).

End Program.

(** ** The scheduler at work

    The scheduler is the library node-cron, which is no part of the
    repository: [run_task], [run_tasks], [tick_with], [run_ticks_with]
    and [run_ticks] are a model of its task runner, not an embedding of
    code of [src/app.js]. In this model, at one tick of the clock at 14:00
    UTC+3 in the world [w], every task that is registered and scheduled
    runs its callback; a callback that throws ends there, and the task
    runner goes on; a callback that leaves the process ends the run. What
    the repository contributes to a tick is the callback,
    [cron_callback_with] above. *)
Definition run_task (callback : IO unit) : IO unit :=
  try_catch callback (fun _ => ret tt).

Fixpoint run_tasks (callback : IO unit) (tasks : list CronTask) : IO unit :=
  match tasks with
  | [] => ret tt
  | task :: rest =>
      (if scheduled task then run_task callback else ret tt) ;;
      run_tasks callback rest
  end.

Definition tick_with (pipeline : World -> IO unit) (w : World) (proc : Proc) : IO Proc :=
  run_tasks (cron_callback_with w (pipeline w)) (cronTasks proc) ;;
  ret proc.

(** The ticks of successive days, each in the world of its day. *)
Fixpoint run_ticks_with (pipeline : World -> IO unit) (ws : list World) (proc : Proc) : IO Proc :=
  match ws with
  | [] => ret proc
  | w :: rest =>
      proc' <- tick_with pipeline w proc ;;
      run_ticks_with pipeline rest proc'
  end.

Definition run_ticks (cfg : Config) : list World -> Proc -> IO Proc :=
  run_ticks_with (fun w => sendDailyUpdate w cfg).

End App.

(* ===================================================================== *)
(** * Observations on traces, expected texts, sample worlds *)
(* ===================================================================== *)

Module Observe.

Import Text Number Js Effects App.

Definition is_console (e : event) : bool :=
  match e with Console _ _ => true | _ => false end.

Definition is_send (e : event) : bool :=
  match e with SendPhoto _ _ _ | SendMessage _ _ _ => true | _ => false end.

Definition is_http_get (e : event) : bool :=
  match e with HttpGet _ _ => true | _ => false end.

Definition is_listen (e : event) : bool :=
  match e with Listen _ => true | _ => false end.

(** The messages handed to the Telegram API, in order. *)
Definition sends (t : list event) : list event := filter is_send t.

(** The requests made to the rate API, in order. *)
Definition http_gets (t : list event) : list event := filter is_http_get t.

(** The ports [server.listen] was called with, in order. *)
Definition listens (t : list event) : list event := filter is_listen t.

(** Only console output. *)
Definition quiet (t : list event) : Prop := forallb is_console t = true.

(** What a report pipeline may do: print, ask the rate API, send to
    Telegram. *)
Definition is_outbound (e : event) : bool :=
  is_console e || is_http_get e || is_send e.

Definition outbound (t : list event) : Prop := forallb is_outbound t = true.

(** The successive calls [listen(base)], [listen(base + 1)], ... *)
Definition bind_attempts (base : Z) (n : nat) : list event :=
  map (fun j => Listen (base + Z.of_nat j)) (seq 0 n).

(** The text a message carries: the caption of a photo, the body of a
    text message. *)
Definition text_of (e : event) : option string :=
  match e with
  | SendPhoto _ _ options => caption options
  | SendMessage _ text _ => Some text
  | _ => None
  end.

(** A computation that only prints and ends normally. *)
Definition prints_and_returns {A} (m : IO A) : Prop :=
  quiet (trace m) /\ exists a, result_of m = Returned a.

(** A computation that only prints and does not leave the process. *)
Definition prints_and_stays {A} (m : IO A) : Prop :=
  quiet (trace m) /\ forall c, result_of m <> Exited c.

(** ** Expected texts *)

(** The date stamp the startup caption carries, and the one of the
    daily caption. *)
Definition startup_stamp (w : World) : string :=
  match toLocaleString w "es-VE" startup_date_options with
  | Ok d => d
  | Err _ => ""
  end.

Definition daily_stamp (w : World) : string :=
  match toLocaleString w "es-ES" daily_date_options with
  | Ok d => d
  | Err _ => "[Fecha/Hora no disponible]"
  end.

(** The caption before the rates are looked at (lines 115-129). *)
Definition startup_default_caption (w : World) : string :=
  match toLocaleString w "es-VE" startup_date_options with
  | Ok d => "🗓️ *Fecha:* " ++ d ++ LF ++ LF ++ "⚡️ Bot iniciado y listo."
  | Err _ => "[Fecha no disponible]" ++ LF ++ LF ++ "⚡️ Bot iniciado y listo."
  end.

Definition daily_heading (stamp : string) : string :=
  "🗓️ *Fecha:* " ++ stamp ++ " (UTC+3)" ++ LF ++ LF ++ "📊 *Reporte Diario*".

(** The three lines of rates, as both reports print them. *)
Definition rates_block (p s : number) : string :=
  "*Cotización (VEN 🇻🇪)*" ++ LF ++ LF
  ++ "*BCV:* " ++ toFixed p 2 ++ " Bs" ++ LF
  ++ "*Paralelo:* " ++ toFixed s 2 ++ " Bs" ++ LF
  ++ "*Promedio:* " ++ toFixed (div (add p s) (Number.of_Z 2)) 2 ++ " Bs".

Definition startup_rates_caption (stamp : string) (p s : number) : string :=
  "🗓️ *Fecha:* " ++ stamp ++ LF ++ LF ++ rates_block p s.

Definition daily_rates_caption (stamp : string) (p s : number) : string :=
  daily_heading stamp ++ (LF ++ LF ++ rates_block p s).

Definition startup_unavailable_caption (stamp : string) : string :=
  "🗓️ *Fecha:* " ++ stamp ++ LF ++ LF
  ++ "⚠️ No se pudieron obtener las tasas actuales."
  ++ LF ++ LF ++ "⚡️ Bot iniciado y listo.".

Definition daily_unavailable_caption (stamp : string) : string :=
  daily_heading stamp ++ (LF ++ LF ++ "⚠️ No se pudieron obtener las tasas actuales.").

Definition startup_failure_caption (stamp : string) : string :=
  "🗓️ *Fecha:* " ++ stamp ++ LF ++ LF
  ++ "⚠️ Error al obtener las tasas."
  ++ LF ++ LF ++ "⚡️ Bot iniciado y listo.".

Definition daily_failure_caption (stamp : string) : string :=
  daily_heading stamp ++ (LF ++ LF ++ "⚠️ Error al obtener las tasas actuales.").

Definition startup_unconfigured_caption (w : World) : string :=
  startup_default_caption w ++ " (URL de API no configurada)".

Definition daily_unconfigured_caption (stamp : string) : string :=
  daily_heading stamp ++ (LF ++ LF ++ "(URL de API no configurada para tasas)").

(** The price field of a monitor, through the optional chain. *)
Definition price_of (monitor : string) (response : value) : value :=
  get_optional
    (get_optional
       (get_optional (get_optional response "data") "monitors")
       monitor)
    "price".

(** The options of the photo and of the fallback text message. *)
Definition photo_options (cfg : Config) (captionText : string) : SendOptions :=
  with_caption (with_parse_mode (buildTelegramOptions cfg) "Markdown") captionText.

Definition text_options (cfg : Config) : SendOptions :=
  with_parse_mode (buildTelegramOptions cfg) "Markdown".

(** The shape the two sending blocks share: the photo, and on failure
    the error printer and one text message. [startup_send] and
    [daily_send] are this with their own five texts. *)
Definition send_with_fallback (w : World) (cfg : Config)
    (sent_line action banner fallback_line fallback_action : string)
    (image captionText : string) : IO unit :=
  try_catch
    (bind (call (SendPhoto (chatId cfg) image (photo_options cfg captionText))
                (bot_sendPhoto w (chatId cfg) image (photo_options cfg captionText)))
          (fun _ => console_log [Str sent_line]))
    (fun telegramError =>
       bind (handleTelegramError w action telegramError)
            (fun _ =>
               try_catch
                 (bind (call (SendMessage (chatId cfg)
                                (banner ++ LF ++ LF ++ captionText) (text_options cfg))
                             (bot_sendMessage w (chatId cfg)
                                (banner ++ LF ++ LF ++ captionText) (text_options cfg)))
                       (fun _ => console_log [Str fallback_line]))
                 (fun fallbackError =>
                    handleTelegramError w fallback_action fallbackError))).

(** The bind attempts that end in [EADDRINUSE], from port [p] on. *)
Definition in_use (w : World) (port : Z) : Prop :=
  exists error,
    server_listen w port = Failed error /\
    equals_string (lookup "code" error) "EADDRINUSE" = true.

Definition retry_events (port : Z) : list event :=
  [Listen port;
   Console WARN
     [Str ("⚠️ Port " ++ Text.of_Z port ++ " is already in use. Trying port "
           ++ Text.of_Z (port + 1) ++ "...")];
   ServerClose (ThenSetTimeout (ThenStartServer (port + 1)) 200);
   SetTimeout (ThenStartServer (port + 1)) 200].

Fixpoint retries (port : Z) (k : nat) : list event :=
  match k with
  | O => []
  | S k' => (retry_events port ++ retries (port + 1) k')%list
  end.

(** The emergency sequence: the listening socket is asked to close and
    a timer is armed that leaves the process with a non-zero code. *)
Definition drives_shutdown (t : list event) : Prop :=
  (exists k, In (ServerClose k) t) /\
  (exists lines code ms, code <> 0 /\ In (SetTimeout (ThenExit lines code) ms) t).

(** The line a tick prints before it starts the pipeline. *)
Definition tick_line (stamp : string) : event :=
  Console LOG [Str ("⏰ [" ++ stamp ++ "] Ejecutando tarea programada (14:00 UTC+3)...")].

Definition tick_failure_line (e : value) : event :=
  Console ERROR [Str "❌ Error dentro de la tarea programada (sendDailyUpdate):"; e].

(** What the listener of lines 433-439 prints, through [shutdown], while
    no server is bound. *)
Definition uncaught_events (error : value) : list event :=
  [Console ERROR [Str "❌ Uncaught Exception:"; error];
   Console LOG [Str (LF ++ "uncaughtException signal received: closing HTTP server...")];
   Console LOG [Str "ℹ️ No active server to close."]].

(** With the rate API configured, a report is one of four: the rates,
    the notice that they are not valid numbers, and the failure of the
    fetch, be it the request that failed (lines 174-188) or a price that
    [parseFloat] could not read, which the same [catch] receives. *)
Inductive report_kind : Type :=
| Rates (response : value)
| Unavailable (response : value)
| Unreadable (response : value)
| Unreachable (error : props).

Definition report_kind_of (w : World) (url : string) : report_kind :=
  match axios_get w url 10000 with
  | Err error => Unreachable error
  | Ok response =>
      if converts (bcvPrice_of response) && converts (paraleloPrice_of response) then
        if isNaN (bcvNum_of response) || isNaN (paraleloNum_of response)
        then Unavailable response
        else Rates response
      else Unreadable response
  end.

End Observe.

(** ** Sample configurations and worlds *)

Module Sample.

Import Text Number Js Effects App.

Definition cfg : Config :=
  {| initialPort := 10000;
     botToken := Some "123456:token";
     chatId := Some "-1001234";
     messageThreadId := Some "7";
     imageUrl := Some "https://example.org/rates.png";
     dollarApiUrl := Some "https://example.org/api/v1/dollar" |}.

Definition cfg_no_api : Config :=
  {| initialPort := 10000;
     botToken := Some "123456:token";
     chatId := Some "-1001234";
     messageThreadId := None;
     imageUrl := Some "https://example.org/rates.png";
     dollarApiUrl := None |}.

Definition cfg_no_image : Config :=
  {| initialPort := 10000;
     botToken := Some "123456:token";
     chatId := Some "-1001234";
     messageThreadId := None;
     imageUrl := None;
     dollarApiUrl := Some "https://example.org/api/v1/dollar" |}.

(** A formatter that prints one fixed instant in the layout asked for. *)
Definition format_date (locale : string) (options : DateTimeFormatOptions) : result string :=
  match hour options, day options with
  | Some _, _ => Ok "02/11/2026, 14:00"
  | None, Some _ => Ok "02/11/2026"
  | None, None => Ok "02/11/2026, 14:00:00"
  end.

(** The response object of the rate API with the two given prices. *)
Definition response (bcv paralelo : value) : value :=
  Obj [("status", Num (Number.of_Z 200));
       ("data",
        Obj [("monitors",
              Obj [("bcv", Obj [("price", bcv)]);
                   ("enparalelovzla", Obj [("price", paralelo)])])])].

Definition network_error : props :=
  [("code", Str "ETIMEDOUT"); ("message", Str "timeout of 10000ms exceeded")].

Definition address_in_use : props :=
  [("code", Str "EADDRINUSE"); ("message", Str "listen EADDRINUSE")].


(** A world: what the rate API answers, what Telegram answers to the
    photo and to the text message, and what each port answers. *)
Definition world (api : result value) (photo text : result unit)
    (listen : Z -> listen_result) : World :=
  {| toLocaleString := format_date;
     JSON_parse := fun _ => Err [("name", Str "SyntaxError")];
     JSON_stringify := fun _ => Undefined;
     axios_get := fun _ _ => api;
     bot_sendPhoto := fun _ _ _ => photo;
     bot_sendMessage := fun _ _ _ => text;
     new_TelegramBot := fun _ => Ok tt;
     server_listen := listen;
     cron_schedule := fun _ _ _ => Ok tt |}.

Definition all_free (port : Z) : listen_result := Bound port.

Definition free_from (first : Z) (port : Z) : listen_result :=
  if first <=? port then Bound port else Failed address_in_use.


Definition healthy (bcv paralelo : value) : World :=
  world (Ok (response bcv paralelo)) (Ok tt) (Ok tt) all_free.

Definition telegram_down : World :=
  world (Ok (response (Str "36.50") (Str "40.00")))
        (Err network_error) (Err network_error) all_free.

(** A world in which the date cannot be formatted. *)
Definition no_dates : World :=
  {| toLocaleString := fun _ _ => Err [("name", Str "RangeError")];
     JSON_parse := fun _ => Err [("name", Str "SyntaxError")];
     JSON_stringify := fun _ => Undefined;
     axios_get := fun _ _ => Ok (response (Str "36.50") (Str "40.00"));
     bot_sendPhoto := fun _ _ _ => Ok tt;
     bot_sendMessage := fun _ _ _ => Ok tt;
     new_TelegramBot := fun _ => Ok tt;
     server_listen := all_free;
     cron_schedule := fun _ _ _ => Ok tt |}.

Definition listening_proc : Proc :=
  {| serverInstance := Some {| address_port := 10000 |};
     cronTasks := [{| expression := "0 14 * * *";
                      scheduled := true;
                      timezone := "Etc/GMT-3" |}] |}.

(** A pipeline that fails on the days the rate API is down and is the
    program's own on the others: the simulated failure of one tick. *)
Definition flaky_pipeline (w : World) : IO unit :=
  match axios_get w "" 0 with
  | Err _ => throw (Str "simulated failure")
  | Ok _ => sendDailyUpdate w cfg
  end.

End Sample.

(* ===================================================================== *)
(** * The environment, expected events, further scenarios *)
(* ===================================================================== *)

Module Environment.

Import Text Number Js.

(** [parseInt(s, 10)]: leading white space and one sign are skipped, the
    longest run of decimal digits is read and what follows is ignored;
    [NaN] when there is no digit to read. *)
Definition parseInt (s : string) : number :=
  let '(neg, s1) := scan_sign (trim_start s) in
  let '(mathInt, count, _) := scan_digits 0 0 s1 in
  if 0 <? count then of_decimal neg mathInt 0 else NaN.

(** Line 10: [parseInt(process.env.PORT || '10000', 10)]. *)
Definition initialPort_of (PORT : option string) : number :=
  parseInt (if truthy PORT
            then match PORT with Some s => s | None => "" end
            else "10000").

(** A text made of decimal digits only, and the integer it spells on
    top of [acc]. *)
Fixpoint all_digits (s : string) : bool :=
  match s with
  | EmptyString => true
  | String c s' => is_digit c && all_digits s'
  end.

Fixpoint digits_value (acc : Z) (s : string) : Z :=
  match s with
  | EmptyString => acc
  | String c s' => digits_value (10 * acc + digit_value c) s'
  end.

(** A text that does not go on with a digit. *)
Definition stops_digits (s : string) : bool :=
  match s with
  | EmptyString => true
  | String c _ => negb (is_digit c)
  end.

(** A text that does not go on with a digit, a point or an exponent
    mark: what may follow an integer without continuing the number
    [parseFloat] reads. *)
Definition ends_number (rest : string) : bool :=
  match rest with
  | EmptyString => true
  | String c _ =>
      negb (is_digit c || Ascii.eqb c "." || Ascii.eqb c "e" || Ascii.eqb c "E")
  end.

End Environment.

Module Expected.

Import Text Number Js Effects App Observe.

(** [v] is [undefined] or [null]. *)
Definition nullish (v : value) : bool :=
  match v with Undefined | Null => true | _ => false end.

(** A text that begins with a character other than the N of NaN. *)
Definition starts_well (s : string) : Prop :=
  exists c t, s = String c t /\ c <> "N"%char.

(** The first and the last line [handleTelegramError] prints. *)
Definition error_header (action : string) : event :=
  Console ERROR [Str ("❌ Error " ++ action ++ ":")].

Definition error_hint : event :=
  Console ERROR
    [Str "   (Check BOT_TOKEN, CHAT_ID, Thread ID, bot permissions in chat, network connectivity)"].

(** The line the [catch] of the rate fetch prints after its first line
    (lines 177-186 and 288-294), by what the error carries. *)
Definition api_error_detail (w : World) (apiError : props) : event :=
  let response := lookup "response" apiError in
  if ToBoolean response then
    Console ERROR
      [Str ("   Status: " ++ ToString (get_optional response "status")
            ++ ", Data: " ++ ToString (JSON_stringify w (get_optional response "data")))]
  else if ToBoolean (lookup "request" apiError) then
    Console ERROR [Str "   No response received from API:"; lookup "message" apiError]
  else
    Console ERROR [Str "   Error en la configuración de Axios:"; lookup "message" apiError].

(** The requests one run of a pipeline makes to the rate API. *)
Definition api_requests (cfg : Config) : list event :=
  match dollarApiUrl cfg with
  | Some (String c u) => [HttpGet (String c u) 10000]
  | _ => []
  end.

(** The thread a message goes to: the configured one, none when it is
    unset or empty. *)
Definition thread_of (cfg : Config) : option string :=
  if truthy (messageThreadId cfg) then messageThreadId cfg else None.

(** A message addressed as the configuration says: to the configured
    chat, in Markdown, in the configured thread if there is one; a photo
    is the configured image and carries a caption, a text message
    carries none. *)
Definition well_addressed (cfg : Config) (e : event) : Prop :=
  match e with
  | SendPhoto chat photo options =>
      chat = chatId cfg /\ imageUrl cfg = Some photo /\
      parse_mode options = Some "Markdown" /\
      message_thread_id options = thread_of cfg /\
      caption options <> None
  | SendMessage chat text options =>
      chat = chatId cfg /\
      parse_mode options = Some "Markdown" /\
      message_thread_id options = thread_of cfg /\
      caption options = None
  | _ => False
  end.

(** The task the program registers (lines 366-377). *)
Definition daily_task : CronTask :=
  {| expression := "0 14 * * *"; scheduled := true; timezone := "Etc/GMT-3" |}.

(** What the scheduling block (lines 363-385) does and prints, and the
    tasks the scheduler holds after it. *)
Definition scheduling_events (w : World) : list event :=
  CronSchedule "0 14 * * *" true "Etc/GMT-3"
  :: match cron_schedule w "0 14 * * *" true "Etc/GMT-3" with
     | Ok _ =>
         [Console LOG [Str "⏰ Tarea diaria programada para ejecutarse a las 14:00 (2 PM) UTC+3."]]
     | Err cronError =>
         [Console ERROR [Str "❌ Error al programar la tarea diaria con cron:"; Obj cronError]]
     end.

Definition scheduled_tasks (w : World) : list CronTask :=
  match cron_schedule w "0 14 * * *" true "Etc/GMT-3" with
  | Ok _ => [daily_task]
  | Err _ => []
  end.



(** The warnings of lines 36-46, one for each optional setting that is
    unset or empty. *)
Definition optional_warnings (cfg : Config) : list event :=
  ((if truthy (messageThreadId cfg) then []
    else [Console WARN [Str "⚠️  Optional: TELEGRAM_MESSAGE_THREAD_ID is not defined. Messages will be sent to the main chat, not a specific topic/thread."]])
   ++ (if truthy (imageUrl cfg) then []
       else [Console WARN [Str "⚠️  Optional: TELEGRAM_IMAGE_URL is not defined. Startup/daily photos will not be sent."]])
   ++ (if truthy (dollarApiUrl cfg) then []
       else [Console WARN [Str "⚠️  Optional: PYDOLARVE_API_URL is not defined. Dollar rates cannot be fetched."]]))%list.

(** The line printed when the last port of the window was in use. *)
Definition exhausted_line (cfg : Config) : event :=
  Console ERROR
    [Str ("❌ Failed to find an available port after trying from "
          ++ Text.of_Z (initialPort cfg) ++ " up to "
          ++ Text.of_Z (initialPort cfg + MAX_PORT_ATTEMPTS - 1) ++ ". Exiting.")].

End Expected.

Module Scenarios.

Import Text Number Js Effects App.

Definition cfg_no_token : Config :=
  {| initialPort := 10000;
     botToken := Some "";
     chatId := Some "-1001234";
     messageThreadId := None;
     imageUrl := Some "https://example.org/rates.png";
     dollarApiUrl := None |}.

Definition cfg_no_chat : Config :=
  {| initialPort := 10000;
     botToken := Some "123456:token";
     chatId := None;
     messageThreadId := None;
     imageUrl := Some "https://example.org/rates.png";
     dollarApiUrl := None |}.

(** The error of a request Telegram answered with a decoded body. *)
Definition chat_not_found : value :=
  Obj [("code", Str "ETELEGRAM");
       ("response",
        Obj [("body",
              Obj [("ok", Bool false);
                   ("error_code", Num (Number.of_Z 400));
                   ("description", Str "Bad Request: chat not found")])])].

(** The error of a request a gateway answered with plain text. *)
Definition bad_gateway : value :=
  Obj [("code", Str "EPARSE");
       ("response", Obj [("body", Str "Bad Gateway")])].





(** A world in which the scheduler refuses every task. *)
Definition no_scheduler : World :=
  {| toLocaleString := Sample.format_date;
     JSON_parse := fun _ => Err [("name", Str "SyntaxError")];
     JSON_stringify := fun _ => Undefined;
     axios_get := fun _ _ => Ok (Sample.response (Str "36.50") (Str "40.00"));
     bot_sendPhoto := fun _ _ _ => Ok tt;
     bot_sendMessage := fun _ _ _ => Ok tt;
     new_TelegramBot := fun _ => Ok tt;
     server_listen := Sample.all_free;
     cron_schedule := fun _ _ _ => Err [("message", Str "invalid timezone")] |}.

(** A world in which the bot object cannot be built. *)
Definition no_bot : World :=
  {| toLocaleString := Sample.format_date;
     JSON_parse := fun _ => Err [("name", Str "SyntaxError")];
     JSON_stringify := fun _ => Undefined;
     axios_get := fun _ _ => Ok (Sample.response (Str "36.50") (Str "40.00"));
     bot_sendPhoto := fun _ _ _ => Ok tt;
     bot_sendMessage := fun _ _ _ => Ok tt;
     new_TelegramBot := fun _ => Err [("message", Str "Telegram Bot Token not provided!")];
     server_listen := Sample.all_free;
     cron_schedule := fun _ _ _ => Ok tt |}.

End Scenarios.

(* ===================================================================== *)
(** * Facts about the monad and about traces *)
(* ===================================================================== *)

Module IOFacts.

Import Text Number Js Effects App Observe.

Lemma bind_returned {A B} (t : list event) (a : A) (f : A -> IO B) :
  bind (t, Returned a) f = ((t ++ trace (f a))%list, result_of (f a)).
Proof. unfold bind, trace, result_of. destruct (f a); reflexivity. Qed.

Lemma bind_returns {A B} (m : IO A) (f : A -> IO B) a :
  result_of m = Returned a ->
  bind m f = ((trace m ++ trace (f a))%list, result_of (f a)).
Proof. destruct m as [t o]. cbn [result_of snd trace fst]. intros ->. apply bind_returned. Qed.

Lemma bind_emit {B} (e : event) (f : unit -> IO B) :
  bind (emit e) f = (e :: trace (f tt), result_of (f tt)).
Proof. unfold emit. rewrite bind_returned. reflexivity. Qed.

Lemma bind_ret {A B} (a : A) (f : A -> IO B) : bind (ret a) f = f a.
Proof. unfold ret. rewrite bind_returned. destruct (f a); reflexivity. Qed.

Lemma io_eta {A} (m : IO A) : m = (trace m, result_of m).
Proof. destruct m; reflexivity. Qed.

Lemma try_catch_thrown {A} t e (h : value -> IO A) :
  try_catch (t, Thrown e) h = ((t ++ trace (h e))%list, result_of (h e)).
Proof. unfold try_catch, trace, result_of. destruct (h e); reflexivity. Qed.

(** ** Quiet traces *)

Lemma quiet_app t u : quiet t -> quiet u -> quiet (t ++ u).
Proof. unfold quiet. intros Ht Hu. rewrite forallb_app, Ht, Hu. reflexivity. Qed.

Lemma quiet_cons_console lvl args t : quiet t -> quiet (Console lvl args :: t).
Proof. unfold quiet. simpl. auto. Qed.

Lemma quiet_sends t : quiet t -> sends t = [].
Proof.
  unfold quiet, sends. induction t as [|e t IH]; simpl; [reflexivity|].
  intros H. apply andb_prop in H as [He Ht].
  destruct e; simpl in *; try discriminate. auto.
Qed.

Lemma quiet_http_gets t : quiet t -> http_gets t = [].
Proof.
  unfold quiet, http_gets. induction t as [|e t IH]; simpl; [reflexivity|].
  intros H. apply andb_prop in H as [He Ht].
  destruct e; simpl in *; try discriminate. auto.
Qed.

Lemma quiet_listens t : quiet t -> listens t = [].
Proof.
  unfold quiet, listens. induction t as [|e t IH]; simpl; [reflexivity|].
  intros H. apply andb_prop in H as [He Ht].
  destruct e; simpl in *; try discriminate. auto.
Qed.

Lemma sends_app t u : sends (t ++ u) = (sends t ++ sends u)%list.
Proof. apply filter_app. Qed.

Lemma http_gets_app t u : http_gets (t ++ u) = (http_gets t ++ http_gets u)%list.
Proof. apply filter_app. Qed.

Lemma listens_app t u : listens (t ++ u) = (listens t ++ listens u)%list.
Proof. apply filter_app. Qed.

(** ** Outbound traces *)

Lemma outbound_app t u : outbound t -> outbound u -> outbound (t ++ u).
Proof. unfold outbound. intros Ht Hu. rewrite forallb_app, Ht, Hu. reflexivity. Qed.

Lemma outbound_listens t : outbound t -> listens t = [].
Proof.
  unfold outbound, listens. induction t as [|e t IH]; simpl; [reflexivity|].
  intros H. apply andb_prop in H as [He Ht].
  destruct e; simpl in *; try discriminate; auto.
Qed.

Lemma outbound_ret {A} (a : A) : outbound (trace (ret a)).
Proof. reflexivity. Qed.

Lemma outbound_emit e : is_outbound e = true -> outbound (trace (emit e)).
Proof. intros H. unfold outbound. simpl. rewrite H. reflexivity. Qed.

Lemma outbound_call {A} e (r : result A) :
  is_outbound e = true -> outbound (trace (call e r)).
Proof. intros H. unfold outbound. simpl. rewrite H. reflexivity. Qed.

Lemma outbound_of_result {A} (r : result A) : outbound (trace (of_result r)).
Proof. reflexivity. Qed.

Lemma outbound_member v k : outbound (trace (member v k)).
Proof. reflexivity. Qed.

Lemma outbound_of_sum {A} (r : A + value) : outbound (trace (of_sum r)).
Proof. reflexivity. Qed.

Lemma outbound_bind {A B} (m : IO A) (f : A -> IO B) :
  outbound (trace m) -> (forall a, outbound (trace (f a))) ->
  outbound (trace (bind m f)).
Proof.
  intros Hm Hf. destruct m as [t [a|e|c]]; cbn [trace fst] in Hm.
  - rewrite bind_returned. cbn [trace fst]. apply outbound_app; [exact Hm | apply Hf].
  - exact Hm.
  - exact Hm.
Qed.

Lemma outbound_try_catch {A} (m : IO A) (h : value -> IO A) :
  outbound (trace m) -> (forall e, outbound (trace (h e))) ->
  outbound (trace (try_catch m h)).
Proof.
  intros Hm Hh. destruct m as [t [a|e|c]]; cbn [trace fst] in Hm.
  - exact Hm.
  - rewrite try_catch_thrown. cbn [trace fst]. apply outbound_app; [exact Hm | apply Hh].
  - exact Hm.
Qed.

(** ** Computations that only print *)

Lemma returns_stays {A} (m : IO A) : prints_and_returns m -> prints_and_stays m.
Proof.
  intros [Hq [a Ha]]. split; [exact Hq|]. intros c Hc. congruence.
Qed.

Lemma returns_ret {A} (a : A) : prints_and_returns (ret a).
Proof. split; [reflexivity | exists a; reflexivity]. Qed.

Lemma returns_console lvl args : prints_and_returns (emit (Console lvl args)).
Proof. split; [reflexivity | exists tt; reflexivity]. Qed.

Lemma returns_bind {A B} (m : IO A) (f : A -> IO B) :
  prints_and_returns m -> (forall a, prints_and_returns (f a)) ->
  prints_and_returns (bind m f).
Proof.
  intros [Hq [a Ha]] Hf. destruct m as [t o]. cbn [trace result_of fst snd] in *. subst o.
  rewrite bind_returned. destruct (Hf a) as [Hq' [b Hb]].
  split; [apply quiet_app; assumption | exists b; exact Hb].
Qed.

Lemma stays_bind {A B} (m : IO A) (f : A -> IO B) :
  prints_and_stays m -> (forall a, prints_and_stays (f a)) ->
  prints_and_stays (bind m f).
Proof.
  intros [Hq Hs] Hf. destruct m as [t [a|e|c]]; cbn [trace result_of fst snd] in *.
  - rewrite bind_returned. destruct (Hf a) as [Hq' Hs'].
    split; [apply quiet_app; assumption | exact Hs'].
  - split; [exact Hq | discriminate].
  - exfalso. apply (Hs c). reflexivity.
Qed.

Lemma returns_try_catch {A} (m : IO A) (h : value -> IO A) :
  prints_and_stays m -> (forall e, prints_and_returns (h e)) ->
  prints_and_returns (try_catch m h).
Proof.
  intros [Hq Hs] Hh. destruct m as [t [a|e|c]]; cbn [trace result_of fst snd] in *.
  - split; [exact Hq | exists a; reflexivity].
  - destruct (Hh e) as [Hq' [a Ha]]. rewrite try_catch_thrown.
    split; [apply quiet_app; assumption | exists a; exact Ha].
  - exfalso. apply (Hs c). reflexivity.
Qed.

Lemma stays_lift_get r : prints_and_stays (lift_get r).
Proof. split; [reflexivity|]. destruct r; discriminate. Qed.

Lemma stays_member v k : prints_and_stays (member v k).
Proof. apply stays_lift_get. Qed.

Lemma stays_of_result {A} (r : result A) : prints_and_stays (of_result r).
Proof. split; [reflexivity|]. destruct r; discriminate. Qed.

Lemma stays_of_sum {A} (r : A + value) : prints_and_stays (of_sum r).
Proof. split; [reflexivity|]. destruct r; discriminate. Qed.

(** Reading a property of a value that is not [undefined] or [null]
    does not throw; a truthy value is such a value. *)
Lemma get_truthy v k : ToBoolean v = true -> get v k = inl (get_optional v k).
Proof. destruct v; simpl; try discriminate; reflexivity. Qed.

Lemma member_truthy v k :
  ToBoolean v = true -> member v k = ret (get_optional v k).
Proof. intros H. unfold member, lift_get. rewrite (get_truthy _ _ H). reflexivity. Qed.

Lemma member_object ps k : member (Obj ps) k = ret (lookup k ps).
Proof. reflexivity. Qed.

Lemma returns_member_truthy v k :
  ToBoolean v = true -> prints_and_returns (member v k).
Proof. intros H. rewrite (member_truthy _ _ H). apply returns_ret. Qed.

End IOFacts.

(* ===================================================================== *)
(** * The two error printers never fail on an Error object *)
(* ===================================================================== *)

Module ErrorLogging.

Import Text Number Js Effects App Observe IOFacts.

Create HintDb io discriminated.

#[local] Hint Resolve returns_ret returns_console returns_bind
  stays_bind stays_member stays_of_result stays_lift_get
  returns_try_catch returns_member_truthy : io.
#[local] Hint Resolve returns_stays | 10 : io.
#[local] Hint Unfold console_error console_warn console_log : io.

(** Splits on the test of the [if] at the head of the goal. *)
Ltac split_if :=
  match goal with
  | |- context [if ?b then _ else _] => destruct b eqn:?
  end.

(** Walks down a computation made of [bind], [try_catch], tests and
    single events, showing that its trace is outbound. *)
Ltac outbound_walk :=
  repeat (intros;
          first
            [ apply outbound_ret
            | apply outbound_member
            | apply outbound_of_result
            | apply outbound_of_sum
            | apply outbound_emit; reflexivity
            | apply outbound_call; reflexivity
            | apply outbound_bind
            | apply outbound_try_catch
            | match goal with
              | |- context [if ?b then _ else _] => destruct b
              end
            | match goal with
              | |- context [match ?x with _ => _ end] => destruct x
              end ]).

Lemma handleTelegramError_outbound w action error :
  outbound (trace (handleTelegramError w action error)).
Proof. unfold handleTelegramError, console_error. outbound_walk. Qed.

Lemma log_api_error_outbound w error :
  outbound (trace (log_api_error w error)).
Proof. unfold log_api_error, console_error. outbound_walk. Qed.

Lemma handleTelegramError_header w action error :
  exists t,
    trace (handleTelegramError w action error)
    = Console ERROR [Str ("❌ Error " ++ action ++ ":")] :: t.
Proof.
  unfold handleTelegramError, console_error at 1.
  rewrite bind_emit. eexists. reflexivity.
Qed.

Lemma handleTelegramError_prints w action ps :
  prints_and_returns (handleTelegramError w action (Obj ps)).
Proof.
  unfold handleTelegramError.
  apply returns_bind; [apply returns_console | intros _].
  rewrite member_object, bind_ret.
  destruct (ToBoolean (lookup "response" ps)) eqn:Hr.
  - rewrite (member_truthy _ _ Hr), bind_ret.
    apply returns_bind; [| intros _; apply returns_console].
    split_if.
    + apply returns_try_catch; [| intros; apply returns_console].
      apply stays_bind; [split_if; auto with io |].
      intros errorBody.
      repeat (apply stays_bind;
              [first [apply stays_member | apply stays_of_sum] | intros ?]).
      apply returns_stays, returns_console.
    + rewrite member_object, bind_ret. split_if.
      * apply returns_bind; [apply returns_console | intros _].
        rewrite member_object, bind_ret. apply returns_console.
      * rewrite member_object, bind_ret. apply returns_console.
  - rewrite bind_ret, Hr.
    apply returns_bind; [| intros _; apply returns_console].
    rewrite member_object, bind_ret. split_if.
    + apply returns_bind; [apply returns_console | intros _].
      rewrite member_object, bind_ret. apply returns_console.
    + rewrite member_object, bind_ret. apply returns_console.
Qed.

Lemma handleTelegramError_object w action ps :
  exists t,
    handleTelegramError w action (Obj ps)
    = (Console ERROR [Str ("❌ Error " ++ action ++ ":")] :: t, Returned tt)
    /\ quiet t.
Proof.
  destruct (handleTelegramError_header w action (Obj ps)) as [t Ht].
  destruct (handleTelegramError_prints w action ps) as [Hq [[] Hr]].
  exists t. split.
  - rewrite (io_eta (handleTelegramError w action (Obj ps))), Ht, Hr. reflexivity.
  - rewrite Ht in Hq. exact Hq.
Qed.

Lemma log_api_error_prints w ps : prints_and_returns (log_api_error w (Obj ps)).
Proof.
  unfold log_api_error.
  rewrite member_object, bind_ret.
  destruct (ToBoolean (lookup "response" ps)) eqn:Hr.
  - rewrite !(member_truthy _ _ Hr), !bind_ret. apply returns_console.
  - rewrite !member_object, !bind_ret. split_if; apply returns_console.
Qed.

End ErrorLogging.

(* ===================================================================== *)
(** * The report: what caption each case produces *)
(* ===================================================================== *)

Module Report.

Import Text Number Js Effects App Observe IOFacts ErrorLogging.

Lemma truthy_some url : url <> "" -> exists c u, url = String c u.
Proof. destruct url as [|c u]; [congruence | eauto]. Qed.

Lemma truthy_inv x :
  truthy x = true -> exists c u, x = Some (String c u).
Proof. destruct x as [[|c u]|]; simpl; try discriminate; eauto. Qed.

Lemma truthy_false_cases x : truthy x = false -> x = None \/ x = Some "".
Proof. destruct x as [[|c u]|]; simpl; try discriminate; auto. Qed.

(** ** Reading a price *)

Lemma parse_reads v :
  converts v = true -> of_sum (parseFloat_or_throw v) = ret (parseFloat v).
Proof.
  intros H. unfold parseFloat_or_throw, ToString_or_throw. rewrite H. reflexivity.
Qed.

Lemma parse_throws v :
  converts v = false ->
  of_sum (parseFloat_or_throw v)
  = throw (TypeError "Cannot convert object to primitive value").
Proof.
  intros H. unfold parseFloat_or_throw, ToString_or_throw. rewrite H. reflexivity.
Qed.

Lemma parse_inl v x :
  parseFloat_or_throw v = inl x -> converts v = true /\ x = parseFloat v.
Proof.
  unfold parseFloat_or_throw, ToString_or_throw, parseFloat.
  destruct (converts v); [intros [= <-]; split; reflexivity | discriminate].
Qed.

Lemma parse_inr v e : parseFloat_or_throw v = inr e -> converts v = false.
Proof.
  unfold parseFloat_or_throw, ToString_or_throw.
  destruct (converts v); [discriminate | reflexivity].
Qed.

(** ** The date stamps *)

Lemma startup_date_eq w :
  exists t,
    quiet t /\
    startup_date w = (t, Returned (startup_stamp w, startup_default_caption w)).
Proof.
  unfold startup_date, startup_stamp, startup_default_caption.
  destruct (toLocaleString w "es-VE" startup_date_options) as [d|e].
  - exists []. split; reflexivity.
  - eexists. split; [| reflexivity]. reflexivity.
Qed.

Lemma daily_date_eq w :
  exists t, quiet t /\ daily_date w = (t, Returned (daily_heading (daily_stamp w))).
Proof.
  unfold daily_date, daily_heading, daily_stamp.
  destruct (toLocaleString w "es-ES" daily_date_options) as [d|e].
  - exists []. split; reflexivity.
  - eexists. split; [| reflexivity]. reflexivity.
Qed.

(** ** The caption, case by case *)

Section Cases.

Variable w : World.
Variable cfg : Config.

Lemma startup_caption_unconfigured d c :
  truthy (dollarApiUrl cfg) = false ->
  startup_caption w cfg d c = ret (c ++ " (URL de API no configurada)").
Proof.
  intros H. unfold startup_caption.
  destruct (truthy_false_cases _ H) as [-> | ->]; reflexivity.
Qed.

Lemma daily_caption_unconfigured c :
  truthy (dollarApiUrl cfg) = false ->
  daily_caption w cfg c
  = ret (c ++ (LF ++ LF ++ "(URL de API no configurada para tasas)")).
Proof.
  intros H. unfold daily_caption.
  destruct (truthy_false_cases _ H) as [-> | ->]; reflexivity.
Qed.

Variable url : string.
Hypothesis Hurl : dollarApiUrl cfg = Some url.
Hypothesis Hconfigured : url <> "".

Lemma startup_caption_rates d c response :
  axios_get w url 10000 = Ok response ->
  converts (bcvPrice_of response) = true ->
  converts (paraleloPrice_of response) = true ->
  isNaN (bcvNum_of response) = false ->
  isNaN (paraleloNum_of response) = false ->
  startup_caption w cfg d c
  = ([HttpGet url 10000],
     Returned ("🗓️ *Fecha:* " ++ d ++ LF ++ LF
               ++ rates_block (bcvNum_of response) (paraleloNum_of response))).
Proof.
  intros Hget Hcb Hcs Hp Hs. unfold startup_caption. rewrite Hurl.
  destruct (truthy_some _ Hconfigured) as (a & u & ->).
  unfold call. rewrite Hget, bind_returned.
  rewrite (parse_reads _ Hcb), bind_ret, (parse_reads _ Hcs), bind_ret.
  fold (bcvNum_of response) (paraleloNum_of response). rewrite Hp, Hs. reflexivity.
Qed.

Lemma startup_caption_unavailable d c response :
  axios_get w url 10000 = Ok response ->
  converts (bcvPrice_of response) = true ->
  converts (paraleloPrice_of response) = true ->
  isNaN (bcvNum_of response) || isNaN (paraleloNum_of response) = true ->
  startup_caption w cfg d c
  = ([HttpGet url 10000;
      Console WARN
        [Str "⚠️ No se pudieron obtener precios válidos de la API (BCV o Paralelo no son números). Usando caption sin tasas específicas."]],
     Returned ("🗓️ *Fecha:* " ++ d ++ LF ++ LF
               ++ "⚠️ No se pudieron obtener las tasas actuales."
               ++ LF ++ LF ++ "⚡️ Bot iniciado y listo.")).
Proof.
  intros Hget Hcb Hcs Hnan. unfold startup_caption. rewrite Hurl.
  destruct (truthy_some _ Hconfigured) as (a & u & ->).
  unfold call. rewrite Hget, bind_returned.
  rewrite (parse_reads _ Hcb), bind_ret, (parse_reads _ Hcs), bind_ret.
  fold (bcvNum_of response) (paraleloNum_of response).
  rewrite <- negb_orb, Hnan. reflexivity.
Qed.

(** What the [catch] of the fetch does with the error [e]: its first
    line, the detail, and the caption that reports the failure. *)
Lemma startup_caption_caught d (t0 : list event) (e : props) :
  exists t,
    quiet t /\
    try_catch (A := string) (t0, Thrown (Obj e))
      (fun apiError =>
         bind (console_error [Str "❌ Error al obtener las tasas del dólar de la API:"])
           (fun _ =>
              bind (log_api_error w apiError)
                (fun _ =>
                   ret ("🗓️ *Fecha:* " ++ d ++ LF ++ LF
                        ++ "⚠️ Error al obtener las tasas."
                        ++ LF ++ LF ++ "⚡️ Bot iniciado y listo."))))
    = ((t0 ++ t)%list,
       Returned ("🗓️ *Fecha:* " ++ d ++ LF ++ LF
                 ++ "⚠️ Error al obtener las tasas."
                 ++ LF ++ LF ++ "⚡️ Bot iniciado y listo.")).
Proof.
  rewrite try_catch_thrown.
  destruct (log_api_error_prints w e) as [Hq [[] Hr]].
  unfold console_error at 1. rewrite bind_emit.
  rewrite (bind_returns _ _ _ Hr). cbn [ret trace result_of fst snd].
  eexists. split; [| reflexivity].
  apply quiet_cons_console, quiet_app; [exact Hq | reflexivity].
Qed.

Lemma daily_caption_caught c (t0 : list event) (e : props) :
  exists t,
    quiet t /\
    try_catch (A := string) (t0, Thrown (Obj e))
      (fun apiError =>
         bind (console_error [Str "❌ Error al obtener las tasas del dólar para el reporte diario:"])
           (fun _ =>
              bind (log_api_error w apiError)
                (fun _ =>
                   ret (c ++ (LF ++ LF ++ "⚠️ Error al obtener las tasas actuales.")))))
    = ((t0 ++ t)%list,
       Returned (c ++ (LF ++ LF ++ "⚠️ Error al obtener las tasas actuales."))).
Proof.
  rewrite try_catch_thrown.
  destruct (log_api_error_prints w e) as [Hq [[] Hr]].
  unfold console_error at 1. rewrite bind_emit.
  rewrite (bind_returns _ _ _ Hr). cbn [ret trace result_of fst snd].
  eexists. split; [| reflexivity].
  apply quiet_cons_console, quiet_app; [exact Hq | reflexivity].
Qed.

Lemma startup_caption_failure d c error :
  axios_get w url 10000 = Err error ->
  exists t,
    quiet t /\
    startup_caption w cfg d c
    = (HttpGet url 10000 :: t,
       Returned ("🗓️ *Fecha:* " ++ d ++ LF ++ LF
                 ++ "⚠️ Error al obtener las tasas."
                 ++ LF ++ LF ++ "⚡️ Bot iniciado y listo.")).
Proof.
  intros Hget. unfold startup_caption. rewrite Hurl.
  destruct (truthy_some _ Hconfigured) as (a & u & ->).
  unfold call. rewrite Hget. cbn [bind].
  destruct (startup_caption_caught d [HttpGet (String a u) 10000] error)
    as (t & Hq & ->).
  exists t. split; [exact Hq | reflexivity].
Qed.

(** A price whose conversion to text throws: [parseFloat] throws inside
    the [try], and the [catch] of the fetch reports a failure. *)
Lemma startup_caption_unreadable d c response :
  axios_get w url 10000 = Ok response ->
  converts (bcvPrice_of response) && converts (paraleloPrice_of response) = false ->
  exists t,
    quiet t /\
    startup_caption w cfg d c
    = (HttpGet url 10000 :: t,
       Returned ("🗓️ *Fecha:* " ++ d ++ LF ++ LF
                 ++ "⚠️ Error al obtener las tasas."
                 ++ LF ++ LF ++ "⚡️ Bot iniciado y listo.")).
Proof.
  intros Hget Hc. unfold startup_caption. rewrite Hurl.
  destruct (truthy_some _ Hconfigured) as (a & u & ->).
  unfold call. rewrite Hget, bind_returned.
  destruct (converts (bcvPrice_of response)) eqn:Hcb.
  - cbn [andb] in Hc.
    rewrite (parse_reads _ Hcb), bind_ret, (parse_throws _ Hc).
    cbn [trace result_of fst snd app throw bind].
    destruct (startup_caption_caught d [HttpGet (String a u) 10000]
                [("name", Str "TypeError");
                 ("message", Str "Cannot convert object to primitive value")])
      as (t & Hq & Ht).
    unfold TypeError. rewrite Ht.
    exists t. split; [exact Hq | reflexivity].
  - rewrite (parse_throws _ Hcb).
    cbn [trace result_of fst snd app throw bind].
    destruct (startup_caption_caught d [HttpGet (String a u) 10000]
                [("name", Str "TypeError");
                 ("message", Str "Cannot convert object to primitive value")])
      as (t & Hq & Ht).
    unfold TypeError. rewrite Ht.
    exists t. split; [exact Hq | reflexivity].
Qed.

Lemma daily_caption_rates c response :
  axios_get w url 10000 = Ok response ->
  converts (bcvPrice_of response) = true ->
  converts (paraleloPrice_of response) = true ->
  isNaN (bcvNum_of response) = false ->
  isNaN (paraleloNum_of response) = false ->
  daily_caption w cfg c
  = ([HttpGet url 10000],
     Returned (c ++ (LF ++ LF
                     ++ rates_block (bcvNum_of response) (paraleloNum_of response)))).
Proof.
  intros Hget Hcb Hcs Hp Hs. unfold daily_caption. rewrite Hurl.
  destruct (truthy_some _ Hconfigured) as (a & u & ->).
  unfold call. rewrite Hget, bind_returned.
  rewrite (parse_reads _ Hcb), bind_ret, (parse_reads _ Hcs), bind_ret.
  fold (bcvNum_of response) (paraleloNum_of response). rewrite Hp, Hs. reflexivity.
Qed.

Lemma daily_caption_unavailable c response :
  axios_get w url 10000 = Ok response ->
  converts (bcvPrice_of response) = true ->
  converts (paraleloPrice_of response) = true ->
  isNaN (bcvNum_of response) || isNaN (paraleloNum_of response) = true ->
  daily_caption w cfg c
  = ([HttpGet url 10000;
      Console WARN
        [Str "⚠️ No se pudieron obtener precios válidos de la API para el reporte diario."]],
     Returned (c ++ (LF ++ LF ++ "⚠️ No se pudieron obtener las tasas actuales."))).
Proof.
  intros Hget Hcb Hcs Hnan. unfold daily_caption. rewrite Hurl.
  destruct (truthy_some _ Hconfigured) as (a & u & ->).
  unfold call. rewrite Hget, bind_returned.
  rewrite (parse_reads _ Hcb), bind_ret, (parse_reads _ Hcs), bind_ret.
  fold (bcvNum_of response) (paraleloNum_of response).
  rewrite <- negb_orb, Hnan. reflexivity.
Qed.

Lemma daily_caption_failure c error :
  axios_get w url 10000 = Err error ->
  exists t,
    quiet t /\
    daily_caption w cfg c
    = (HttpGet url 10000 :: t,
       Returned (c ++ (LF ++ LF ++ "⚠️ Error al obtener las tasas actuales."))).
Proof.
  intros Hget. unfold daily_caption. rewrite Hurl.
  destruct (truthy_some _ Hconfigured) as (a & u & ->).
  unfold call. rewrite Hget. cbn [bind].
  destruct (daily_caption_caught c [HttpGet (String a u) 10000] error)
    as (t & Hq & ->).
  exists t. split; [exact Hq | reflexivity].
Qed.

Lemma daily_caption_unreadable c response :
  axios_get w url 10000 = Ok response ->
  converts (bcvPrice_of response) && converts (paraleloPrice_of response) = false ->
  exists t,
    quiet t /\
    daily_caption w cfg c
    = (HttpGet url 10000 :: t,
       Returned (c ++ (LF ++ LF ++ "⚠️ Error al obtener las tasas actuales."))).
Proof.
  intros Hget Hc. unfold daily_caption. rewrite Hurl.
  destruct (truthy_some _ Hconfigured) as (a & u & ->).
  unfold call. rewrite Hget, bind_returned.
  destruct (converts (bcvPrice_of response)) eqn:Hcb.
  - cbn [andb] in Hc.
    rewrite (parse_reads _ Hcb), bind_ret, (parse_throws _ Hc).
    cbn [trace result_of fst snd app throw bind].
    destruct (daily_caption_caught c [HttpGet (String a u) 10000]
                [("name", Str "TypeError");
                 ("message", Str "Cannot convert object to primitive value")])
      as (t & Hq & Ht).
    unfold TypeError. rewrite Ht.
    exists t. split; [exact Hq | reflexivity].
  - rewrite (parse_throws _ Hcb).
    cbn [trace result_of fst snd app throw bind].
    destruct (daily_caption_caught c [HttpGet (String a u) 10000]
                [("name", Str "TypeError");
                 ("message", Str "Cannot convert object to primitive value")])
      as (t & Hq & Ht).
    unfold TypeError. rewrite Ht.
    exists t. split; [exact Hq | reflexivity].
Qed.

End Cases.

(** ** The whole report *)

Lemma startup_report_eq w cfg :
  exists t0,
    quiet t0 /\
    startup_report w cfg
    = ((t0 ++ trace (startup_caption w cfg (startup_stamp w)
                       (startup_default_caption w)))%list,
       result_of (startup_caption w cfg (startup_stamp w)
                    (startup_default_caption w))).
Proof.
  destruct (startup_date_eq w) as (t0 & Hq & Hd).
  exists t0. split; [exact Hq|].
  unfold startup_report. rewrite Hd, bind_returned. reflexivity.
Qed.

Lemma daily_report_eq w cfg :
  exists t0,
    quiet t0 /\
    daily_report w cfg
    = ((t0 ++ trace (daily_caption w cfg (daily_heading (daily_stamp w))))%list,
       result_of (daily_caption w cfg (daily_heading (daily_stamp w)))).
Proof.
  destruct (daily_date_eq w) as (t0 & Hq & Hd).
  exists t0. split; [exact Hq|].
  unfold daily_report. rewrite Hd, bind_returned. reflexivity.
Qed.

(** Rewrites a report into the date part and the given caption case. *)
Ltac report_case Heq Hcase :=
  let t0 := fresh "t0" in
  let Hq := fresh "Hq" in
  let Hr := fresh "Hr" in
  destruct Heq as (t0 & Hq & Hr);
  rewrite Hr, Hcase; cbn [trace result_of fst snd];
  exists t0; split; [exact Hq | reflexivity].

Section WholeReport.

Variable w : World.
Variable cfg : Config.

Lemma startup_report_unconfigured :
  truthy (dollarApiUrl cfg) = false ->
  exists t, quiet t /\
    startup_report w cfg = (t, Returned (startup_unconfigured_caption w)).
Proof.
  intros H. destruct (startup_report_eq w cfg) as (t0 & Hq & Hr).
  rewrite Hr, (startup_caption_unconfigured w cfg _ _ H).
  cbn [ret trace result_of fst snd]. rewrite app_nil_r.
  exists t0. split; [exact Hq | reflexivity].
Qed.

Lemma daily_report_unconfigured :
  truthy (dollarApiUrl cfg) = false ->
  exists t, quiet t /\
    daily_report w cfg = (t, Returned (daily_unconfigured_caption (daily_stamp w))).
Proof.
  intros H. destruct (daily_report_eq w cfg) as (t0 & Hq & Hr).
  rewrite Hr, (daily_caption_unconfigured w cfg _ H).
  cbn [ret trace result_of fst snd]. rewrite app_nil_r.
  exists t0. split; [exact Hq | reflexivity].
Qed.

Variable url : string.
Hypothesis Hurl : dollarApiUrl cfg = Some url.
Hypothesis Hconfigured : url <> "".

Lemma startup_report_rates response :
  axios_get w url 10000 = Ok response ->
  converts (bcvPrice_of response) = true ->
  converts (paraleloPrice_of response) = true ->
  isNaN (bcvNum_of response) = false ->
  isNaN (paraleloNum_of response) = false ->
  exists t0, quiet t0 /\
    startup_report w cfg
    = ((t0 ++ [HttpGet url 10000])%list,
       Returned (startup_rates_caption (startup_stamp w) (bcvNum_of response)
                   (paraleloNum_of response))).
Proof.
  intros Hget Hcb Hcs Hp Hs.
  report_case (startup_report_eq w cfg)
    (startup_caption_rates w cfg url Hurl Hconfigured
       (startup_stamp w) (startup_default_caption w) response Hget Hcb Hcs Hp Hs).
Qed.

Lemma daily_report_rates response :
  axios_get w url 10000 = Ok response ->
  converts (bcvPrice_of response) = true ->
  converts (paraleloPrice_of response) = true ->
  isNaN (bcvNum_of response) = false ->
  isNaN (paraleloNum_of response) = false ->
  exists t0, quiet t0 /\
    daily_report w cfg
    = ((t0 ++ [HttpGet url 10000])%list,
       Returned (daily_rates_caption (daily_stamp w) (bcvNum_of response)
                   (paraleloNum_of response))).
Proof.
  intros Hget Hcb Hcs Hp Hs.
  report_case (daily_report_eq w cfg)
    (daily_caption_rates w cfg url Hurl Hconfigured
       (daily_heading (daily_stamp w)) response Hget Hcb Hcs Hp Hs).
Qed.

Lemma startup_report_unavailable response :
  axios_get w url 10000 = Ok response ->
  converts (bcvPrice_of response) = true ->
  converts (paraleloPrice_of response) = true ->
  isNaN (bcvNum_of response) || isNaN (paraleloNum_of response) = true ->
  exists t0, quiet t0 /\
    startup_report w cfg
    = ((t0 ++
        [HttpGet url 10000;
         Console WARN
           [Str "⚠️ No se pudieron obtener precios válidos de la API (BCV o Paralelo no son números). Usando caption sin tasas específicas."]])%list,
       Returned (startup_unavailable_caption (startup_stamp w))).
Proof.
  intros Hget Hcb Hcs Hnan.
  report_case (startup_report_eq w cfg)
    (startup_caption_unavailable w cfg url Hurl Hconfigured
       (startup_stamp w) (startup_default_caption w) response Hget Hcb Hcs Hnan).
Qed.

Lemma daily_report_unavailable response :
  axios_get w url 10000 = Ok response ->
  converts (bcvPrice_of response) = true ->
  converts (paraleloPrice_of response) = true ->
  isNaN (bcvNum_of response) || isNaN (paraleloNum_of response) = true ->
  exists t0, quiet t0 /\
    daily_report w cfg
    = ((t0 ++
        [HttpGet url 10000;
         Console WARN
           [Str "⚠️ No se pudieron obtener precios válidos de la API para el reporte diario."]])%list,
       Returned (daily_unavailable_caption (daily_stamp w))).
Proof.
  intros Hget Hcb Hcs Hnan.
  report_case (daily_report_eq w cfg)
    (daily_caption_unavailable w cfg url Hurl Hconfigured
       (daily_heading (daily_stamp w)) response Hget Hcb Hcs Hnan).
Qed.

Lemma startup_report_failure error :
  axios_get w url 10000 = Err error ->
  exists t0 t1, quiet t0 /\ quiet t1 /\
    startup_report w cfg
    = ((t0 ++ HttpGet url 10000 :: t1)%list,
       Returned (startup_failure_caption (startup_stamp w))).
Proof.
  intros Hget.
  destruct (startup_report_eq w cfg) as (t0 & Hq & Hr).
  destruct (startup_caption_failure w cfg url Hurl Hconfigured
              (startup_stamp w) (startup_default_caption w) error Hget)
    as (t1 & Hq1 & Hc).
  rewrite Hr, Hc. cbn [trace result_of fst snd].
  exists t0, t1. repeat split; assumption.
Qed.

Lemma daily_report_failure error :
  axios_get w url 10000 = Err error ->
  exists t0 t1, quiet t0 /\ quiet t1 /\
    daily_report w cfg
    = ((t0 ++ HttpGet url 10000 :: t1)%list,
       Returned (daily_failure_caption (daily_stamp w))).
Proof.
  intros Hget.
  destruct (daily_report_eq w cfg) as (t0 & Hq & Hr).
  destruct (daily_caption_failure w cfg url Hurl Hconfigured
              (daily_heading (daily_stamp w)) error Hget)
    as (t1 & Hq1 & Hc).
  rewrite Hr, Hc. cbn [trace result_of fst snd].
  exists t0, t1. repeat split; assumption.
Qed.

Lemma startup_report_unreadable response :
  axios_get w url 10000 = Ok response ->
  converts (bcvPrice_of response) && converts (paraleloPrice_of response) = false ->
  exists t0 t1, quiet t0 /\ quiet t1 /\
    startup_report w cfg
    = ((t0 ++ HttpGet url 10000 :: t1)%list,
       Returned (startup_failure_caption (startup_stamp w))).
Proof.
  intros Hget Hc.
  destruct (startup_report_eq w cfg) as (t0 & Hq & Hr).
  destruct (startup_caption_unreadable w cfg url Hurl Hconfigured
              (startup_stamp w) (startup_default_caption w) response Hget Hc)
    as (t1 & Hq1 & Hcap).
  rewrite Hr, Hcap. cbn [trace result_of fst snd].
  exists t0, t1. repeat split; assumption.
Qed.

Lemma daily_report_unreadable response :
  axios_get w url 10000 = Ok response ->
  converts (bcvPrice_of response) && converts (paraleloPrice_of response) = false ->
  exists t0 t1, quiet t0 /\ quiet t1 /\
    daily_report w cfg
    = ((t0 ++ HttpGet url 10000 :: t1)%list,
       Returned (daily_failure_caption (daily_stamp w))).
Proof.
  intros Hget Hc.
  destruct (daily_report_eq w cfg) as (t0 & Hq & Hr).
  destruct (daily_caption_unreadable w cfg url Hurl Hconfigured
              (daily_heading (daily_stamp w)) response Hget Hc)
    as (t1 & Hq1 & Hcap).
  rewrite Hr, Hcap. cbn [trace result_of fst snd].
  exists t0, t1. repeat split; assumption.
Qed.

Lemma startup_report_cases :
  exists t0 t1, quiet t0 /\ quiet t1 /\
    startup_report w cfg
    = ((t0 ++ HttpGet url 10000 :: t1)%list,
       Returned
         match report_kind_of w url with
         | Rates response =>
             startup_rates_caption (startup_stamp w) (bcvNum_of response)
               (paraleloNum_of response)
         | Unavailable _ => startup_unavailable_caption (startup_stamp w)
         | Unreadable _ | Unreachable _ => startup_failure_caption (startup_stamp w)
         end).
Proof.
  unfold report_kind_of.
  destruct (axios_get w url 10000) as [response|error] eqn:Hget.
  - destruct (converts (bcvPrice_of response) && converts (paraleloPrice_of response))
      eqn:Hc.
    + apply andb_prop in Hc as [Hcb Hcs].
      destruct (isNaN (bcvNum_of response) || isNaN (paraleloNum_of response)) eqn:Hnan.
      * destruct (startup_report_unavailable response Hget Hcb Hcs Hnan)
          as (t0 & Hq & ->).
        exists t0, [Console WARN
                      [Str "⚠️ No se pudieron obtener precios válidos de la API (BCV o Paralelo no son números). Usando caption sin tasas específicas."]].
        split; [exact Hq|]. split; reflexivity.
      * apply orb_false_elim in Hnan as [Hp Hs].
        destruct (startup_report_rates response Hget Hcb Hcs Hp Hs) as (t0 & Hq & ->).
        exists t0, []. split; [exact Hq|]. split; reflexivity.
    + exact (startup_report_unreadable response Hget Hc).
  - exact (startup_report_failure error Hget).
Qed.

Lemma daily_report_cases :
  exists t0 t1, quiet t0 /\ quiet t1 /\
    daily_report w cfg
    = ((t0 ++ HttpGet url 10000 :: t1)%list,
       Returned
         match report_kind_of w url with
         | Rates response =>
             daily_rates_caption (daily_stamp w) (bcvNum_of response)
               (paraleloNum_of response)
         | Unavailable _ => daily_unavailable_caption (daily_stamp w)
         | Unreadable _ | Unreachable _ => daily_failure_caption (daily_stamp w)
         end).
Proof.
  unfold report_kind_of.
  destruct (axios_get w url 10000) as [response|error] eqn:Hget.
  - destruct (converts (bcvPrice_of response) && converts (paraleloPrice_of response))
      eqn:Hc.
    + apply andb_prop in Hc as [Hcb Hcs].
      destruct (isNaN (bcvNum_of response) || isNaN (paraleloNum_of response)) eqn:Hnan.
      * destruct (daily_report_unavailable response Hget Hcb Hcs Hnan)
          as (t0 & Hq & ->).
        exists t0, [Console WARN
                      [Str "⚠️ No se pudieron obtener precios válidos de la API para el reporte diario."]].
        split; [exact Hq|]. split; reflexivity.
      * apply orb_false_elim in Hnan as [Hp Hs].
        destruct (daily_report_rates response Hget Hcb Hcs Hp Hs) as (t0 & Hq & ->).
        exists t0, []. split; [exact Hq|]. split; reflexivity.
    + exact (daily_report_unreadable response Hget Hc).
  - exact (daily_report_failure error Hget).
Qed.

End WholeReport.

(** ** In every case the report yields a caption and sends nothing *)

Lemma sends_http_get url timeout t : sends (HttpGet url timeout :: t) = sends t.
Proof. reflexivity. Qed.

Lemma startup_report_total w cfg :
  exists t c,
    startup_report w cfg = (t, Returned c) /\ sends t = [] /\
    (truthy (dollarApiUrl cfg) = false -> quiet t).
Proof.
  destruct (truthy (dollarApiUrl cfg)) eqn:Hu.
  - destruct (truthy_inv _ Hu) as (a & u & Hurl).
    assert (Hne : String a u <> "") by discriminate.
    destruct (startup_report_cases w cfg _ Hurl Hne) as (t0 & t1 & Hq0 & Hq1 & Hr).
    eexists _, _. split; [exact Hr|]. split; [| discriminate].
    rewrite sends_app, (quiet_sends _ Hq0), sends_http_get, (quiet_sends _ Hq1).
    reflexivity.
  - destruct (startup_report_unconfigured w cfg Hu) as (t & Hq & Hr).
    exists t, (startup_unconfigured_caption w).
    split; [exact Hr|]. split; [apply quiet_sends; exact Hq | intros _; exact Hq].
Qed.

Lemma daily_report_total w cfg :
  exists t c,
    daily_report w cfg = (t, Returned c) /\ sends t = [] /\
    (truthy (dollarApiUrl cfg) = false -> quiet t).
Proof.
  destruct (truthy (dollarApiUrl cfg)) eqn:Hu.
  - destruct (truthy_inv _ Hu) as (a & u & Hurl).
    assert (Hne : String a u <> "") by discriminate.
    destruct (daily_report_cases w cfg _ Hurl Hne) as (t0 & t1 & Hq0 & Hq1 & Hr).
    eexists _, _. split; [exact Hr|]. split; [| discriminate].
    rewrite sends_app, (quiet_sends _ Hq0), sends_http_get, (quiet_sends _ Hq1).
    reflexivity.
  - destruct (daily_report_unconfigured w cfg Hu) as (t & Hq & Hr).
    exists t, (daily_unconfigured_caption (daily_stamp w)).
    split; [exact Hr|]. split; [apply quiet_sends; exact Hq | intros _; exact Hq].
Qed.

End Report.

(* ===================================================================== *)
(** * Delivery: the photo and its single text fallback *)
(* ===================================================================== *)

Module Delivery.

Import Text Number Js Effects App Observe IOFacts ErrorLogging Report.

Lemma startup_send_shape w cfg :
  startup_send w cfg
  = send_with_fallback w cfg
      "✅ Foto de inicio con caption enviada exitosamente."
      "enviando la foto de inicio"
      "⚠️ *Error al enviar foto de inicio.*"
      "   Mensaje de texto de fallback enviado."
      "enviando mensaje de texto de fallback".
Proof. reflexivity. Qed.

Lemma daily_send_shape w cfg :
  daily_send w cfg
  = send_with_fallback w cfg
      "✅ Reporte diario enviado exitosamente."
      "enviando el reporte diario"
      "⚠️ *Error al enviar foto del reporte diario.*"
      "   Mensaje de texto de fallback para reporte diario enviado."
      "enviando mensaje de texto de fallback para reporte diario".
Proof. reflexivity. Qed.

Section Block.

Variable w : World.
Variable cfg : Config.
Variables sent_line action banner fallback_line fallback_action : string.
Variables image captionText : string.

Let block : IO unit :=
  send_with_fallback w cfg sent_line action banner fallback_line
    fallback_action image captionText.
Let photo : event :=
  SendPhoto (chatId cfg) image (photo_options cfg captionText).
Let fallback : event :=
  SendMessage (chatId cfg) (banner ++ LF ++ LF ++ captionText) (text_options cfg).

Lemma send_photo_ok :
  bot_sendPhoto w (chatId cfg) image (photo_options cfg captionText) = Ok tt ->
  block = ([photo; Console LOG [Str sent_line]], Returned tt).
Proof.
  intros H. unfold block, send_with_fallback, call. rewrite H. reflexivity.
Qed.

Lemma send_photo_failed error :
  bot_sendPhoto w (chatId cfg) image (photo_options cfg captionText) = Err error ->
  exists t1 t2,
    quiet t1 /\ quiet t2 /\
    block
    = (photo :: Console ERROR [Str ("❌ Error " ++ action ++ ":")]
             :: (t1 ++ fallback :: t2)%list,
       Returned tt) /\
    (bot_sendMessage w (chatId cfg) (banner ++ LF ++ LF ++ captionText)
       (text_options cfg) = Ok tt ->
     t2 = [Console LOG [Str fallback_line]]) /\
    (forall error',
       bot_sendMessage w (chatId cfg) (banner ++ LF ++ LF ++ captionText)
         (text_options cfg) = Err error' ->
       exists t3,
         t2 = Console ERROR [Str ("❌ Error " ++ fallback_action ++ ":")] :: t3).
Proof.
  intros H. unfold block, send_with_fallback, call. rewrite H.
  cbn [bind]. rewrite try_catch_thrown.
  destruct (handleTelegramError_object w action error) as (t1 & He & Hq1).
  rewrite He, bind_returned. cbn [trace result_of fst snd].
  destruct (bot_sendMessage w (chatId cfg) (banner ++ LF ++ LF ++ captionText)
              (text_options cfg)) as [[]|error'] eqn:Hm.
  - exists t1, [Console LOG [Str fallback_line]].
    split; [exact Hq1|]. split; [reflexivity|]. split; [reflexivity|].
    split; [reflexivity | discriminate].
  - cbn [bind]. rewrite try_catch_thrown.
    destruct (handleTelegramError_object w fallback_action error')
      as (t3 & He' & Hq3).
    rewrite He'. cbn [trace result_of fst snd].
    exists t1, (Console ERROR [Str ("❌ Error " ++ fallback_action ++ ":")] :: t3).
    split; [exact Hq1|]. split; [apply quiet_cons_console; exact Hq3|].
    split; [reflexivity|]. split; [discriminate|].
    intros e' _. exists t3. reflexivity.
Qed.

(** Whatever Telegram answers, the block ends normally, asks for no
    rate and leaves the process running. *)
Lemma send_block_total :
  exists t, block = (t, Returned tt) /\ http_gets t = [].
Proof.
  destruct (bot_sendPhoto w (chatId cfg) image (photo_options cfg captionText))
    as [[]|error] eqn:H.
  - rewrite (send_photo_ok H). eexists. split; reflexivity.
  - destruct (send_photo_failed error H) as (t1 & t2 & Hq1 & Hq2 & Hb & _).
    rewrite Hb. eexists. split; [reflexivity|].
    change (http_gets (?a :: ?b :: ?c)) with (http_gets c).
    rewrite http_gets_app, (quiet_http_gets _ Hq1).
    exact (quiet_http_gets _ Hq2).
Qed.

Lemma send_block_sends_failed error :
  bot_sendPhoto w (chatId cfg) image (photo_options cfg captionText) = Err error ->
  sends (trace block) = [photo; fallback].
Proof.
  intros H.
  destruct (send_photo_failed error H) as (t1 & t2 & Hq1 & Hq2 & Hb & _).
  rewrite Hb. cbn [trace fst].
  change (sends (photo :: ?b :: ?c)) with (photo :: sends c).
  rewrite sends_app, (quiet_sends _ Hq1).
  change (sends (fallback :: t2)) with (fallback :: sends t2).
  rewrite (quiet_sends _ Hq2). reflexivity.
Qed.

End Block.

End Delivery.

(* ===================================================================== *)
(** * Facts about text *)
(* ===================================================================== *)

Module TextFacts.

Import Text.

Lemma append_nil_r s : s ++ "" = s.
Proof. induction s as [|c s IH]; simpl; [reflexivity | rewrite IH; reflexivity]. Qed.

Lemma append_assoc a b c : (a ++ b) ++ c = a ++ (b ++ c).
Proof. induction a as [|x a IH]; simpl; [reflexivity | rewrite IH; reflexivity]. Qed.

Lemma strip_prefix_app p s : strip_prefix p (p ++ s) = Some s.
Proof.
  induction p as [|c p IH]; simpl; [reflexivity|].
  rewrite Ascii.eqb_refl. exact IH.
Qed.

Lemma starts_with_app p s : starts_with p (p ++ s) = true.
Proof. unfold starts_with. rewrite strip_prefix_app. reflexivity. Qed.

Lemma starts_with_app_l p s b :
  starts_with p s = true -> starts_with p (s ++ b) = true.
Proof.
  unfold starts_with. revert s.
  induction p as [|c p IH]; intros s; simpl; [reflexivity|].
  destruct s as [|d s]; simpl; [discriminate|].
  destruct (Ascii.eqb c d); [apply IH | discriminate].
Qed.

Lemma includes_here p s : starts_with p s = true -> includes p s = true.
Proof. intros H. destruct s; simpl; rewrite H; reflexivity. Qed.

Lemma includes_app_r p a s : includes p s = true -> includes p (a ++ s) = true.
Proof.
  intros H. induction a as [|c a IH]; simpl; [exact H|].
  rewrite IH. apply orb_true_r.
Qed.

Lemma includes_app_l p s b : includes p s = true -> includes p (s ++ b) = true.
Proof.
  induction s as [|c s IH]; intros H.
  - cbn [includes] in H. rewrite orb_false_r in H.
    apply includes_here. exact (starts_with_app_l p "" b H).
  - cbn [includes] in H.
    change (String c s ++ b) with (String c (s ++ b)). cbn [includes].
    apply orb_true_iff in H as [H | H].
    + assert (E := starts_with_app_l p (String c s) b H).
      change (String c s ++ b) with (String c (s ++ b)) in E.
      rewrite E. reflexivity.
    + rewrite (IH H). apply orb_true_r.
Qed.

Lemma includes_middle p a b : includes p (a ++ p ++ b) = true.
Proof. apply includes_app_r, includes_here, starts_with_app. Qed.

Lemma rev_onto_app s acc : rev_onto s acc = rev s ++ acc.
Proof.
  unfold rev. revert acc.
  induction s as [|c s IH]; intros acc; simpl; [reflexivity|].
  rewrite (IH (String c acc)), (IH (String c "")), append_assoc. reflexivity.
Qed.

Lemma rev_app a b : rev (a ++ b) = rev b ++ rev a.
Proof.
  unfold rev. revert b.
  induction a as [|c a IH]; intros b; simpl.
  - rewrite append_nil_r. reflexivity.
  - rewrite (rev_onto_app (a ++ b)), (rev_onto_app a).
    change (rev_onto (a ++ b) "") with (rev (a ++ b)).
    unfold rev at 1. rewrite IH. rewrite append_assoc. reflexivity.
Qed.

(** Two texts that end differently are different. *)
Lemma different_endings a b x y :
  String.length x = String.length y -> x <> y -> a ++ x <> b ++ y.
Proof.
  intros Hlen Hxy Heq. apply Hxy. clear Hxy.
  apply (f_equal rev) in Heq. rewrite !rev_app in Heq.
  assert (Hrev : forall u v p q,
             String.length u = String.length v -> u ++ p = v ++ q -> u = v).
  { induction u as [|c u IH]; intros [|d v] p q Hl Hpq; simpl in *;
      try discriminate; [reflexivity|].
    injection Hl as Hl. injection Hpq as -> Hpq.
    f_equal. exact (IH v p q Hl Hpq). }
  assert (Hlr : forall s, String.length (rev s) = String.length s).
  { intros s. unfold rev.
    assert (G : forall s acc,
               String.length (rev_onto s acc)
               = (String.length s + String.length acc)%nat).
    { induction s0 as [|c s0 IH]; intros acc; simpl; [reflexivity|].
      rewrite IH. simpl. lia. }
    rewrite G. simpl. lia. }
  assert (Hr : rev x = rev y).
  { apply (Hrev _ _ _ _ (eq_trans (Hlr x) (eq_trans Hlen (eq_sym (Hlr y)))) Heq). }
  assert (Hinv : forall s, rev (rev s) = s).
  { induction s as [|c s IH]; [reflexivity|].
    change (String c s) with (String c "" ++ s) at 1.
    rewrite rev_app, rev_app, IH. reflexivity. }
  rewrite <- (Hinv x), <- (Hinv y), Hr. reflexivity.
Qed.

End TextFacts.

(* ===================================================================== *)
(** * The two pipelines, end to end *)
(* ===================================================================== *)

Module Pipeline.

Import Text Number Js Effects App Observe IOFacts ErrorLogging Report Delivery TextFacts.

(** With an image configured, the startup pipeline is its report
    followed by its sending block. *)
Lemma startup_pipeline_eq w cfg image :
  imageUrl cfg = Some image -> image <> "" ->
  exists t0 t c,
    quiet t0 /\
    startup_report w cfg = (t, Returned c) /\
    sends t = [] /\
    (truthy (dollarApiUrl cfg) = false -> quiet t) /\
    sendTelegramStartupPhotoWithRates w cfg
    = ((t0 ++ t ++ trace (startup_send w cfg image c))%list,
       result_of (startup_send w cfg image c)).
Proof.
  intros Himg Hne. destruct (truthy_some _ Hne) as (a & u & ->).
  destruct (startup_report_total w cfg) as (t & c & Hr & Hs & Hq).
  unfold sendTelegramStartupPhotoWithRates. rewrite Himg.
  destruct (negb (truthy (dollarApiUrl cfg))).
  - exists [Console WARN [Str "⚠️ No se pueden obtener tasas: PYDOLARVE_API_URL no está definido."]], t, c.
    split; [reflexivity|]. repeat (split; [assumption|]).
    unfold console_warn. rewrite bind_emit, Hr, bind_returned.
    cbn [trace result_of fst snd]. reflexivity.
  - exists [], t, c. split; [reflexivity|]. repeat (split; [assumption|]).
    rewrite bind_ret, Hr, bind_returned. reflexivity.
Qed.

Lemma daily_pipeline_eq w cfg image :
  imageUrl cfg = Some image -> image <> "" ->
  exists t0 t c,
    quiet t0 /\
    daily_report w cfg = (t, Returned c) /\
    sends t = [] /\
    (truthy (dollarApiUrl cfg) = false -> quiet t) /\
    sendDailyUpdate w cfg
    = ((t0 ++ t ++ trace (daily_send w cfg image c))%list,
       result_of (daily_send w cfg image c)).
Proof.
  intros Himg Hne. destruct (truthy_some _ Hne) as (a & u & ->).
  destruct (daily_report_total w cfg) as (t & c & Hr & Hs & Hq).
  unfold sendDailyUpdate. rewrite Himg.
  exists [Console LOG [Str "ℹ️ Iniciando envío de reporte diario..."]], t, c.
  split; [reflexivity|]. repeat (split; [assumption|]).
  unfold console_log at 1. rewrite bind_emit, Hr, bind_returned.
  cbn [trace result_of fst snd]. reflexivity.
Qed.

Lemma startup_pipeline_no_image w cfg :
  truthy (imageUrl cfg) = false ->
  sendTelegramStartupPhotoWithRates w cfg
  = ([Console WARN [Str "⚠️ No se enviará la foto de inicio: TELEGRAM_IMAGE_URL no está definido."]],
     Returned tt).
Proof.
  intros H. unfold sendTelegramStartupPhotoWithRates.
  destruct (truthy_false_cases _ H) as [-> | ->]; reflexivity.
Qed.

Lemma daily_pipeline_no_image w cfg :
  truthy (imageUrl cfg) = false ->
  sendDailyUpdate w cfg
  = ([Console LOG [Str "ℹ️ Iniciando envío de reporte diario..."];
      Console WARN [Str "⚠️ No se enviará la foto diaria: TELEGRAM_IMAGE_URL no está definido."]],
     Returned tt).
Proof.
  intros H. unfold sendDailyUpdate.
  destruct (truthy_false_cases _ H) as [-> | ->]; reflexivity.
Qed.

(** Neither pipeline ever throws or leaves the process. *)
Lemma startup_pipeline_returns w cfg :
  result_of (sendTelegramStartupPhotoWithRates w cfg) = Returned tt.
Proof.
  destruct (truthy (imageUrl cfg)) eqn:Hi.
  - destruct (truthy_inv _ Hi) as (a & u & Himg).
    destruct (startup_pipeline_eq w cfg _ Himg ltac:(discriminate))
      as (t0 & t & c & _ & _ & _ & _ & ->).
    cbn [result_of snd]. rewrite startup_send_shape.
    match goal with
    | |- context [send_with_fallback ?w ?g ?a1 ?a2 ?a3 ?a4 ?a5 ?i ?x] =>
        destruct (send_block_total w g a1 a2 a3 a4 a5 i x) as (tb & -> & _)
    end.
    reflexivity.
  - rewrite (startup_pipeline_no_image w cfg Hi). reflexivity.
Qed.

Lemma daily_pipeline_returns w cfg :
  result_of (sendDailyUpdate w cfg) = Returned tt.
Proof.
  destruct (truthy (imageUrl cfg)) eqn:Hi.
  - destruct (truthy_inv _ Hi) as (a & u & Himg).
    destruct (daily_pipeline_eq w cfg _ Himg ltac:(discriminate))
      as (t0 & t & c & _ & _ & _ & _ & ->).
    cbn [result_of snd]. rewrite daily_send_shape.
    match goal with
    | |- context [send_with_fallback ?w ?g ?a1 ?a2 ?a3 ?a4 ?a5 ?i ?x] =>
        destruct (send_block_total w g a1 a2 a3 a4 a5 i x) as (tb & -> & _)
    end.
    reflexivity.
  - rewrite (daily_pipeline_no_image w cfg Hi). reflexivity.
Qed.

(** Neither pipeline does anything but print, ask the rate API and send
    to Telegram: in particular it binds no port. *)
Lemma startup_pipeline_outbound w cfg :
  outbound (trace (sendTelegramStartupPhotoWithRates w cfg)).
Proof.
  unfold sendTelegramStartupPhotoWithRates, startup_report, startup_date,
    startup_caption, startup_send, console_warn, console_error, console_log.
  outbound_walk;
    first [apply handleTelegramError_outbound | apply log_api_error_outbound].
Qed.

Lemma daily_pipeline_outbound w cfg :
  outbound (trace (sendDailyUpdate w cfg)).
Proof.
  unfold sendDailyUpdate, daily_report, daily_date,
    daily_caption, daily_send, console_warn, console_error, console_log.
  outbound_walk;
    first [apply handleTelegramError_outbound | apply log_api_error_outbound].
Qed.

End Pipeline.

(* ===================================================================== *)
(** * Properties of the report pipeline *)
(* ===================================================================== *)

Module PipelineProperties.

Import Text Number Js Effects App Observe IOFacts ErrorLogging Report Delivery
  TextFacts Pipeline.

(** What the sending block hands to Telegram: the photo alone, or the
    photo and then the one text message. *)
Lemma block_sends w cfg sent_line action banner fallback_line fallback_action image c :
  let block := send_with_fallback w cfg sent_line action banner fallback_line
                 fallback_action image c in
  let photo := SendPhoto (chatId cfg) image (photo_options cfg c) in
  let fallback := SendMessage (chatId cfg) (banner ++ LF ++ LF ++ c) (text_options cfg) in
  (bot_sendPhoto w (chatId cfg) image (photo_options cfg c) = Ok tt /\
   sends (trace block) = [photo]) \/
  (exists error,
     bot_sendPhoto w (chatId cfg) image (photo_options cfg c) = Err error /\
     sends (trace block) = [photo; fallback]).
Proof.
  intros block photo fallback.
  destruct (bot_sendPhoto w (chatId cfg) image (photo_options cfg c))
    as [[]|error] eqn:H.
  - left. split; [reflexivity|]. unfold block.
    rewrite (send_photo_ok w cfg _ _ _ _ _ _ _ H). reflexivity.
  - right. exists error. split; [reflexivity|].
    exact (send_block_sends_failed w cfg _ _ _ _ _ _ _ error H).
Qed.

Lemma pipeline_sends t0 t tb :
  quiet t0 -> sends t = [] -> sends (t0 ++ t ++ tb) = sends tb.
Proof.
  intros H0 H. rewrite !sends_app, (quiet_sends _ H0), H. reflexivity.
Qed.

Lemma pipeline_http_gets t0 t tb :
  quiet t0 -> quiet t -> http_gets tb = [] -> http_gets (t0 ++ t ++ tb) = [].
Proof.
  intros H0 H Hb.
  rewrite !http_gets_app, (quiet_http_gets _ H0), (quiet_http_gets _ H), Hb.
  reflexivity.
Qed.

Lemma http_gets_block w cfg sent_line action banner fallback_line fallback_action image c :
  http_gets (trace (send_with_fallback w cfg sent_line action banner
                      fallback_line fallback_action image c)) = [].
Proof.
  destruct (send_block_total w cfg sent_line action banner fallback_line
              fallback_action image c) as (tb & -> & Hg).
  exact Hg.
Qed.

(** With an image configured: the requests of the startup pipeline are
    those of its report, and its messages are the photo carrying the
    caption of the report, followed by the one text message exactly when
    the photo was refused. *)
Lemma startup_pipeline_sends w cfg image c :
  imageUrl cfg = Some image -> image <> "" ->
  result_of (startup_report w cfg) = Returned c ->
  let run := sendTelegramStartupPhotoWithRates w cfg in
  let photo := SendPhoto (chatId cfg) image (photo_options cfg c) in
  let fallback :=
    SendMessage (chatId cfg)
      ("⚠️ *Error al enviar foto de inicio.*" ++ LF ++ LF ++ c) (text_options cfg) in
  http_gets (trace run) = http_gets (trace (startup_report w cfg)) /\
  ((bot_sendPhoto w (chatId cfg) image (photo_options cfg c) = Ok tt /\
    sends (trace run) = [photo]) \/
   (exists error,
      bot_sendPhoto w (chatId cfg) image (photo_options cfg c) = Err error /\
      sends (trace run) = [photo; fallback])).
Proof.
  intros Himg Hne Hc run photo fallback. unfold run.
  destruct (startup_pipeline_eq w cfg _ Himg Hne)
    as (t0 & t & c' & Hq0 & Hr & Hs & _ & Hp).
  rewrite Hr in Hc. injection Hc as ->.
  rewrite Hp, Hr. cbn [trace fst]. rewrite startup_send_shape. split.
  - rewrite !http_gets_app, (quiet_http_gets _ Hq0), http_gets_block, app_nil_r.
    reflexivity.
  - rewrite (pipeline_sends _ _ _ Hq0 Hs). apply block_sends.
Qed.

Lemma daily_pipeline_sends w cfg image c :
  imageUrl cfg = Some image -> image <> "" ->
  result_of (daily_report w cfg) = Returned c ->
  let run := sendDailyUpdate w cfg in
  let photo := SendPhoto (chatId cfg) image (photo_options cfg c) in
  let fallback :=
    SendMessage (chatId cfg)
      ("⚠️ *Error al enviar foto del reporte diario.*" ++ LF ++ LF ++ c)
      (text_options cfg) in
  http_gets (trace run) = http_gets (trace (daily_report w cfg)) /\
  ((bot_sendPhoto w (chatId cfg) image (photo_options cfg c) = Ok tt /\
    sends (trace run) = [photo]) \/
   (exists error,
      bot_sendPhoto w (chatId cfg) image (photo_options cfg c) = Err error /\
      sends (trace run) = [photo; fallback])).
Proof.
  intros Himg Hne Hc run photo fallback. unfold run.
  destruct (daily_pipeline_eq w cfg _ Himg Hne)
    as (t0 & t & c' & Hq0 & Hr & Hs & _ & Hp).
  rewrite Hr in Hc. injection Hc as ->.
  rewrite Hp, Hr. cbn [trace fst]. rewrite daily_send_shape. split.
  - rewrite !http_gets_app, (quiet_http_gets _ Hq0), http_gets_block, app_nil_r.
    reflexivity.
  - rewrite (pipeline_sends _ _ _ Hq0 Hs). apply block_sends.
Qed.

(** A message that was handed to Telegram is in the trace. *)
Lemma sends_in t e : In e (sends t) -> In e t.
Proof. intros H. apply (proj1 (filter_In is_send e t) H). Qed.

Lemma in_sends_head t e rest : sends t = e :: rest -> In e t.
Proof. intros H. apply sends_in. rewrite H. left. reflexivity. Qed.

(** The texts a run hands to Telegram all contain what its caption
    contains. *)
Lemma texts_include notice c banner chat image popts topts (l : list event) :
  includes notice c = true ->
  caption popts = Some c ->
  l = [SendPhoto chat image popts] \/
  l = [SendPhoto chat image popts;
       SendMessage chat (banner ++ LF ++ LF ++ c) topts] ->
  forall e text, In e l -> text_of e = Some text -> includes notice text = true.
Proof.
  intros Hn Hc Hl e text He Ht.
  assert (Hf : includes notice (banner ++ LF ++ LF ++ c) = true)
    by (do 3 apply includes_app_r; exact Hn).
  destruct Hl as [-> | ->]; cbn [In] in He.
  - destruct He as [<- | []]. cbn [text_of] in Ht. congruence.
  - destruct He as [<- | [<- | []]]; cbn [text_of] in Ht; congruence.
Qed.

(** C10. Whenever the image URL is unconfigured (absent or empty), both
    pipelines return early: the startup one prints its warning and stops,
    the daily one prints its start line and its warning and stops. No
    request goes to the rate API and no photo and no text message goes to
    Telegram in that invocation. *)
Theorem no_image_no_work w cfg :
  truthy (imageUrl cfg) = false ->
  sendTelegramStartupPhotoWithRates w cfg
  = ([Console WARN [Str "⚠️ No se enviará la foto de inicio: TELEGRAM_IMAGE_URL no está definido."]],
     Returned tt) /\
  sendDailyUpdate w cfg
  = ([Console LOG [Str "ℹ️ Iniciando envío de reporte diario..."];
      Console WARN [Str "⚠️ No se enviará la foto diaria: TELEGRAM_IMAGE_URL no está definido."]],
     Returned tt) /\
  http_gets (trace (sendTelegramStartupPhotoWithRates w cfg)) = [] /\
  sends (trace (sendTelegramStartupPhotoWithRates w cfg)) = [] /\
  http_gets (trace (sendDailyUpdate w cfg)) = [] /\
  sends (trace (sendDailyUpdate w cfg)) = [].
Proof.
  intros H.
  rewrite (startup_pipeline_no_image w cfg H), (daily_pipeline_no_image w cfg H).
  repeat split; reflexivity.
Qed.

Lemma no_image_no_work_witness :
  truthy (imageUrl Sample.cfg_no_image) = false /\
  sends (trace (sendDailyUpdate (Sample.healthy (Str "36.50") (Str "40.00"))
                  Sample.cfg_no_image)) = [].
Proof.
  split; [reflexivity|].
  apply (no_image_no_work (Sample.healthy (Str "36.50") (Str "40.00"))
           Sample.cfg_no_image).
  reflexivity.
Defined.

(** C5. Whenever the rate-API URL is unconfigured (absent or empty), no
    HTTP GET goes to the rate API on the startup path nor on the daily
    path, and every text handed to Telegram (the caption of the photo and
    the body of the fallback message) contains the notice that the URL is
    not configured; with an image configured the photo is attempted with
    exactly the caption that ends in that notice. *)
Theorem unconfigured_api_no_request w cfg :
  truthy (dollarApiUrl cfg) = false ->
  http_gets (trace (sendTelegramStartupPhotoWithRates w cfg)) = [] /\
  http_gets (trace (sendDailyUpdate w cfg)) = [] /\
  (forall e text,
     In e (sends (trace (sendTelegramStartupPhotoWithRates w cfg))) ->
     text_of e = Some text ->
     includes "(URL de API no configurada)" text = true) /\
  (forall e text,
     In e (sends (trace (sendDailyUpdate w cfg))) ->
     text_of e = Some text ->
     includes "(URL de API no configurada para tasas)" text = true) /\
  (forall image,
     imageUrl cfg = Some image -> image <> "" ->
     In (SendPhoto (chatId cfg) image
           (photo_options cfg (startup_unconfigured_caption w)))
        (trace (sendTelegramStartupPhotoWithRates w cfg)) /\
     In (SendPhoto (chatId cfg) image
           (photo_options cfg (daily_unconfigured_caption (daily_stamp w))))
        (trace (sendDailyUpdate w cfg))).
Proof.
  intros Hu.
  assert (Hs : includes "(URL de API no configurada)"
                 (startup_unconfigured_caption w) = true).
  { unfold startup_unconfigured_caption. apply includes_app_r. reflexivity. }
  assert (Hd : includes "(URL de API no configurada para tasas)"
                 (daily_unconfigured_caption (daily_stamp w)) = true).
  { unfold daily_unconfigured_caption. apply includes_app_r. reflexivity. }
  destruct (startup_report_unconfigured w cfg Hu) as (st & Hqs & Hsr).
  destruct (daily_report_unconfigured w cfg Hu) as (dt & Hqd & Hdr).
  destruct (truthy (imageUrl cfg)) eqn:Hi.
  - destruct (truthy_inv _ Hi) as (a & u & Himg).
    assert (Hne : String a u <> "") by discriminate.
    destruct (startup_pipeline_sends w cfg _ (startup_unconfigured_caption w)
                Himg Hne ltac:(rewrite Hsr; reflexivity)) as [Hsg Hss].
    destruct (daily_pipeline_sends w cfg _
                (daily_unconfigured_caption (daily_stamp w))
                Himg Hne ltac:(rewrite Hdr; reflexivity)) as [Hdg Hds].
    rewrite Hsr in Hsg. rewrite Hdr in Hdg. cbn [trace fst] in Hsg, Hdg.
    rewrite (quiet_http_gets _ Hqs) in Hsg. rewrite (quiet_http_gets _ Hqd) in Hdg.
    split; [exact Hsg|]. split; [exact Hdg|].
    split; [| split].
    + apply (texts_include _ _ "⚠️ *Error al enviar foto de inicio.*" (chatId cfg)
               (String a u) (photo_options cfg (startup_unconfigured_caption w))
               (text_options cfg) _ Hs eq_refl).
      destruct Hss as [[_ H] | (error & _ & H)]; [left | right]; exact H.
    + apply (texts_include _ _ "⚠️ *Error al enviar foto del reporte diario.*"
               (chatId cfg) (String a u)
               (photo_options cfg (daily_unconfigured_caption (daily_stamp w)))
               (text_options cfg) _ Hd eq_refl).
      destruct Hds as [[_ H] | (error & _ & H)]; [left | right]; exact H.
    + intros image Himg' _. rewrite Himg in Himg'. injection Himg' as <-.
      split.
      * destruct Hss as [[_ H] | (error & _ & H)]; exact (in_sends_head _ _ _ H).
      * destruct Hds as [[_ H] | (error & _ & H)]; exact (in_sends_head _ _ _ H).
  - rewrite (startup_pipeline_no_image w cfg Hi), (daily_pipeline_no_image w cfg Hi).
    cbn [trace fst].
    split; [reflexivity|]. split; [reflexivity|].
    split; [intros e text []|]. split; [intros e text []|].
    intros image Himg Hne. rewrite Himg in Hi.
    destruct (truthy_some _ Hne) as (a & u & ->). discriminate.
Qed.

Lemma unconfigured_api_no_request_witness :
  truthy (dollarApiUrl Sample.cfg_no_api) = false /\
  http_gets (trace (sendTelegramStartupPhotoWithRates Sample.telegram_down
                      Sample.cfg_no_api)) = [].
Proof.
  split; [reflexivity|].
  apply (unconfigured_api_no_request Sample.telegram_down Sample.cfg_no_api).
  reflexivity.
Defined.

(** The trace of a run whose photo was refused: the photo, the error
    printer, the one text message, and what follows it. *)
Lemma startup_pipeline_failed w cfg image c error :
  imageUrl cfg = Some image -> image <> "" ->
  result_of (startup_report w cfg) = Returned c ->
  bot_sendPhoto w (chatId cfg) image (photo_options cfg c) = Err error ->
  let text := "⚠️ *Error al enviar foto de inicio.*" ++ LF ++ LF ++ c in
  exists before t1 t2,
    quiet t1 /\ quiet t2 /\ sends before = [] /\
    sendTelegramStartupPhotoWithRates w cfg
    = ((before
        ++ SendPhoto (chatId cfg) image (photo_options cfg c)
        :: Console ERROR [Str "❌ Error enviando la foto de inicio:"]
        :: t1 ++ SendMessage (chatId cfg) text (text_options cfg) :: t2)%list,
       Returned tt) /\
    (bot_sendMessage w (chatId cfg) text (text_options cfg) = Ok tt ->
     t2 = [Console LOG [Str "   Mensaje de texto de fallback enviado."]]) /\
    (forall error',
       bot_sendMessage w (chatId cfg) text (text_options cfg) = Err error' ->
       exists t3,
         t2 = Console ERROR [Str "❌ Error enviando mensaje de texto de fallback:"] :: t3).
Proof.
  intros Himg Hne Hc Hphoto text.
  destruct (startup_pipeline_eq w cfg _ Himg Hne)
    as (t0 & t & c' & Hq0 & Hr & Hs & _ & Hp).
  rewrite Hr in Hc. injection Hc as ->.
  rewrite startup_send_shape in Hp.
  destruct (send_photo_failed w cfg
              "✅ Foto de inicio con caption enviada exitosamente."
              "enviando la foto de inicio"
              "⚠️ *Error al enviar foto de inicio.*"
              "   Mensaje de texto de fallback enviado."
              "enviando mensaje de texto de fallback"
              image c error Hphoto)
    as (t1 & t2 & Hq1 & Hq2 & Hb & Hok & Herr).
  rewrite Hb in Hp. cbn [trace result_of fst snd] in Hp.
  exists (t0 ++ t)%list, t1, t2.
  split; [exact Hq1|]. split; [exact Hq2|].
  split; [rewrite sends_app, (quiet_sends _ Hq0), Hs; reflexivity|].
  split; [rewrite Hp, <- app_assoc; reflexivity|].
  split; [exact Hok | exact Herr].
Qed.

Lemma daily_pipeline_failed w cfg image c error :
  imageUrl cfg = Some image -> image <> "" ->
  result_of (daily_report w cfg) = Returned c ->
  bot_sendPhoto w (chatId cfg) image (photo_options cfg c) = Err error ->
  let text := "⚠️ *Error al enviar foto del reporte diario.*" ++ LF ++ LF ++ c in
  exists before t1 t2,
    quiet t1 /\ quiet t2 /\ sends before = [] /\
    sendDailyUpdate w cfg
    = ((before
        ++ SendPhoto (chatId cfg) image (photo_options cfg c)
        :: Console ERROR [Str "❌ Error enviando el reporte diario:"]
        :: t1 ++ SendMessage (chatId cfg) text (text_options cfg) :: t2)%list,
       Returned tt) /\
    (bot_sendMessage w (chatId cfg) text (text_options cfg) = Ok tt ->
     t2 = [Console LOG [Str "   Mensaje de texto de fallback para reporte diario enviado."]]) /\
    (forall error',
       bot_sendMessage w (chatId cfg) text (text_options cfg) = Err error' ->
       exists t3,
         t2 = Console ERROR
                [Str "❌ Error enviando mensaje de texto de fallback para reporte diario:"]
              :: t3).
Proof.
  intros Himg Hne Hc Hphoto text.
  destruct (daily_pipeline_eq w cfg _ Himg Hne)
    as (t0 & t & c' & Hq0 & Hr & Hs & _ & Hp).
  rewrite Hr in Hc. injection Hc as ->.
  rewrite daily_send_shape in Hp.
  destruct (send_photo_failed w cfg
              "✅ Reporte diario enviado exitosamente."
              "enviando el reporte diario"
              "⚠️ *Error al enviar foto del reporte diario.*"
              "   Mensaje de texto de fallback para reporte diario enviado."
              "enviando mensaje de texto de fallback para reporte diario"
              image c error Hphoto)
    as (t1 & t2 & Hq1 & Hq2 & Hb & Hok & Herr).
  rewrite Hb in Hp. cbn [trace result_of fst snd] in Hp.
  exists (t0 ++ t)%list, t1, t2.
  split; [exact Hq1|]. split; [exact Hq2|].
  split; [rewrite sends_app, (quiet_sends _ Hq0), Hs; reflexivity|].
  split; [rewrite Hp, <- app_assoc; reflexivity|].
  split; [exact Hok | exact Herr].
Qed.

Lemma sends_failed_run before photo line t1 fallback t2 :
  sends before = [] -> quiet t1 -> quiet t2 ->
  is_send photo = true -> is_send fallback = true -> is_console line = true ->
  sends (before ++ photo :: line :: t1 ++ fallback :: t2) = [photo; fallback].
Proof.
  intros Hb H1 H2 Hp Hf Hl.
  rewrite sends_app, Hb. unfold sends at 1. cbn [app filter]. rewrite Hp.
  destruct line; try discriminate. cbn [is_send].
  fold (sends (t1 ++ fallback :: t2)).
  rewrite sends_app, (quiet_sends _ H1). unfold sends. cbn [app filter].
  rewrite Hf. fold (sends t2). rewrite (quiet_sends _ H2). reflexivity.
Qed.

(** C3. For every send, startup or daily, in which the photo send to the
    messaging API fails: exactly one fallback text message is attempted,
    after the photo, and it carries the same caption prefixed with the
    error banner of its kind; the run ends normally; and if that fallback
    fails too, the failure is printed on the error console and nothing
    more is sent (the messages of the run are those two and no other). *)
Theorem photo_failure_single_fallback w cfg image :
  imageUrl cfg = Some image -> image <> "" ->
  (forall c error,
     result_of (startup_report w cfg) = Returned c ->
     bot_sendPhoto w (chatId cfg) image (photo_options cfg c) = Err error ->
     let text := "⚠️ *Error al enviar foto de inicio.*" ++ LF ++ LF ++ c in
     let run := sendTelegramStartupPhotoWithRates w cfg in
     sends (trace run)
     = [SendPhoto (chatId cfg) image (photo_options cfg c);
        SendMessage (chatId cfg) text (text_options cfg)] /\
     result_of run = Returned tt /\
     (forall error',
        bot_sendMessage w (chatId cfg) text (text_options cfg) = Err error' ->
        In (Console ERROR [Str "❌ Error enviando mensaje de texto de fallback:"])
           (trace run))) /\
  (forall c error,
     result_of (daily_report w cfg) = Returned c ->
     bot_sendPhoto w (chatId cfg) image (photo_options cfg c) = Err error ->
     let text := "⚠️ *Error al enviar foto del reporte diario.*" ++ LF ++ LF ++ c in
     let run := sendDailyUpdate w cfg in
     sends (trace run)
     = [SendPhoto (chatId cfg) image (photo_options cfg c);
        SendMessage (chatId cfg) text (text_options cfg)] /\
     result_of run = Returned tt /\
     (forall error',
        bot_sendMessage w (chatId cfg) text (text_options cfg) = Err error' ->
        In (Console ERROR
              [Str "❌ Error enviando mensaje de texto de fallback para reporte diario:"])
           (trace run))).
Proof.
  intros Himg Hne. split; intros c error Hc Hphoto text run.
  - destruct (startup_pipeline_failed w cfg image c error Himg Hne Hc Hphoto)
      as (before & t1 & t2 & H1 & H2 & Hb & Hrun & _ & Herr).
    unfold run. rewrite Hrun. cbn [trace result_of fst snd].
    split; [apply sends_failed_run; auto|]. split; [reflexivity|].
    intros error' Hm. destruct (Herr error' Hm) as (t3 & ->).
    apply in_or_app. right. do 2 right. apply in_or_app. right. right. left.
    reflexivity.
  - destruct (daily_pipeline_failed w cfg image c error Himg Hne Hc Hphoto)
      as (before & t1 & t2 & H1 & H2 & Hb & Hrun & _ & Herr).
    unfold run. rewrite Hrun. cbn [trace result_of fst snd].
    split; [apply sends_failed_run; auto|]. split; [reflexivity|].
    intros error' Hm. destruct (Herr error' Hm) as (t3 & ->).
    apply in_or_app. right. do 2 right. apply in_or_app. right. right. left.
    reflexivity.
Qed.

Lemma photo_failure_single_fallback_witness :
  imageUrl Sample.cfg = Some "https://example.org/rates.png" /\
  sends (trace (sendTelegramStartupPhotoWithRates Sample.telegram_down Sample.cfg))
  = [SendPhoto (chatId Sample.cfg) "https://example.org/rates.png"
       (photo_options Sample.cfg
          (startup_rates_caption "02/11/2026"
             (parseFloat (Str "36.50")) (parseFloat (Str "40.00"))));
     SendMessage (chatId Sample.cfg)
       ("⚠️ *Error al enviar foto de inicio.*" ++ LF ++ LF
        ++ startup_rates_caption "02/11/2026"
             (parseFloat (Str "36.50")) (parseFloat (Str "40.00")))
       (text_options Sample.cfg)].
Proof.
  split; [reflexivity|].
  assert (Hne : "https://example.org/rates.png" <> "") by discriminate.
  assert (Hc : result_of (startup_report Sample.telegram_down Sample.cfg)
               = Returned (startup_rates_caption "02/11/2026"
                             (parseFloat (Str "36.50")) (parseFloat (Str "40.00"))))
    by (vm_compute; reflexivity).
  assert (Hp : bot_sendPhoto Sample.telegram_down (chatId Sample.cfg)
                 "https://example.org/rates.png"
                 (photo_options Sample.cfg
                    (startup_rates_caption "02/11/2026"
                       (parseFloat (Str "36.50")) (parseFloat (Str "40.00"))))
               = Err Sample.network_error) by reflexivity.
  exact (proj1 (proj1 (photo_failure_single_fallback Sample.telegram_down Sample.cfg
                         "https://example.org/rates.png" eq_refl Hne)
                  _ _ Hc Hp)).
Defined.

(** The texts of a run are its caption, alone or behind the banner. *)
Lemma texts_are c banner chat image popts topts (l : list event) :
  caption popts = Some c ->
  l = [SendPhoto chat image popts] \/
  l = [SendPhoto chat image popts;
       SendMessage chat (banner ++ LF ++ LF ++ c) topts] ->
  forall e text,
    In e l -> text_of e = Some text ->
    text = c \/ text = banner ++ LF ++ LF ++ c.
Proof.
  intros Hc Hl e text He Ht.
  destruct Hl as [-> | ->]; cbn [In] in He.
  - destruct He as [<- | []]. cbn [text_of] in Ht. left. congruence.
  - destruct He as [<- | [<- | []]]; cbn [text_of] in Ht;
      [left | right]; congruence.
Qed.

(** A price that is missing reads as [NaN]. *)
Lemma missing_price_is_NaN : isNaN (parseFloat Undefined) = true.
Proof. vm_compute. reflexivity. Qed.

(** C4, as stated, fails. A price can fail to parse as a number without
    reading [NaN]: for an object with an own property [toString] that is
    not a function, the conversion of the argument of [parseFloat] throws
    inside the [try] of the fetch, and its [catch] writes the caption of
    a failed fetch; the report is not the rates-unavailable body. *)
Lemma unreadable_price_counterexample :
  let price := Obj [("toString", Null)] in
  let response := Sample.response price (Str "40.00") in
  let w := Sample.healthy price (Str "40.00") in
  dollarApiUrl Sample.cfg = Some "https://example.org/api/v1/dollar" /\
  axios_get w "https://example.org/api/v1/dollar" 10000 = Ok response /\
  price_of "bcv" response = price /\
  parseFloat_or_throw price
  = inr (TypeError "Cannot convert object to primitive value") /\
  result_of (startup_report w Sample.cfg)
  = Returned (startup_failure_caption (startup_stamp w)) /\
  result_of (startup_report w Sample.cfg)
  <> Returned (startup_unavailable_caption (startup_stamp w)) /\
  result_of (daily_report w Sample.cfg)
  = Returned (daily_failure_caption (daily_stamp w)) /\
  result_of (daily_report w Sample.cfg)
  <> Returned (daily_unavailable_caption (daily_stamp w)).
Proof.
  cbv zeta.
  assert (Hs : result_of (startup_report
                            (Sample.healthy (Obj [("toString", Null)]) (Str "40.00"))
                            Sample.cfg)
               = Returned (startup_failure_caption
                             (startup_stamp
                                (Sample.healthy (Obj [("toString", Null)]) (Str "40.00")))))
    by (vm_compute; reflexivity).
  assert (Hd : result_of (daily_report
                            (Sample.healthy (Obj [("toString", Null)]) (Str "40.00"))
                            Sample.cfg)
               = Returned (daily_failure_caption
                             (daily_stamp
                                (Sample.healthy (Obj [("toString", Null)]) (Str "40.00")))))
    by (vm_compute; reflexivity).
  split; [reflexivity|]. split; [reflexivity|]. split; [reflexivity|].
  split; [reflexivity|].
  split; [exact Hs|]. split; [rewrite Hs; vm_compute; discriminate|].
  split; [exact Hd|]. rewrite Hd; vm_compute; discriminate.
Qed.

(** C4. For every API response whose two price fields [parseFloat] can
    read (their conversion to text does not throw) and in which either
    one is missing or reads as [NaN], on the startup and on the daily
    path: the report is the rates-unavailable body behind the date stamp;
    neither pipeline throws; and every text handed to Telegram is that
    caption, alone or behind the fallback banner. The caption is built
    from the date stamp and fixed sentences only, so no digit of either
    price can appear in it. *)
Theorem invalid_rates_give_unavailable_body w cfg url response :
  dollarApiUrl cfg = Some url -> url <> "" ->
  axios_get w url 10000 = Ok response ->
  converts (price_of "bcv" response) = true ->
  converts (price_of "enparalelovzla" response) = true ->
  price_of "bcv" response = Undefined \/
  price_of "enparalelovzla" response = Undefined \/
  isNaN (parseFloat (price_of "bcv" response)) = true \/
  isNaN (parseFloat (price_of "enparalelovzla" response)) = true ->
  result_of (startup_report w cfg)
  = Returned (startup_unavailable_caption (startup_stamp w)) /\
  result_of (daily_report w cfg)
  = Returned (daily_unavailable_caption (daily_stamp w)) /\
  result_of (sendTelegramStartupPhotoWithRates w cfg) = Returned tt /\
  result_of (sendDailyUpdate w cfg) = Returned tt /\
  (forall e text,
     In e (sends (trace (sendTelegramStartupPhotoWithRates w cfg))) ->
     text_of e = Some text ->
     text = startup_unavailable_caption (startup_stamp w) \/
     text = "⚠️ *Error al enviar foto de inicio.*" ++ LF ++ LF
            ++ startup_unavailable_caption (startup_stamp w)) /\
  (forall e text,
     In e (sends (trace (sendDailyUpdate w cfg))) ->
     text_of e = Some text ->
     text = daily_unavailable_caption (daily_stamp w) \/
     text = "⚠️ *Error al enviar foto del reporte diario.*" ++ LF ++ LF
            ++ daily_unavailable_caption (daily_stamp w)).
Proof.
  intros Hurl Hne Hget Hcb Hcs Hbad.
  assert (Hnan : isNaN (bcvNum_of response) || isNaN (paraleloNum_of response) = true).
  { apply orb_true_iff.
    change (bcvNum_of response) with (parseFloat (price_of "bcv" response)).
    change (paraleloNum_of response)
      with (parseFloat (price_of "enparalelovzla" response)).
    destruct Hbad as [H | [H | [H | H]]].
    - left. rewrite H. exact missing_price_is_NaN.
    - right. rewrite H. exact missing_price_is_NaN.
    - left. exact H.
    - right. exact H. }
  destruct (startup_report_unavailable w cfg url Hurl Hne response Hget Hcb Hcs Hnan)
    as (s0 & _ & Hs).
  destruct (daily_report_unavailable w cfg url Hurl Hne response Hget Hcb Hcs Hnan)
    as (d0 & _ & Hd).
  split; [rewrite Hs; reflexivity|]. split; [rewrite Hd; reflexivity|].
  split; [apply startup_pipeline_returns|]. split; [apply daily_pipeline_returns|].
  destruct (truthy (imageUrl cfg)) eqn:Hi.
  - destruct (truthy_inv _ Hi) as (a & u & Himg).
    assert (Hi' : String a u <> "") by discriminate.
    destruct (startup_pipeline_sends w cfg _ _ Himg Hi' ltac:(rewrite Hs; reflexivity))
      as [_ Hss].
    destruct (daily_pipeline_sends w cfg _ _ Himg Hi' ltac:(rewrite Hd; reflexivity))
      as [_ Hds].
    split.
    + apply (texts_are _ "⚠️ *Error al enviar foto de inicio.*" (chatId cfg)
               (String a u)
               (photo_options cfg (startup_unavailable_caption (startup_stamp w)))
               (text_options cfg) _ eq_refl).
      destruct Hss as [[_ H] | (error & _ & H)]; [left | right]; exact H.
    + apply (texts_are _ "⚠️ *Error al enviar foto del reporte diario.*" (chatId cfg)
               (String a u)
               (photo_options cfg (daily_unavailable_caption (daily_stamp w)))
               (text_options cfg) _ eq_refl).
      destruct Hds as [[_ H] | (error & _ & H)]; [left | right]; exact H.
  - rewrite (startup_pipeline_no_image w cfg Hi), (daily_pipeline_no_image w cfg Hi).
    split; intros e text [].
Qed.

Lemma invalid_rates_give_unavailable_body_witness :
  converts (price_of "bcv" (Sample.response (Str "36.50") Null)) = true /\
  converts (price_of "enparalelovzla" (Sample.response (Str "36.50") Null)) = true /\
  isNaN (parseFloat (price_of "enparalelovzla" (Sample.response (Str "36.50") Null)))
  = true /\
  result_of (startup_report (Sample.healthy (Str "36.50") Null) Sample.cfg)
  = Returned (startup_unavailable_caption
                (startup_stamp (Sample.healthy (Str "36.50") Null))).
Proof.
  split; [reflexivity|]. split; [reflexivity|].
  assert (H : isNaN (parseFloat
                       (price_of "enparalelovzla" (Sample.response (Str "36.50") Null)))
              = true) by (vm_compute; reflexivity).
  split; [exact H|].
  assert (Hne : "https://example.org/api/v1/dollar" <> "") by discriminate.
  exact (proj1 (invalid_rates_give_unavailable_body
                  (Sample.healthy (Str "36.50") Null) Sample.cfg
                  "https://example.org/api/v1/dollar"
                  (Sample.response (Str "36.50") Null)
                  eq_refl Hne eq_refl eq_refl eq_refl
                  (or_intror (or_intror (or_intror H))))).
Defined.

End PipelineProperties.

(* ===================================================================== *)
(** * Facts about Number: what [toFixed] prints *)
(* ===================================================================== *)

Module NumberFacts.

Import Text Number.

Lemma fraction_positive m e :
  0 < fst (fraction m e) /\ 0 < snd (fraction m e).
Proof.
  unfold fraction. destruct (Z.leb_spec 0 e); cbn [fst snd].
  - split; [| lia]. apply Z.mul_pos_pos; [lia | apply Z.pow_pos_nonneg; lia].
  - split; [lia | apply Z.pow_pos_nonneg; lia].
Qed.

(** [round_half_up num den] is the integer nearest to [num / den], the
    larger one of the two when [num / den] lies half-way. *)
Lemma round_half_up_nearest num den :
  0 < den ->
  let n := round_half_up num den in
  - den <= 2 * (num - n * den) < den.
Proof.
  intros Hden n. unfold n, round_half_up.
  pose proof (Z.div_mod (2 * num + den) (2 * den) ltac:(lia)) as Hdm.
  pose proof (Z.mod_pos_bound (2 * num + den) (2 * den) ltac:(lia)) as Hm.
  nia.
Qed.

Lemma round_half_up_nonneg num den : 0 <= num -> 0 < den -> 0 <= round_half_up num den.
Proof.
  intros Hn Hd. unfold round_half_up. apply Z.div_pos; lia.
Qed.

(** ** Decimal digits *)

Lemma string_of_uint_chars u : NilEmpty.string_of_uint u = chars (DecimalFacts.to_list u).
Proof. induction u; simpl; congruence. Qed.

Lemma chars_app l l' : chars (l ++ l') = chars l ++ chars l'.
Proof. induction l as [|d l IH]; simpl; [reflexivity | rewrite IH; reflexivity]. Qed.

Lemma string_of_uint_app u v :
  NilEmpty.string_of_uint (Decimal.app u v)
  = NilEmpty.string_of_uint u ++ NilEmpty.string_of_uint v.
Proof. rewrite !string_of_uint_chars, DecimalFacts.app_spec, chars_app. reflexivity. Qed.

(** A positive number prints without a leading zero. *)
Lemma to_uint_head p :
  exists d l, DecimalFacts.to_list (Pos.to_uint p) = d :: l /\ d <> DecimalFacts.d0.
Proof.
  pose proof (DecimalPos.Unsigned.to_of (Pos.to_uint p)) as H.
  rewrite DecimalPos.Unsigned.of_to in H. cbn [N.to_uint] in H.
  pose proof (DecimalPos.Unsigned.to_uint_nonzero p) as Hz.
  assert (Hn : Decimal.nzhead (Pos.to_uint p) <> Decimal.Nil).
  { intros E. apply Hz. rewrite H. apply DecimalFacts.unorm_0. exact E. }
  rewrite (DecimalFacts.unorm_nzhead _ Hn) in H.
  pose proof (DecimalFacts.nzhead_nonzero (Pos.to_uint p)) as Hnz. rewrite <- H in Hnz, Hn.
  destruct (Pos.to_uint p) as [|u|u|u|u|u|u|u|u|u|u]; cbn [DecimalFacts.to_list];
    try (eexists _, _; split; [reflexivity | discriminate]).
  - contradiction.
  - exfalso. apply (Hnz u). reflexivity.
Qed.

Lemma unorm_head u d l : DecimalFacts.to_list u = d :: l -> d <> DecimalFacts.d0 -> Decimal.unorm u = u.
Proof.
  intros H Hd. apply DecimalFacts.to_list_inj. rewrite DecimalFacts.unorm_spec, H.
  unfold DecimalFacts.lunorm. rewrite (DecimalFacts.lnzhead_head_nd0 d l Hd). reflexivity.
Qed.

Lemma to_uint_step (q : positive) (r : N) :
  (r < 10)%N ->
  N.to_uint (10 * Npos q + r) = Decimal.app (Pos.to_uint q) (N.to_uint r).
Proof.
  intros Hr.
  set (D := Decimal.app (Pos.to_uint q) (N.to_uint r)).
  assert (Hval : Pos.of_uint D = (10 * Npos q + r)%N).
  { rewrite DecimalPos.Unsigned.of_uint_alt.
    assert (Hrev : Decimal.rev D = Decimal.app (Decimal.rev (N.to_uint r)) (Decimal.rev (Pos.to_uint q))).
    { apply DecimalFacts.to_list_inj. unfold D.
      rewrite DecimalFacts.rev_spec, !DecimalFacts.app_spec, !DecimalFacts.rev_spec, List.rev_app_distr. reflexivity. }
    rewrite Hrev.
    pose proof (DecimalPos.Unsigned.of_lu_rev (Decimal.rev (Pos.to_uint q))) as Hq.
    rewrite DecimalFacts.rev_rev, DecimalPos.Unsigned.of_to in Hq.
    assert (Hcases : (r = 0 \/ r = 1 \/ r = 2 \/ r = 3 \/ r = 4 \/ r = 5 \/ r = 6
                      \/ r = 7 \/ r = 8 \/ r = 9)%N) by lia.
    assert (Happ : forall x v, DecimalFacts.to_list x = [v] -> forall y,
                     DecimalFacts.to_list (Decimal.app x y) = v :: DecimalFacts.to_list y).
    { intros x v Hx y. rewrite DecimalFacts.app_spec, Hx. reflexivity. }
    repeat destruct Hcases as [-> | Hcases]; try subst r;
      match goal with
      | |- DecimalPos.Unsigned.of_lu (Decimal.app ?x ?y) = _ =>
          let v := eval cbv in (DecimalFacts.to_list x) in
          match v with
          | [?d] =>
              rewrite <- (DecimalFacts.of_list_to_list (Decimal.app x y)), (Happ x d eq_refl y);
              cbn [DecimalFacts.of_list]; rewrite DecimalFacts.of_list_to_list;
              cbn [DecimalPos.Unsigned.of_lu]; rewrite <- Hq; lia
          end
      end. }
  pose proof (DecimalPos.Unsigned.to_of D) as H. rewrite Hval in H. rewrite H.
  destruct (to_uint_head q) as (d & l & Hl & Hd).
  apply (unorm_head D d (l ++ DecimalFacts.to_list (N.to_uint r)) ); [| exact Hd].
  unfold D. rewrite DecimalFacts.app_spec, Hl. reflexivity.
Qed.

Lemma of_Z_nonneg n : 0 <= n -> Text.of_Z n = NilEmpty.string_of_uint (N.to_uint (Z.to_N n)).
Proof. intros H. destruct n; [reflexivity | reflexivity | lia]. Qed.

(** The digits of [n]: those of [n / 10] followed by the last one. *)
Lemma of_Z_step n : 10 <= n -> Text.of_Z n = Text.of_Z (n / 10) ++ Text.of_Z (n mod 10).
Proof.
  intros Hn.
  pose proof (Z.div_mod n 10 ltac:(lia)) as Hdm.
  pose proof (Z.mod_pos_bound n 10 ltac:(lia)) as Hm.
  assert (Hq : 0 < n / 10) by (apply Z.div_str_pos; lia).
  rewrite !of_Z_nonneg by lia.
  destruct (n / 10) as [|q|q] eqn:Eq; try lia.
  replace (Z.to_N n) with (10 * Npos q + Z.to_N (n mod 10))%N by lia.
  rewrite to_uint_step by lia.
  rewrite string_of_uint_app. reflexivity.
Qed.

Lemma of_Z_digit r : 0 <= r < 10 -> String.length (Text.of_Z r) = 1%nat.
Proof.
  intros H.
  assert (Hc : r = 0 \/ r = 1 \/ r = 2 \/ r = 3 \/ r = 4 \/ r = 5 \/ r = 6
               \/ r = 7 \/ r = 8 \/ r = 9) by lia.
  repeat destruct Hc as [-> | Hc]; try subst r; reflexivity.
Qed.

Lemma take_app a b : take (String.length a) (a ++ b) = a.
Proof. induction a as [|c a IH]; simpl; [destruct b; reflexivity | rewrite IH; reflexivity]. Qed.

Lemma drop_app a b : drop (String.length a) (a ++ b) = b.
Proof. induction a as [|c a IH]; simpl; [destruct b; reflexivity | exact IH]. Qed.

Lemma length_append a b : String.length (a ++ b) = (String.length a + String.length b)%nat.
Proof. induction a as [|c a IH]; simpl; [reflexivity | rewrite IH; reflexivity]. Qed.

(** What [toFixed(2)] lays out: the integer part, the point, the tenths
    and the hundredths. *)
Lemma fixed_digits_two n :
  0 <= n ->
  fixed_digits n 2 = Text.of_Z (n / 100) ++ "." ++ Text.of_Z (n / 10 mod 10) ++ Text.of_Z (n mod 10).
Proof.
  intros Hn. unfold fixed_digits.
  pose proof (Z.mod_pos_bound n 10 ltac:(lia)) as Hm0.
  pose proof (Z.mod_pos_bound (n / 10) 10 ltac:(lia)) as Hm1.
  pose proof (of_Z_digit _ Hm0) as L0.
  pose proof (of_Z_digit _ Hm1) as L1.
  replace (n / 100) with (n / 10 / 10) by (rewrite Z.div_div by lia; reflexivity).
  destruct (Z.lt_ge_cases n 10) as [Hs | Hb].
  - (* one digit *)
    rewrite (Z.div_small n 10) by lia. rewrite (Z.mod_small n 10) in * by lia.
    cbn [Z.div Z.modulo Z.div_eucl]. 
    destruct (Text.of_Z n) as [|c [|c' s]] eqn:E; try discriminate. reflexivity.
  - rewrite (of_Z_step n Hb).
    destruct (Z.lt_ge_cases (n / 10) 10) as [Hs | Hb'].
    + (* two digits *)
      rewrite (Z.div_small (n / 10) 10) by (split; [apply Z.div_pos; lia | lia]).
      rewrite (Z.mod_small (n / 10) 10) in * by (split; [apply Z.div_pos; lia | lia]).
      destruct (Text.of_Z (n / 10)) as [|c [|c' s]] eqn:E; try discriminate.
      destruct (Text.of_Z (n mod 10)) as [|e [|e' s]] eqn:E'; try discriminate.
      reflexivity.
    + (* three digits or more *)
      rewrite (of_Z_step (n / 10) Hb').
      set (a := Text.of_Z (n / 10 / 10)). set (b := Text.of_Z (n / 10 mod 10)) in *.
      set (c := Text.of_Z (n mod 10)) in *.
      assert (La : (1 <= String.length a)%nat).
      { unfold a. destruct (Text.of_Z (n / 10 / 10)) eqn:E; [| simpl; lia].
        exfalso. assert (0 < n / 10 / 10) by (apply Z.div_str_pos; lia).
        destruct (n / 10 / 10) as [|p|p]; try lia.
        unfold Text.of_Z in E. cbn [Z.to_int NilEmpty.string_of_int] in E.
        pose proof (DecimalPos.Unsigned.to_uint_nonnil p) as Hnn.
        destruct (Pos.to_uint p); try discriminate. contradiction. }
      assert (Hlen : String.length ((a ++ b) ++ c) = (String.length a + 2)%nat).
      { rewrite !length_append, L0, L1. lia. }
      rewrite Hlen.
      replace (Nat.leb (String.length a + 2) 2) with false
        by (symmetry; apply Nat.leb_gt; lia).
      rewrite Hlen.
      replace (String.length a + 2 - 2)%nat with (String.length a) by lia.
      rewrite TextFacts.append_assoc, take_app, drop_app. reflexivity.
Qed.

(** For a finite number of magnitude below [10^21], [toFixed(2)] prints
    the sign, then the integer [n] nearest to a hundred times the
    magnitude laid out as [n / 100], the point, and the two digits of
    [n mod 100]: the value rounded to two decimal places, half-way cases
    away from zero. *)
Lemma toFixed_two_decimals neg m e :
  let num := fst (fraction m e) in
  let den := snd (fraction m e) in
  num < 10 ^ 21 * den ->
  exists n,
    toFixed (S754_finite neg m e) 2
    = (if neg then "-" else "")
      ++ Text.of_Z (n / 100) ++ "." ++ Text.of_Z (n / 10 mod 10) ++ Text.of_Z (n mod 10) /\
    0 <= n /\
    - den <= 2 * (100 * num - n * den) < den.
Proof.
  intros num den Hlt.
  destruct (fraction_positive m e) as [Hnum Hden].
  fold num in Hnum. fold den in Hden.
  assert (Hn : 0 <= round_half_up (num * 100) den)
    by (apply round_half_up_nonneg; lia).
  exists (round_half_up (num * 100) den).
  split; [| split].
  - rewrite <- (fixed_digits_two _ Hn).
    unfold toFixed. unfold num, den in *.
    destruct (fraction m e) as [a b]. cbn [fst snd] in *.
    destruct (Z.leb_spec (10 ^ 21 * b) a); [lia | reflexivity].
  - exact Hn.
  - pose proof (round_half_up_nearest (num * 100) den Hden) as H.
    cbn zeta in H. lia.
Qed.

(** Of the values [isNaN] lets through, the infinite ones print as words
    and the finite ones of magnitude [10^21] or more in exponent form. *)
Lemma toFixed_infinite neg : toFixed (S754_infinity neg) 2 = (if neg then "-Infinity" else "Infinity").
Proof. reflexivity. Qed.

Lemma toFixed_zero neg : toFixed (S754_zero neg) 2 = "0.00".
Proof. reflexivity. Qed.

(** ** The built-ins on sample inputs *)

Example parseFloat_decimal :
  parseFloat_string "36.50" = S754_finite false 5136918324969472 (-47).
Proof. vm_compute. reflexivity. Qed.

Example parseFloat_prefix :
  parseFloat_string "  12abc" = parseFloat_string "12" /\
  parseFloat_string "1e" = parseFloat_string "1" /\
  parseFloat_string "5.e3" = parseFloat_string "5000" /\
  parseFloat_string "-.5e1" = parseFloat_string "-5" /\
  parseFloat_string "36,50" = parseFloat_string "36".
Proof. vm_compute. repeat split; reflexivity. Qed.

Example parseFloat_not_a_number :
  isNaN (parseFloat_string "") = true /\
  isNaN (parseFloat_string "abc") = true /\
  isNaN (parseFloat_string ".") = true /\
  isNaN (parseFloat_string "+-5") = true /\
  isNaN (parseFloat_string "infinity") = true /\
  isNaN (parseFloat_string "undefined") = true /\
  isNaN (parseFloat_string "null") = true.
Proof. vm_compute. repeat split; reflexivity. Qed.

Example parseFloat_rounds_to_nearest_even :
  parseFloat_string "9007199254740993" = parseFloat_string "9007199254740992" /\
  parseFloat_string "1e400" = S754_infinity false /\
  parseFloat_string "1e-400" = S754_zero false /\
  parseFloat_string "5e-324" = S754_finite false 1 (-1074).
Proof. vm_compute. repeat split; reflexivity. Qed.

Example toString_samples :
  map (fun s => toString (parseFloat_string s))
    ["36.5"; "0.1"; "100"; "1e21"; "1e23"; "123456789012345680000";
     "0.000001"; "0.0000001"; "5e-324"; "1.7976931348623157e308";
     "0.30000000000000004"; "-0"; "-2.50"]
  = ["36.5"; "0.1"; "100"; "1e+21"; "1e+23"; "123456789012345680000";
     "0.000001"; "1e-7"; "5e-324"; "1.7976931348623157e+308";
     "0.30000000000000004"; "0"; "-2.5"].
Proof. vm_compute. reflexivity. Qed.

Example toFixed_samples :
  map (fun s => toFixed (parseFloat_string s) 2)
    ["36.5"; "0.1"; "1.005"; "2.675"; "0.125"; "999.995"; "-0.001"; "-0";
     "1e20"; "1e21"; "Infinity"; "abc"]
  = ["36.50"; "0.10"; "1.00"; "2.67"; "0.13"; "1000.00"; "-0.00"; "0.00";
     "100000000000000000000.00"; "1e+21"; "Infinity"; "NaN"].
Proof. vm_compute. reflexivity. Qed.

Example average_of_two_rates :
  div (add (parseFloat_string "36.50") (parseFloat_string "40.00")) (Number.of_Z 2)
  = parseFloat_string "38.25".
Proof. vm_compute. reflexivity. Qed.

End NumberFacts.

(* ===================================================================== *)
(** * Facts about values *)
(* ===================================================================== *)

Module JsFacts.

Import Text Number Js.

Example ToString_samples :
  map ToString
    [Undefined; Null; Bool true; Num (parseFloat_string "36.5"); Str "x";
     Obj [("price", Str "1")];
     Arr [Num (Number.of_Z 1); Null; Arr [Str "a"; Undefined]; Bool false]]
  = ["undefined"; "null"; "true"; "36.5"; "x"; "[object Object]"; "1,,a,,false"].
Proof. vm_compute. reflexivity. Qed.

(** What [parseFloat] makes of the shapes a price can have. *)
Example parseFloat_of_values :
  parseFloat (Num (parseFloat_string "36.5")) = parseFloat_string "36.5" /\
  parseFloat (Str "36.50") = parseFloat_string "36.5" /\
  parseFloat (Arr [Str "36.5"; Str "40"]) = parseFloat_string "36.5" /\
  isNaN (parseFloat Undefined) = true /\
  isNaN (parseFloat Null) = true /\
  isNaN (parseFloat (Bool true)) = true /\
  isNaN (parseFloat (Obj [("value", Str "36.5")])) = true /\
  isNaN (parseFloat (Arr [])) = true.
Proof. vm_compute. repeat split; reflexivity. Qed.

(** Where [parseFloat] throws: on an object with an own [toString], which
    [JSON.parse] never makes a function, and on an array that holds one;
    a plain object and an array of texts convert. *)
Example parseFloat_throws_on_values :
  parseFloat_or_throw (Obj [("toString", Null)])
  = inr (TypeError "Cannot convert object to primitive value") /\
  parseFloat_or_throw (Arr [Str "36.5"; Obj [("toString", Null)]])
  = inr (TypeError "Cannot convert object to primitive value") /\
  parseFloat_or_throw (Arr [Str "36.5"; Null]) = inl (parseFloat_string "36.5") /\
  parseFloat_or_throw (Obj [("value", Str "36.5")]) = inl NaN /\
  parseFloat_or_throw (Str "36.50") = inl (parseFloat_string "36.5").
Proof. vm_compute. repeat split; reflexivity. Qed.

(** The optional chain never throws: on anything but an object it
    yields [undefined]. *)
Lemma get_optional_not_object v k :
  (forall ps, v <> Obj ps) -> get_optional v k = Undefined.
Proof. intros H. destruct v; try reflexivity. exfalso. apply (H props0). reflexivity. Qed.

End JsFacts.

(* ===================================================================== *)
(** * The rates and their average *)
(* ===================================================================== *)

Module RateProperties.

Import Text Number Js Effects App Observe IOFacts Report NumberFacts.

(** C1, as stated, fails. The guard of the average branch is [isNaN], not
    finiteness: a price that reads [Infinity] enters the branch and is
    printed with an infinite average; and a finite price of magnitude
    [10^21] is printed in exponent form, not with two decimals. *)
Lemma average_branch_counterexample :
  (isFinite (bcvNum_of (Sample.response (Str "Infinity") (Str "40.00"))) = false /\
   result_of (startup_report (Sample.healthy (Str "Infinity") (Str "40.00")) Sample.cfg)
   = Returned ("🗓️ *Fecha:* 02/11/2026" ++ LF ++ LF
               ++ "*Cotización (VEN 🇻🇪)*" ++ LF ++ LF
               ++ "*BCV:* Infinity Bs" ++ LF
               ++ "*Paralelo:* 40.00 Bs" ++ LF
               ++ "*Promedio:* Infinity Bs")) /\
  (isFinite (parseFloat (Str "1e21")) = true /\
   toFixed (parseFloat (Str "1e21")) 2 = "1e+21").
Proof. vm_compute. repeat split; reflexivity. Qed.

(** C1, amended. For every API response whose two monitor price fields
    [parseFloat] reads as numbers that are not [NaN] (finite or
    infinite), the startup and the daily report carry the three lines of
    rates: the two rates and their average, computed as the binary64 value
    [(primaryRate + secondaryRate) / 2], each printed by [toFixed(2)].
    The branch is taken exactly when both calls of [parseFloat] return and
    neither rate is [NaN]: when either is [NaN] the report is the
    rates-unavailable body, and when either call throws (the price is an
    object that does not convert to text) the [catch] of the fetch writes
    the caption of a failed fetch. What [toFixed(2)] prints of a finite
    value: a zero of either sign prints [0.00]; a nonzero value of
    magnitude below [10^21] prints rounded to two decimal places, the
    integer [n] nearest to a hundred times the magnitude printed as
    [n / 100], a point and two digits; 36.50 and 40.00 give 38.25. *)
Theorem rates_average_rendered w cfg url response :
  dollarApiUrl cfg = Some url -> url <> "" ->
  axios_get w url 10000 = Ok response ->
  (forall p s,
     parseFloat_or_throw (bcvPrice_of response) = inl p ->
     parseFloat_or_throw (paraleloPrice_of response) = inl s ->
     (isNaN p = false -> isNaN s = false ->
      result_of (startup_report w cfg)
      = Returned ("🗓️ *Fecha:* " ++ startup_stamp w ++ LF ++ LF
                  ++ "*Cotización (VEN 🇻🇪)*" ++ LF ++ LF
                  ++ "*BCV:* " ++ toFixed p 2 ++ " Bs" ++ LF
                  ++ "*Paralelo:* " ++ toFixed s 2 ++ " Bs" ++ LF
                  ++ "*Promedio:* " ++ toFixed (div (add p s) (Number.of_Z 2)) 2 ++ " Bs") /\
      result_of (daily_report w cfg)
      = Returned (daily_heading (daily_stamp w)
                  ++ (LF ++ LF
                      ++ "*Cotización (VEN 🇻🇪)*" ++ LF ++ LF
                      ++ "*BCV:* " ++ toFixed p 2 ++ " Bs" ++ LF
                      ++ "*Paralelo:* " ++ toFixed s 2 ++ " Bs" ++ LF
                      ++ "*Promedio:* " ++ toFixed (div (add p s) (Number.of_Z 2)) 2 ++ " Bs"))) /\
     (isNaN p = true \/ isNaN s = true ->
      result_of (startup_report w cfg)
      = Returned (startup_unavailable_caption (startup_stamp w)) /\
      result_of (daily_report w cfg)
      = Returned (daily_unavailable_caption (daily_stamp w)))) /\
  (forall e,
     parseFloat_or_throw (bcvPrice_of response) = inr e \/
     parseFloat_or_throw (paraleloPrice_of response) = inr e ->
     result_of (startup_report w cfg)
     = Returned (startup_failure_caption (startup_stamp w)) /\
     result_of (daily_report w cfg)
     = Returned (daily_failure_caption (daily_stamp w))) /\
  (forall neg, toFixed (S754_zero neg) 2 = "0.00") /\
  (forall neg m e,
     fst (fraction m e) < 10 ^ 21 * snd (fraction m e) ->
     exists n,
       toFixed (S754_finite neg m e) 2
       = (if neg then "-" else "")
         ++ Text.of_Z (n / 100) ++ "." ++ Text.of_Z (n / 10 mod 10)
         ++ Text.of_Z (n mod 10) /\
       0 <= n /\
       - snd (fraction m e)
         <= 2 * (100 * fst (fraction m e) - n * snd (fraction m e))
         < snd (fraction m e)) /\
  toFixed (div (add (parseFloat (Str "36.50")) (parseFloat (Str "40.00")))
             (Number.of_Z 2)) 2 = "38.25".
Proof.
  intros Hurl Hne Hget. split; [| split; [| split; [| split]]].
  - intros p s Hrp Hrs.
    destruct (parse_inl _ _ Hrp) as [Hcb ->].
    destruct (parse_inl _ _ Hrs) as [Hcs ->].
    fold (bcvNum_of response). fold (paraleloNum_of response). split.
    + intros Hp Hs.
      destruct (startup_report_rates w cfg url Hurl Hne response Hget Hcb Hcs Hp Hs)
        as (t0 & _ & H0).
      destruct (daily_report_rates w cfg url Hurl Hne response Hget Hcb Hcs Hp Hs)
        as (t1 & _ & H1).
      rewrite H0, H1. split; reflexivity.
    + intros Hnan.
      assert (H : isNaN (bcvNum_of response) || isNaN (paraleloNum_of response) = true)
        by (apply orb_true_iff; exact Hnan).
      destruct (startup_report_unavailable w cfg url Hurl Hne response Hget Hcb Hcs H)
        as (t0 & _ & H0).
      destruct (daily_report_unavailable w cfg url Hurl Hne response Hget Hcb Hcs H)
        as (t1 & _ & H1).
      rewrite H0, H1. split; reflexivity.
  - intros e He.
    assert (Hc : converts (bcvPrice_of response) && converts (paraleloPrice_of response)
                 = false).
    { apply andb_false_iff.
      destruct He as [H | H]; [left | right]; exact (parse_inr _ _ H). }
    destruct (startup_report_unreadable w cfg url Hurl Hne response Hget Hc)
      as (t0 & t1 & _ & _ & H0).
    destruct (daily_report_unreadable w cfg url Hurl Hne response Hget Hc)
      as (t2 & t3 & _ & _ & H1).
    rewrite H0, H1. split; reflexivity.
  - intros neg. exact (toFixed_zero neg).
  - intros neg m e Hlt. exact (toFixed_two_decimals neg m e Hlt).
  - vm_compute. reflexivity.
Qed.

Lemma rates_average_rendered_witness :
  parseFloat_or_throw (bcvPrice_of (Sample.response (Str "36.50") (Str "40.00")))
  = inl (parseFloat (Str "36.50")) /\
  parseFloat_or_throw (paraleloPrice_of (Sample.response (Str "36.50") (Str "40.00")))
  = inl (parseFloat (Str "40.00")) /\
  isNaN (parseFloat (Str "36.50")) = false /\
  isNaN (parseFloat (Str "40.00")) = false /\
  result_of (startup_report (Sample.healthy (Str "36.50") (Str "40.00")) Sample.cfg)
  = Returned ("🗓️ *Fecha:* " ++ startup_stamp (Sample.healthy (Str "36.50") (Str "40.00"))
              ++ LF ++ LF
              ++ "*Cotización (VEN 🇻🇪)*" ++ LF ++ LF
              ++ "*BCV:* " ++ toFixed (parseFloat (Str "36.50")) 2 ++ " Bs" ++ LF
              ++ "*Paralelo:* " ++ toFixed (parseFloat (Str "40.00")) 2 ++ " Bs" ++ LF
              ++ "*Promedio:* "
              ++ toFixed (div (add (parseFloat (Str "36.50")) (parseFloat (Str "40.00")))
                            (Number.of_Z 2)) 2
              ++ " Bs").
Proof.
  assert (Hrp : parseFloat_or_throw
                  (bcvPrice_of (Sample.response (Str "36.50") (Str "40.00")))
                = inl (parseFloat (Str "36.50"))) by reflexivity.
  assert (Hrs : parseFloat_or_throw
                  (paraleloPrice_of (Sample.response (Str "36.50") (Str "40.00")))
                = inl (parseFloat (Str "40.00"))) by reflexivity.
  assert (Hp : isNaN (parseFloat (Str "36.50")) = false) by (vm_compute; reflexivity).
  assert (Hs : isNaN (parseFloat (Str "40.00")) = false) by (vm_compute; reflexivity).
  assert (Hne : "https://example.org/api/v1/dollar" <> "") by discriminate.
  split; [exact Hrp|]. split; [exact Hrs|]. split; [exact Hp|]. split; [exact Hs|].
  exact (proj1 (proj1 (proj1 (rates_average_rendered
                                (Sample.healthy (Str "36.50") (Str "40.00")) Sample.cfg
                                "https://example.org/api/v1/dollar"
                                (Sample.response (Str "36.50") (Str "40.00"))
                                eq_refl Hne eq_refl)
                         _ _ Hrp Hrs) Hp Hs)).
Defined.

End RateProperties.

(* ===================================================================== *)
(** * The date stamp of the captions *)
(* ===================================================================== *)

Module DateProperties.

Import Text Number Js Effects App Observe IOFacts Report TextFacts Pipeline
  PipelineProperties.

(** Every startup caption is the default caption with the notice, or the
    date line followed by a body; every daily caption is the heading
    followed by a body. *)
Lemma startup_report_form w cfg :
  exists c,
    result_of (startup_report w cfg) = Returned c /\
    (c = startup_default_caption w ++ " (URL de API no configurada)" \/
     exists body, c = "🗓️ *Fecha:* " ++ startup_stamp w ++ LF ++ LF ++ body).
Proof.
  destruct (truthy (dollarApiUrl cfg)) eqn:Hu.
  - destruct (truthy_inv _ Hu) as (a & u & Hurl).
    assert (Hne : String a u <> "") by discriminate.
    destruct (startup_report_cases w cfg _ Hurl Hne) as (t0 & t1 & _ & _ & Hr).
    eexists. split; [rewrite Hr; reflexivity|]. right.
    destruct (report_kind_of w (String a u)); eexists; reflexivity.
  - destruct (startup_report_unconfigured w cfg Hu) as (t & _ & Hr).
    eexists. split; [rewrite Hr; reflexivity|]. left. reflexivity.
Qed.

Lemma daily_report_form w cfg :
  exists body,
    result_of (daily_report w cfg)
    = Returned (daily_heading (daily_stamp w) ++ body).
Proof.
  destruct (truthy (dollarApiUrl cfg)) eqn:Hu.
  - destruct (truthy_inv _ Hu) as (a & u & Hurl).
    assert (Hne : String a u <> "") by discriminate.
    destruct (daily_report_cases w cfg _ Hurl Hne) as (t0 & t1 & _ & _ & Hr).
    rewrite Hr. cbn [result_of snd].
    destruct (report_kind_of w (String a u)); eexists; reflexivity.
  - destruct (daily_report_unconfigured w cfg Hu) as (t & _ & Hr).
    eexists. rewrite Hr. reflexivity.
Qed.

Lemma stamp_prefix a d b x : starts_with (a ++ d ++ b) (a ++ d ++ b ++ x) = true.
Proof.
  rewrite <- (append_assoc d b x), <- (append_assoc a (d ++ b) x).
  apply starts_with_app.
Qed.

(** C9, as stated, fails: when the date cannot be formatted there is no
    date stamp. In the world [Sample.no_dates], with no rate API
    configured, the startup caption begins with the placeholder. *)
Lemma date_stamp_counterexample :
  toLocaleString Sample.no_dates "es-VE" startup_date_options
  = Err [("name", Str "RangeError")] /\
  result_of (startup_report Sample.no_dates Sample.cfg_no_api)
  = Returned ("[Fecha no disponible]" ++ LF ++ LF
              ++ "⚡️ Bot iniciado y listo. (URL de API no configurada)") /\
  starts_with "🗓️ *Fecha:* "
    ("[Fecha no disponible]" ++ LF ++ LF
     ++ "⚡️ Bot iniciado y listo. (URL de API no configurada)") = false.
Proof. vm_compute. repeat split; reflexivity. Qed.

(** C9, amended. Whenever the date formats, every caption begins with
    the date line: the startup caption with the stamp [toLocaleString]
    gives for locale es-VE, time zone America/Caracas and the fields day,
    month and year only; the daily caption with the stamp it gives for
    locale es-ES, time zone Etc/GMT-3 (UTC+3) and day, month, year, hour
    and minute on the 24-hour clock, followed by "(UTC+3)". The photo
    carries that caption. When the date does not format, the daily
    caption has its placeholder where the stamp would be. And the caption
    rendered when the fetch fails differs between the two kinds, whatever
    the stamps. *)
Theorem captions_begin_with_date w cfg :
  (timeZone startup_date_options = Some "America/Caracas" /\
   day startup_date_options = Some "2-digit" /\
   month startup_date_options = Some "2-digit" /\
   year startup_date_options = Some "numeric" /\
   hour startup_date_options = None /\
   minute startup_date_options = None) /\
  (timeZone daily_date_options = Some "Etc/GMT-3" /\
   day daily_date_options = Some "2-digit" /\
   month daily_date_options = Some "2-digit" /\
   year daily_date_options = Some "numeric" /\
   hour daily_date_options = Some "2-digit" /\
   minute daily_date_options = Some "2-digit" /\
   hour12 daily_date_options = Some false) /\
  (forall d,
     toLocaleString w "es-VE" startup_date_options = Ok d ->
     exists c,
       result_of (startup_report w cfg) = Returned c /\
       starts_with ("🗓️ *Fecha:* " ++ d ++ LF ++ LF) c = true /\
       forall image,
         imageUrl cfg = Some image -> image <> "" ->
         In (SendPhoto (chatId cfg) image (photo_options cfg c))
            (trace (sendTelegramStartupPhotoWithRates w cfg))) /\
  (forall d,
     toLocaleString w "es-ES" daily_date_options = Ok d ->
     exists c,
       result_of (daily_report w cfg) = Returned c /\
       starts_with ("🗓️ *Fecha:* " ++ d ++ " (UTC+3)" ++ LF ++ LF) c = true /\
       forall image,
         imageUrl cfg = Some image -> image <> "" ->
         In (SendPhoto (chatId cfg) image (photo_options cfg c))
            (trace (sendDailyUpdate w cfg))) /\
  (forall error,
     toLocaleString w "es-ES" daily_date_options = Err error ->
     exists c,
       result_of (daily_report w cfg) = Returned c /\
       starts_with ("🗓️ *Fecha:* [Fecha/Hora no disponible] (UTC+3)" ++ LF ++ LF) c
       = true) /\
  (forall url error,
     dollarApiUrl cfg = Some url -> url <> "" ->
     axios_get w url 10000 = Err error ->
     result_of (startup_report w cfg)
     = Returned (startup_failure_caption (startup_stamp w)) /\
     result_of (daily_report w cfg)
     = Returned (daily_failure_caption (daily_stamp w))) /\
  (forall d d', startup_failure_caption d <> daily_failure_caption d').
Proof.
  split; [repeat split|]. split; [repeat split|].
  split; [| split; [| split; [| split]]].
  - intros d Hd.
    destruct (startup_report_form w cfg) as (c & Hc & Hform).
    exists c. split; [exact Hc|]. split.
    + destruct Hform as [-> | (body & ->)].
      * unfold startup_default_caption. rewrite Hd.
        apply starts_with_app_l.
        apply (stamp_prefix "🗓️ *Fecha:* " d (LF ++ LF) "⚡️ Bot iniciado y listo.").
      * unfold startup_stamp. rewrite Hd.
        apply (stamp_prefix "🗓️ *Fecha:* " d (LF ++ LF) body).
    + intros image Himg Hne.
      destruct (startup_pipeline_sends w cfg image c Himg Hne Hc) as [_ Hs].
      destruct Hs as [[_ H] | (error & _ & H)]; exact (in_sends_head _ _ _ H).
  - intros d Hd.
    destruct (daily_report_form w cfg) as (body & Hc).
    eexists. split; [exact Hc|]. split.
    + apply starts_with_app_l. unfold daily_heading, daily_stamp. rewrite Hd.
      apply (stamp_prefix "🗓️ *Fecha:* " d (" (UTC+3)" ++ LF ++ LF) "📊 *Reporte Diario*").
    + intros image Himg Hne.
      destruct (daily_pipeline_sends w cfg image _ Himg Hne Hc) as [_ Hs].
      destruct Hs as [[_ H] | (error & _ & H)]; exact (in_sends_head _ _ _ H).
  - intros error Hd.
    destruct (daily_report_form w cfg) as (body & Hc).
    eexists. split; [exact Hc|].
    apply starts_with_app_l. unfold daily_heading, daily_stamp. rewrite Hd.
    apply (starts_with_app
             ("🗓️ *Fecha:* [Fecha/Hora no disponible] (UTC+3)" ++ LF ++ LF)
             "📊 *Reporte Diario*").
  - intros url error Hurl Hne Hget.
    destruct (startup_report_failure w cfg url Hurl Hne error Hget)
      as (t0 & t1 & _ & _ & Hs).
    destruct (daily_report_failure w cfg url Hurl Hne error Hget)
      as (t2 & t3 & _ & _ & Hd).
    rewrite Hs, Hd. split; reflexivity.
  - intros d d'. unfold startup_failure_caption, daily_failure_caption, daily_heading.
    rewrite <- !append_assoc.
    change "⚡️ Bot iniciado y listo." with ("⚡️ Bot iniciado y list" ++ "o.").
    change "⚠️ Error al obtener las tasas actuales."
      with ("⚠️ Error al obtener las tasas actuale" ++ "s.").
    rewrite <- !append_assoc.
    apply different_endings; [reflexivity | discriminate].
Qed.

Lemma captions_begin_with_date_witness :
  toLocaleString (Sample.healthy (Str "36.50") (Str "40.00")) "es-VE"
    startup_date_options = Ok "02/11/2026" /\
  exists c,
    result_of (startup_report (Sample.healthy (Str "36.50") (Str "40.00")) Sample.cfg)
    = Returned c /\
    starts_with ("🗓️ *Fecha:* " ++ "02/11/2026" ++ LF ++ LF) c = true.
Proof.
  split; [reflexivity|].
  destruct (proj1 (proj2 (proj2 (captions_begin_with_date
                                   (Sample.healthy (Str "36.50") (Str "40.00"))
                                   Sample.cfg)))
              "02/11/2026" eq_refl) as (c & Hc & Hs & _).
  exists c. split; [exact Hc | exact Hs].
Defined.

End DateProperties.

(* ===================================================================== *)
(** * The bootstrap: port retry and the liveness endpoint *)
(* ===================================================================== *)

Module Bootstrap.

Import Text Number Js Effects App Observe IOFacts Pipeline.


Lemma listens_retries (k : nat) : forall p,
  listens (retries p k) = bind_attempts p k.
Proof.
  unfold bind_attempts.
  induction k as [|k IH]; intros p; [reflexivity|].
  cbn [retries]. rewrite listens_app, IH.
  cbn [seq map]. rewrite <- seq_shift, map_map.
  cbn [retry_events listens filter is_listen app]. rewrite Z.add_0_r.
  f_equal. apply map_ext. intros j. f_equal. lia.
Qed.

Lemma bind_attempts_last p (k : nat) :
  (bind_attempts p k ++ [Listen (p + Z.of_nat k)])%list = bind_attempts p (S k).
Proof.
  unfold bind_attempts. rewrite seq_S, map_app. reflexivity.
Qed.

Section Attempts.

Variable w : World.
Variable cfg : Config.

Let base : Z := initialPort cfg.

Lemma startServer_exhausted p :
  base + MAX_PORT_ATTEMPTS <= p ->
  startServer w cfg p
  = ([Console ERROR
        [Str ("❌ Failed to find an available port after trying from "
              ++ Text.of_Z base ++ " up to " ++ Text.of_Z (p - 1) ++ ". Exiting.")]],
     Exited 1).
Proof.
  intros H. rewrite startServer_equation_1.
  destruct (Z_ge_dec p (initialPort cfg + MAX_PORT_ATTEMPTS)) as [g|n];
    [| unfold base in H; lia].
  reflexivity.
Qed.

Lemma startServer_attempt p :
  p < base + MAX_PORT_ATTEMPTS ->
  startServer w cfg p
  = bind (emit (Listen p))
      (fun _ =>
         match server_listen w p with
         | Threw error => throw (Obj error)
         | Bound actualPort => on_listening w cfg actualPort
         | Failed error =>
             bind (member (Obj error) "code")
               (fun code =>
                  if equals_string code "EADDRINUSE" then
                    bind (console_warn
                            [Str ("⚠️ Port " ++ Text.of_Z p
                                  ++ " is already in use. Trying port "
                                  ++ Text.of_Z (p + 1) ++ "...")])
                      (fun _ =>
                         bind (emit (ServerClose (ThenSetTimeout (ThenStartServer (p + 1)) 200)))
                           (fun _ =>
                              bind (emit (SetTimeout (ThenStartServer (p + 1)) 200))
                                (fun _ => in_timer (startServer w cfg (p + 1)))))
                  else
                    bind (console_error [Str "❌ Fatal server startup error:"; Obj error])
                      (fun _ => exit 1))
         end).
Proof.
  intros H. rewrite startServer_equation_1.
  destruct (Z_ge_dec p (initialPort cfg + MAX_PORT_ATTEMPTS)) as [g|n];
    [unfold base in H; lia |].
  apply startServer_clause_1_equation_2.
Qed.

(** The next attempt runs in a timer: an exception that leaves it
    reaches the [uncaughtException] listener, which finds no server and
    ends the process with code 0. *)
Lemma in_timer_thrown t e :
  in_timer (t, Thrown e) = ((t ++ uncaught_events e)%list, Exited 0).
Proof. reflexivity. Qed.

Lemma in_timer_settled (m : IO Proc) :
  (forall e, result_of m <> Thrown e) -> in_timer m = m.
Proof.
  destruct m as [t [proc|e|c]]; intros H; [reflexivity | | reflexivity].
  exfalso. exact (H e eq_refl).
Qed.

Lemma in_timer_never_throws (m : IO Proc) e : result_of (in_timer m) <> Thrown e.
Proof. destruct m as [t [proc|e'|c]]; discriminate. Qed.

Lemma startServer_in_use_timer p :
  p < base + MAX_PORT_ATTEMPTS -> in_use w p ->
  startServer w cfg p
  = ((retry_events p ++ trace (in_timer (startServer w cfg (p + 1))))%list,
     result_of (in_timer (startServer w cfg (p + 1)))).
Proof.
  intros Hp (error & Hl & Hc). rewrite (startServer_attempt p Hp), Hl.
  rewrite bind_emit, member_object, bind_ret, Hc.
  unfold console_warn. rewrite !bind_emit. reflexivity.
Qed.

Lemma startServer_in_use p :
  p < base + MAX_PORT_ATTEMPTS -> in_use w p ->
  (forall e, result_of (startServer w cfg (p + 1)) <> Thrown e) ->
  startServer w cfg p
  = ((retry_events p ++ trace (startServer w cfg (p + 1)))%list,
     result_of (startServer w cfg (p + 1))).
Proof.
  intros Hp Hin Hs. rewrite (startServer_in_use_timer p Hp Hin).
  rewrite (in_timer_settled _ Hs). reflexivity.
Qed.

(** [listen] itself throws: the exception leaves [startServer]. *)
Lemma startServer_threw p error :
  p < base + MAX_PORT_ATTEMPTS ->
  server_listen w p = Threw error ->
  startServer w cfg p = ([Listen p], Thrown (Obj error)).
Proof.
  intros Hp Hl. rewrite (startServer_attempt p Hp), Hl. reflexivity.
Qed.

Lemma startServer_fatal p error :
  p < base + MAX_PORT_ATTEMPTS ->
  server_listen w p = Failed error ->
  equals_string (lookup "code" error) "EADDRINUSE" = false ->
  startServer w cfg p
  = ([Listen p; Console ERROR [Str "❌ Fatal server startup error:"; Obj error]],
     Exited 1).
Proof.
  intros Hp Hl Hc. rewrite (startServer_attempt p Hp), Hl.
  rewrite bind_emit, member_object, bind_ret, Hc. reflexivity.
Qed.

Lemma startServer_bound p actualPort :
  p < base + MAX_PORT_ATTEMPTS ->
  server_listen w p = Bound actualPort ->
  startServer w cfg p
  = (Listen p :: trace (on_listening w cfg actualPort),
     result_of (on_listening w cfg actualPort)).
Proof.
  intros Hp Hl. rewrite (startServer_attempt p Hp), Hl, bind_emit. reflexivity.
Qed.

(** [k] ports in a row in use: [k] retries, then the attempt on the
    next port. *)
Lemma startServer_retries (k : nat) : forall p,
  p + Z.of_nat k <= base + MAX_PORT_ATTEMPTS ->
  (forall j, 0 <= j < Z.of_nat k -> in_use w (p + j)) ->
  (forall e, result_of (startServer w cfg (p + Z.of_nat k)) <> Thrown e) ->
  startServer w cfg p
  = ((retries p k ++ trace (startServer w cfg (p + Z.of_nat k)))%list,
     result_of (startServer w cfg (p + Z.of_nat k))).
Proof.
  induction k as [|k IH]; intros p Hk Hin Hs.
  - cbn [retries Z.of_nat app]. rewrite Z.add_0_r. apply io_eta.
  - assert (Hnext : startServer w cfg (p + 1)
                    = ((retries (p + 1) k
                        ++ trace (startServer w cfg (p + Z.of_nat (S k))))%list,
                       result_of (startServer w cfg (p + Z.of_nat (S k))))).
    { replace (p + Z.of_nat (S k)) with (p + 1 + Z.of_nat k) by lia.
      apply IH; [lia | |].
      - intros j Hj. replace (p + 1 + j) with (p + (j + 1)) by lia.
        apply Hin. lia.
      - replace (p + 1 + Z.of_nat k) with (p + Z.of_nat (S k)) by lia. exact Hs. }
    rewrite (startServer_in_use p); [| lia | |].
    + rewrite Hnext. cbn [trace result_of fst snd retries].
      rewrite <- app_assoc. reflexivity.
    + replace p with (p + 0) by lia. apply Hin. lia.
    + rewrite Hnext. exact Hs.
Qed.

(** [k + 1] ports in a row in use and [listen] throws on the next one:
    the exception is thrown in the timer of the last retry. *)
Lemma startServer_retries_threw (k : nat) : forall p error,
  p + Z.of_nat (S k) < base + MAX_PORT_ATTEMPTS ->
  (forall j, 0 <= j < Z.of_nat (S k) -> in_use w (p + j)) ->
  server_listen w (p + Z.of_nat (S k)) = Threw error ->
  startServer w cfg p
  = ((retries p (S k)
      ++ Listen (p + Z.of_nat (S k)) :: uncaught_events (Obj error))%list,
     Exited 0).
Proof.
  induction k as [|k IH]; intros p error Hk Hin Hl.
  - rewrite (startServer_in_use_timer p); [| lia |].
    + change (Z.of_nat 1) with 1 in Hl, Hk.
      rewrite (startServer_threw (p + 1) error Hk Hl).
      rewrite in_timer_thrown. cbn [trace result_of fst snd retries].
      rewrite app_nil_r. reflexivity.
    + replace p with (p + 0) by lia. apply Hin. lia.
  - assert (Hnext : startServer w cfg (p + 1)
                    = ((retries (p + 1) (S k)
                        ++ Listen (p + Z.of_nat (S (S k)))
                        :: uncaught_events (Obj error))%list,
                       Exited 0)).
    { replace (p + Z.of_nat (S (S k))) with (p + 1 + Z.of_nat (S k)) by lia.
      apply IH; [lia | |].
      - intros j Hj. replace (p + 1 + j) with (p + (j + 1)) by lia.
        apply Hin. lia.
      - replace (p + 1 + Z.of_nat (S k)) with (p + Z.of_nat (S (S k))) by lia.
        exact Hl. }
    rewrite (startServer_in_use p); [| lia | |].
    + rewrite Hnext. cbn [trace result_of fst snd].
      change (retries p (S (S k))) with (retry_events p ++ retries (p + 1) (S k))%list.
      rewrite <- app_assoc. reflexivity.
    + replace p with (p + 0) by lia. apply Hin. lia.
    + rewrite Hnext. discriminate.
Qed.

(** Once the socket is bound, the callback records it and returns: the
    process stays up whatever happens to the startup notification and to
    the scheduling, and no other port is bound. *)
Lemma on_listening_returns actualPort :
  exists t proc,
    on_listening w cfg actualPort
    = (Console LOG [Str ("✅ Servidor API corriendo en http://localhost:"
                         ++ Text.of_Z actualPort)] :: t,
       Returned proc) /\
    listens t = [] /\
    serverInstance proc = Some {| address_port := actualPort |} /\
    (cron_schedule w "0 14 * * *" true "Etc/GMT-3" = Ok tt ->
     cronTasks proc = [{| expression := "0 14 * * *";
                          scheduled := true;
                          timezone := "Etc/GMT-3" |}]).
Proof.
  unfold on_listening. unfold console_log at 1. rewrite bind_emit.
  pose proof (startup_pipeline_returns w cfg) as Hr.
  pose proof (outbound_listens _ (startup_pipeline_outbound w cfg)) as Hl.
  destruct (sendTelegramStartupPhotoWithRates w cfg) as [ts o].
  cbn [result_of snd] in Hr. cbn [trace fst] in Hl. subst o.
  rewrite bind_returned. unfold call.
  destruct (cron_schedule w "0 14 * * *" true "Etc/GMT-3") as [[]|error].
  - eexists _, _. split; [reflexivity|].
    split; [cbn [trace fst]; rewrite listens_app, Hl; reflexivity|].
    split; [reflexivity|]. reflexivity.
  - eexists _, _. split; [reflexivity|].
    split; [cbn [trace fst]; rewrite listens_app, Hl; reflexivity|].
    split; [reflexivity|]. discriminate.
Qed.

End Attempts.

(** C2. For every base port: if the base port and the [k - 1] ports after
    it are occupied ([EADDRINUSE]) and the next one, still under the cap
    of ten attempts, binds, then [startServer] calls [listen] on base,
    base+1, ..., base+k in that order and on no other port, binds the
    last one, keeps the process running with the bound server recorded,
    and from then on the GET on the root endpoint answers with the text
    naming exactly the port the socket reports. *)
Theorem port_retry_binds_next_free w cfg (k : nat) actualPort :
  (Z.of_nat k < MAX_PORT_ATTEMPTS) ->
  (forall j, 0 <= j < Z.of_nat k -> in_use w (initialPort cfg + j)) ->
  server_listen w (initialPort cfg + Z.of_nat k) = Bound actualPort ->
  exists rest proc,
    startServer w cfg (initialPort cfg)
    = ((retries (initialPort cfg) k
        ++ Listen (initialPort cfg + Z.of_nat k)
        :: Console LOG [Str ("✅ Servidor API corriendo en http://localhost:"
                             ++ Text.of_Z actualPort)]
        :: rest)%list,
       Returned proc) /\
    listens (trace (startServer w cfg (initialPort cfg)))
    = bind_attempts (initialPort cfg) (S k) /\
    serverInstance proc = Some {| address_port := actualPort |} /\
    root_handler proc
    = "API Telegram Server is running on port " ++ Text.of_Z actualPort.
Proof.
  intros Hk Hin Hb.
  destruct (on_listening_returns w cfg actualPort) as (t & proc & Ho & Hl & Hs & _).
  assert (Hrun : startServer w cfg (initialPort cfg + Z.of_nat k)
                 = (Listen (initialPort cfg + Z.of_nat k)
                    :: Console LOG [Str ("✅ Servidor API corriendo en http://localhost:"
                                         ++ Text.of_Z actualPort)]
                    :: t,
                    Returned proc)).
  { rewrite (startServer_bound w cfg _ actualPort); [| lia | exact Hb].
    rewrite Ho. reflexivity. }
  rewrite (startServer_retries w cfg k (initialPort cfg));
    [| lia | exact Hin | rewrite Hrun; discriminate].
  rewrite Hrun. cbn [trace result_of fst snd].
  exists t, proc. split; [reflexivity|]. split; [| split; [exact Hs|]].
  - rewrite listens_app, listens_retries.
    cbn [listens filter is_listen]. fold (listens t). rewrite Hl.
    apply bind_attempts_last.
  - unfold root_handler. rewrite Hs. reflexivity.
Qed.

Lemma port_retry_binds_next_free_witness :
  (forall j, 0 <= j < Z.of_nat 2 ->
             in_use (Sample.world (Err Sample.network_error) (Ok tt) (Ok tt)
                       (Sample.free_from 10002))
                    (initialPort Sample.cfg + j)) /\
  exists rest proc,
    startServer (Sample.world (Err Sample.network_error) (Ok tt) (Ok tt)
                   (Sample.free_from 10002)) Sample.cfg (initialPort Sample.cfg)
    = ((retries (initialPort Sample.cfg) 2
        ++ Listen (initialPort Sample.cfg + Z.of_nat 2)
        :: Console LOG [Str ("✅ Servidor API corriendo en http://localhost:"
                             ++ Text.of_Z 10002)]
        :: rest)%list,
       Returned proc) /\
    listens (trace (startServer (Sample.world (Err Sample.network_error) (Ok tt) (Ok tt)
                                   (Sample.free_from 10002))
                      Sample.cfg (initialPort Sample.cfg)))
    = bind_attempts (initialPort Sample.cfg) 3 /\
    serverInstance proc = Some {| address_port := 10002 |} /\
    root_handler proc = "API Telegram Server is running on port " ++ Text.of_Z 10002.
Proof.
  assert (Hin : forall j, 0 <= j < Z.of_nat 2 ->
                  in_use (Sample.world (Err Sample.network_error) (Ok tt) (Ok tt)
                            (Sample.free_from 10002))
                         (initialPort Sample.cfg + j)).
  { intros j Hj. exists Sample.address_in_use. split; [| reflexivity].
    cbn [server_listen Sample.world]. unfold Sample.free_from.
    destruct (Z.leb_spec 10002 (initialPort Sample.cfg + j)) as [H|H];
      [cbn [initialPort Sample.cfg] in H; lia | reflexivity]. }
  split; [exact Hin|].
  exact (port_retry_binds_next_free
           (Sample.world (Err Sample.network_error) (Ok tt) (Ok tt)
              (Sample.free_from 10002))
           Sample.cfg 2 10002 ltac:(reflexivity) Hin eq_refl).
Defined.



(** Before any socket is bound the endpoint cannot name a port. *)
Lemma root_handler_before_bind :
  root_handler initial_proc = "API Telegram Server is running on port unknown".
Proof. reflexivity. Qed.

(** The top level fails fast, before any bind attempt, when a required
    setting is missing; otherwise it goes on to [startServer]. *)
Lemma main_requires_token w cfg :
  truthy (botToken cfg) = false ->
  result_of (main w cfg) = Exited 1 /\ quiet (trace (main w cfg)).
Proof.
  intros H. unfold main. rewrite H. split; reflexivity.
Qed.

Lemma main_requires_chat w cfg :
  truthy (botToken cfg) = true -> truthy (chatId cfg) = false ->
  result_of (main w cfg) = Exited 1 /\ quiet (trace (main w cfg)).
Proof.
  intros Ht H. unfold main. rewrite Ht, H. split; reflexivity.
Qed.

Lemma bind_optional_warning {B} (b : bool) line (f : unit -> IO B) :
  bind (if b then console_warn line else ret tt) f
  = (((if b then [Console WARN line] else []) ++ trace (f tt))%list,
     result_of (f tt)).
Proof.
  destruct b.
  - unfold console_warn. rewrite bind_emit. reflexivity.
  - rewrite bind_ret. apply io_eta.
Qed.

Lemma main_starts_server w cfg :
  truthy (botToken cfg) = true -> truthy (chatId cfg) = true ->
  new_TelegramBot w (botToken cfg) = Ok tt ->
  exists t,
    listens t = [] /\
    main w cfg
    = ((t ++ trace (startServer w cfg (initialPort cfg)))%list,
       result_of (startServer w cfg (initialPort cfg))).
Proof.
  intros Ht Hc Hb. unfold main. rewrite Ht, Hc. cbn [negb].
  rewrite !bind_ret, !bind_optional_warning. cbn [trace result_of fst snd].
  unfold call. rewrite Hb, bind_returned.
  unfold console_log. cbn [emit trace result_of fst snd try_catch app].
  rewrite bind_returned. cbn [trace result_of fst snd].
  eexists. split; [| rewrite !app_assoc; reflexivity].
  rewrite !listens_app.
  destruct (negb (truthy (messageThreadId cfg))), (negb (truthy (imageUrl cfg))),
    (negb (truthy (dollarApiUrl cfg))); reflexivity.
Qed.

End Bootstrap.

(* ===================================================================== *)
(** * The scheduler: a failing tick does not stop the task *)
(* ===================================================================== *)

Module Scheduler.

Import Text Number Js Effects App Observe IOFacts Pipeline.

(** What the callback does once its line is printed. *)
Lemma cron_callback_with_eq w (pipeline : IO unit) stamp :
  toLocaleString w "en-GB" cron_log_options = Ok stamp ->
  cron_callback_with w pipeline
  = match pipeline with
    | (t, Returned _) => (tick_line stamp :: t, Returned tt)
    | (t, Thrown e) => ((tick_line stamp :: t ++ [tick_failure_line e])%list, Returned tt)
    | (t, Exited c) => (tick_line stamp :: t, Exited c)
    end.
Proof.
  intros H. unfold cron_callback_with. rewrite H.
  unfold of_result. rewrite bind_returned.
  unfold console_log at 1. rewrite bind_emit.
  destruct pipeline as [t [[]|e|c]]; reflexivity.
Qed.

Lemma cron_callback_with_stays w (pipeline : IO unit) :
  (forall c, result_of pipeline <> Exited c) ->
  forall c, result_of (cron_callback_with w pipeline) <> Exited c.
Proof.
  intros Hp c.
  destruct (toLocaleString w "en-GB" cron_log_options) as [stamp|error] eqn:H.
  - rewrite (cron_callback_with_eq w pipeline stamp H).
    destruct pipeline as [t [[]|e|c']]; cbn [result_of snd]; try discriminate.
    exfalso. apply (Hp c'). reflexivity.
  - unfold cron_callback_with. rewrite H. discriminate.
Qed.

Lemma run_task_returns (callback : IO unit) :
  (forall c, result_of callback <> Exited c) ->
  run_task callback = (trace callback, Returned tt).
Proof.
  intros H. unfold run_task. destruct callback as [t [[]|e|c]];
    cbn [trace result_of fst snd try_catch ret]; rewrite ?app_nil_r.
  - reflexivity.
  - reflexivity.
  - exfalso. apply (H c). reflexivity.
Qed.

(** One tick with the one scheduled task of the program: the callback
    runs and the process goes on with its state as it was. *)
Lemma tick_with_returns pipeline w proc task :
  cronTasks proc = [task] -> scheduled task = true ->
  (forall c, result_of (pipeline w) <> Exited c) ->
  tick_with pipeline w proc
  = (trace (cron_callback_with w (pipeline w)), Returned proc).
Proof.
  intros Ht Hs Hp. unfold tick_with. rewrite Ht. cbn [run_tasks]. rewrite Hs.
  rewrite (run_task_returns _ (cron_callback_with_stays w _ Hp)).
  rewrite bind_returned. cbn [ret trace result_of fst snd].
  rewrite bind_returned. cbn [ret trace result_of fst snd].
  rewrite !app_nil_r. reflexivity.
Qed.

Lemma run_ticks_with_returns pipeline proc task :
  cronTasks proc = [task] -> scheduled task = true ->
  forall ws,
    Forall (fun w => forall c, result_of (pipeline w) <> Exited c) ws ->
    run_ticks_with pipeline ws proc
    = (flat_map (fun w => trace (cron_callback_with w (pipeline w))) ws,
       Returned proc).
Proof.
  intros Ht Hs ws Hall. induction Hall as [|w ws Hw Hws IH].
  - reflexivity.
  - cbn [run_ticks_with flat_map].
    rewrite (tick_with_returns pipeline w proc task Ht Hs Hw), bind_returned, IH.
    reflexivity.
Qed.

(** C7. For every sequence of daily ticks, with the one task the program
    schedules: a failure thrown inside the pipeline of a tick is caught by
    the [catch] of the trigger and printed on the error console, after the
    events of the pipeline; the tick returns, the scheduler state is the
    same after the whole run (the task is still registered), and every
    tick of the sequence ran its callback, those after a failed tick
    included; a tick whose pipeline ends normally contributes the events
    of that pipeline in full. [pipeline] is any pipeline that does not
    leave the process; the program's own is [sendDailyUpdate], for which
    the run needs no assumption. *)
Theorem scheduled_task_survives_failure (pipeline : World -> IO unit) ws proc task :
  cronTasks proc = [task] -> scheduled task = true ->
  Forall (fun w => forall c, result_of (pipeline w) <> Exited c) ws ->
  run_ticks_with pipeline ws proc
  = (flat_map (fun w => trace (cron_callback_with w (pipeline w))) ws,
     Returned proc) /\
  (forall before w after,
     ws = (before ++ w :: after)%list ->
     exists t1 t2,
       trace (run_ticks_with pipeline ws proc)
       = (t1 ++ trace (cron_callback_with w (pipeline w)) ++ t2)%list) /\
  (forall w stamp,
     toLocaleString w "en-GB" cron_log_options = Ok stamp ->
     (forall t e,
        pipeline w = (t, Thrown e) ->
        cron_callback_with w (pipeline w)
        = ((tick_line stamp :: t ++ [tick_failure_line e])%list, Returned tt)) /\
     (forall t,
        pipeline w = (t, Returned tt) ->
        cron_callback_with w (pipeline w) = (tick_line stamp :: t, Returned tt))) /\
  (forall cfg,
     run_ticks cfg ws proc
     = (flat_map (fun w => trace (cron_callback w cfg)) ws, Returned proc) /\
     forall w stamp,
       toLocaleString w "en-GB" cron_log_options = Ok stamp ->
       cron_callback w cfg
       = (tick_line stamp :: trace (sendDailyUpdate w cfg), Returned tt)).
Proof.
  intros Ht Hs Hall.
  pose proof (run_ticks_with_returns pipeline proc task Ht Hs ws Hall) as Hrun.
  split; [exact Hrun|]. split; [| split].
  - intros before w after ->. rewrite Hrun. cbn [trace fst].
    rewrite flat_map_app. cbn [flat_map]. eexists _, _. reflexivity.
  - intros w stamp Hst. split.
    + intros t e Hp. rewrite (cron_callback_with_eq w _ stamp Hst), Hp. reflexivity.
    + intros t Hp. rewrite (cron_callback_with_eq w _ stamp Hst), Hp. reflexivity.
  - intros cfg. split.
    + unfold run_ticks.
      apply (run_ticks_with_returns (fun w => sendDailyUpdate w cfg) proc task Ht Hs).
      apply Forall_forall. intros w _ c.
      rewrite (daily_pipeline_returns w cfg). discriminate.
    + intros w stamp Hst. unfold cron_callback.
      rewrite (cron_callback_with_eq w _ stamp Hst).
      pose proof (daily_pipeline_returns w cfg) as Hr.
      destruct (sendDailyUpdate w cfg) as [t o]. cbn [result_of snd] in Hr.
      subst o. reflexivity.
Qed.

Lemma scheduled_task_survives_failure_witness :
  let failing := Sample.world (Err Sample.network_error) (Ok tt) (Ok tt) Sample.all_free in
  let working := Sample.healthy (Str "36.50") (Str "40.00") in
  Sample.flaky_pipeline failing = ([], Thrown (Str "simulated failure")) /\
  run_ticks_with Sample.flaky_pipeline [failing; working] Sample.listening_proc
  = (flat_map (fun w => trace (cron_callback_with w (Sample.flaky_pipeline w)))
       [failing; working],
     Returned Sample.listening_proc).
Proof.
  intros failing working. split; [reflexivity|].
  refine (proj1 (scheduled_task_survives_failure Sample.flaky_pipeline
                   [failing; working] Sample.listening_proc
                   {| expression := "0 14 * * *"; scheduled := true;
                      timezone := "Etc/GMT-3" |}
                   eq_refl eq_refl _)).
  repeat constructor; intros c; vm_compute; discriminate.
Defined.

End Scheduler.

(* ===================================================================== *)
(** * The process-level handlers *)
(* ===================================================================== *)

Module Handlers.

Import Text Number Js Effects App Observe.

(** A termination signal with the server listening: the socket is asked
    to close, the process leaves with code 0 once it has, with code 1 if
    that takes more than five seconds. With no server it leaves at once
    with code 0. *)
Lemma signal_shutdown proc :
  (forall server,
     serverInstance proc = Some server ->
     on_SIGTERM proc
     = ([Console LOG [Str (LF ++ "SIGTERM signal received: closing HTTP server...")];
         ServerClose (ThenExit [(LOG, [Str "✅ HTTP server closed."])] 0);
         SetTimeout (ThenExit [(ERROR, [Str "⚠️ Server close timed out, forcing exit."])] 1) 5000],
        Returned tt)) /\
  (serverInstance proc = None ->
   on_SIGINT proc
   = ([Console LOG [Str (LF ++ "SIGINT (Ctrl+C) signal received: closing HTTP server...")];
       Console LOG [Str "ℹ️ No active server to close."]],
      Exited 0)).
Proof.
  split.
  - intros server H. unfold on_SIGTERM, shutdown. rewrite H. reflexivity.
  - intros H. unfold on_SIGINT, shutdown. rewrite H. reflexivity.
Qed.

(** C8, as stated, fails: the listener of [unhandledRejection] prints the
    rejection and does nothing else. It does not call [shutdown]: the
    socket is not closed and no timer is armed. And an uncaught exception
    that arrives while no server is bound leaves the process at once,
    with code 0 and no timer. *)
Lemma unhandled_rejection_counterexample :
  (on_unhandledRejection (Str "boom") (Obj [])
   = ([Console ERROR [Str "❌ Unhandled Rejection at:"; Obj []; Str "reason:"; Str "boom"]],
      Returned tt) /\
   ~ drives_shutdown (trace (on_unhandledRejection (Str "boom") (Obj [])))) /\
  (on_uncaughtException (Str "boom") initial_proc
   = ([Console ERROR [Str "❌ Uncaught Exception:"; Str "boom"];
       Console LOG [Str (LF ++ "uncaughtException signal received: closing HTTP server...")];
       Console LOG [Str "ℹ️ No active server to close."]],
      Exited 0) /\
   ~ drives_shutdown (trace (on_uncaughtException (Str "boom") initial_proc))).
Proof.
  split; split; try reflexivity.
  - intros [[k [H | []]] _]. discriminate.
  - intros [[k [H | [H | [H | []]]]] _]; discriminate.
Qed.

(** C8, amended. Every uncaught exception is printed on the error console
    and, with the server listening, drives the shutdown sequence: the
    listening socket is asked to close (the process leaves with code 0
    once it has), a timer of 5 s and a timer of 2 s are armed, and each of
    them leaves the process with code 1. An unhandled promise rejection
    is printed on the error console and nothing else happens: it does not
    trigger the shutdown sequence. *)
Theorem uncaught_exception_drives_shutdown error reason promise proc server :
  serverInstance proc = Some server ->
  on_uncaughtException error proc
  = ([Console ERROR [Str "❌ Uncaught Exception:"; error];
      Console LOG [Str (LF ++ "uncaughtException signal received: closing HTTP server...")];
      ServerClose (ThenExit [(LOG, [Str "✅ HTTP server closed."])] 0);
      SetTimeout (ThenExit [(ERROR, [Str "⚠️ Server close timed out, forcing exit."])] 1) 5000;
      SetTimeout (ThenExit [] 1) 2000],
     Returned tt) /\
  drives_shutdown (trace (on_uncaughtException error proc)) /\
  on_unhandledRejection reason promise
  = ([Console ERROR [Str "❌ Unhandled Rejection at:"; promise; Str "reason:"; reason]],
     Returned tt) /\
  ~ drives_shutdown (trace (on_unhandledRejection reason promise)).
Proof.
  intros Hs.
  assert (Hrun : on_uncaughtException error proc
                 = ([Console ERROR [Str "❌ Uncaught Exception:"; error];
                     Console LOG [Str (LF ++ "uncaughtException signal received: closing HTTP server...")];
                     ServerClose (ThenExit [(LOG, [Str "✅ HTTP server closed."])] 0);
                     SetTimeout (ThenExit [(ERROR, [Str "⚠️ Server close timed out, forcing exit."])] 1) 5000;
                     SetTimeout (ThenExit [] 1) 2000],
                    Returned tt)).
  { unfold on_uncaughtException, shutdown. rewrite Hs. reflexivity. }
  split; [exact Hrun|]. split; [| split].
  - rewrite Hrun. cbn [trace fst]. split.
    + eexists. right. right. left. reflexivity.
    + exists [], 1, 2000. split; [discriminate|].
      do 4 right. left. reflexivity.
  - reflexivity.
  - intros [[k [H | []]] _]. discriminate.
Qed.

Lemma uncaught_exception_drives_shutdown_witness :
  serverInstance Sample.listening_proc = Some {| address_port := 10000 |} /\
  drives_shutdown (trace (on_uncaughtException (Str "boom") Sample.listening_proc)).
Proof.
  split; [reflexivity|].
  exact (proj1 (proj2 (uncaught_exception_drives_shutdown
                         (Str "boom") (Str "boom") (Obj []) Sample.listening_proc
                         {| address_port := 10000 |} eq_refl))).
Defined.

End Handlers.

(* ===================================================================== *)
(** * Reading numbers from text: the port and the prices *)
(* ===================================================================== *)

Module Parsing.

Import Text Number Js Environment NumberFacts.

Lemma scan_digits_run s : forall acc count rest,
  all_digits s = true -> stops_digits rest = true ->
  scan_digits acc count (s ++ rest)
  = (digits_value acc s, count + Z.of_nat (String.length s), rest).
Proof.
  induction s as [|c s IH]; intros acc count rest Hs Hr.
  - cbn [append digits_value String.length Z.of_nat]. rewrite Z.add_0_r.
    destruct rest as [|d rest]; [reflexivity|].
    cbn [stops_digits] in Hr. cbn [scan_digits].
    destruct (is_digit d); [discriminate | reflexivity].
  - cbn [all_digits] in Hs. apply andb_prop in Hs as [Hc Hs].
    cbn [append scan_digits]. rewrite Hc, (IH _ _ _ Hs Hr).
    cbn [digits_value String.length]. f_equal. f_equal. lia.
Qed.

Lemma all_digits_app a b :
  all_digits (a ++ b) = all_digits a && all_digits b.
Proof.
  induction a as [|c a IH]; [reflexivity|].
  cbn [append all_digits]. rewrite IH, andb_assoc. reflexivity.
Qed.

Lemma digits_value_app a b acc :
  digits_value acc (a ++ b) = digits_value (digits_value acc a) b.
Proof.
  revert acc. induction a as [|c a IH]; intros acc; [reflexivity|].
  cbn [append digits_value]. apply IH.
Qed.

Lemma of_Z_small r :
  0 <= r < 10 ->
  all_digits (Text.of_Z r) = true /\
  forall acc, digits_value acc (Text.of_Z r) = 10 * acc + r.
Proof.
  intros H.
  assert (Hc : r = 0 \/ r = 1 \/ r = 2 \/ r = 3 \/ r = 4 \/ r = 5 \/ r = 6
               \/ r = 7 \/ r = 8 \/ r = 9) by lia.
  repeat (destruct Hc as [-> | Hc]; [split; [reflexivity | intros acc; cbn; lia] |]).
  subst r. split; [reflexivity | intros acc; cbn; lia].
Qed.

(** The decimal text of a natural number is made of digits and spells
    that number. *)
Lemma of_Z_digits n :
  0 <= n ->
  all_digits (Text.of_Z n) = true /\ digits_value 0 (Text.of_Z n) = n.
Proof.
  intros Hn. generalize Hn. pattern n.
  apply Z_lt_induction; [| exact Hn].
  clear n Hn. intros n IH Hn.
  destruct (Z_lt_ge_dec n 10) as [Hs | Hb].
  - destruct (of_Z_small n ltac:(lia)) as [Ha Hv]. split; [exact Ha|].
    rewrite Hv. lia.
  - rewrite (of_Z_step n ltac:(lia)).
    assert (Hq : 0 <= n / 10 < n)
      by (split; [apply Z.div_pos; lia | apply Z.div_lt; lia]).
    destruct (IH (n / 10) Hq (proj1 Hq)) as [Ha Hv].
    destruct (of_Z_small (n mod 10) ltac:(apply Z.mod_pos_bound; lia)) as [Ha' Hv'].
    split.
    + rewrite all_digits_app, Ha, Ha'. reflexivity.
    + rewrite digits_value_app, Hv, Hv'. rewrite (Z.div_mod n 10) at 3 by lia. lia.
Qed.

Lemma of_Z_head n :
  0 <= n -> exists c s, Text.of_Z n = String c s /\ is_digit c = true.
Proof.
  intros Hn. destruct (of_Z_digits n Hn) as [Ha Hv].
  destruct (Text.of_Z n) as [|c s] eqn:E.
  - exfalso.
    destruct (Z_lt_ge_dec n 10) as [Hs | Hb].
    + assert (H := of_Z_digit n ltac:(lia)). rewrite E in H. discriminate.
    + rewrite (of_Z_step n ltac:(lia)) in E.
      assert (H := of_Z_digit (n mod 10) ltac:(apply Z.mod_pos_bound; lia)).
      destruct (Text.of_Z (n / 10)); destruct (Text.of_Z (n mod 10)); discriminate.
  - exists c, s. split; [reflexivity|]. cbn [all_digits] in Ha.
    apply andb_prop in Ha. tauto.
Qed.

(** A digit is neither white space nor a sign, and does not start the
    word Infinity. *)
Lemma digit_stays c s : is_digit c = true -> trim_start (String c s) = String c s.
Proof.
  unfold is_digit. intros H. apply andb_prop in H as [H1 H2].
  apply Z.leb_le in H1, H2.
  cbn [trim_start].
  set (n := Z.of_N (N_of_ascii c)) in *.
  replace ((9 <=? n) && (n <=? 13) || (n =? 32)) with false
    by (symmetry; apply orb_false_intro;
        [apply andb_false_intro2; apply Z.leb_gt; lia | apply Z.eqb_neq; lia]).
  replace (n =? 194) with false by (symmetry; apply Z.eqb_neq; lia).
  replace (n =? 225) with false by (symmetry; apply Z.eqb_neq; lia).
  replace (n =? 226) with false by (symmetry; apply Z.eqb_neq; lia).
  replace (n =? 227) with false by (symmetry; apply Z.eqb_neq; lia).
  replace (n =? 239) with false by (symmetry; apply Z.eqb_neq; lia).
  destruct s as [|c1 [|c2 s]]; reflexivity.
Qed.

Lemma digit_no_sign c s :
  is_digit c = true -> scan_sign (String c s) = (false, String c s).
Proof.
  intros H. unfold scan_sign.
  destruct c as [[] [] [] [] [] [] [] []]; try reflexivity; discriminate H.
Qed.

Lemma digit_not_Infinity c s :
  is_digit c = true -> starts_with "Infinity" (String c s) = false.
Proof.
  intros H. unfold starts_with. cbn [strip_prefix].
  destruct (Ascii.eqb_spec "I" c) as [<- | _]; [discriminate H | reflexivity].
Qed.

Lemma ends_number_stops rest : ends_number rest = true -> stops_digits rest = true.
Proof.
  destruct rest as [|c rest]; [reflexivity|]. cbn [ends_number stops_digits].
  destruct (is_digit c); [discriminate | reflexivity].
Qed.

Lemma of_decimal_integer n : 0 <= n -> of_decimal false n 0 = Number.of_Z n.
Proof.
  intros Hn. unfold of_decimal, Number.of_Z, binary_normalize.
  destruct n as [|p|p]; [reflexivity | | lia].
  cbn [Z.leb Z.compare]. rewrite Z.pow_0_r, Z.mul_1_r. reflexivity.
Qed.

Lemma parseInt_digits n rest :
  0 <= n -> stops_digits rest = true ->
  parseInt (Text.of_Z n ++ rest) = Number.of_Z n.
Proof.
  intros Hn Hr. unfold parseInt.
  destruct (of_Z_digits n Hn) as [Ha Hv].
  destruct (of_Z_head n Hn) as (c & s & E & Hc).
  assert (Ht : trim_start (Text.of_Z n ++ rest) = Text.of_Z n ++ rest).
  { rewrite E. cbn [append]. apply digit_stays. exact Hc. }
  rewrite Ht.
  assert (Hsg : scan_sign (Text.of_Z n ++ rest) = (false, Text.of_Z n ++ rest)).
  { rewrite E. cbn [append]. apply digit_no_sign. exact Hc. }
  rewrite Hsg, (scan_digits_run _ 0 0 rest Ha Hr), Hv.
  assert (Hl : (0 <? 0 + Z.of_nat (String.length (Text.of_Z n))) = true).
  { apply Z.ltb_lt. rewrite E. cbn [String.length]. lia. }
  rewrite Hl. apply of_decimal_integer. exact Hn.
Qed.

(** X1. The initial port is read from PORT as [parseInt] reads it
    (line 10). With PORT unset or empty it is 10000. A PORT that begins
    with the decimal digits of [n] gives [n], whatever follows the
    digits. A PORT that is not empty and has no digit to read (after
    white space and one sign) gives [NaN]: the default of 10000 is not
    used for it. *)
Theorem initial_port_reads_PORT :
  initialPort_of None = Number.of_Z 10000 /\
  initialPort_of (Some "") = Number.of_Z 10000 /\
  (forall n rest,
     0 <= n -> stops_digits rest = true ->
     initialPort_of (Some (Text.of_Z n ++ rest)) = Number.of_Z n) /\
  (forall s,
     s <> "" -> stops_digits (snd (scan_sign (trim_start s))) = true ->
     isNaN (initialPort_of (Some s)) = true).
Proof.
  split; [vm_compute; reflexivity|]. split; [vm_compute; reflexivity|]. split.
  - intros n rest Hn Hr. unfold initialPort_of.
    destruct (of_Z_head n Hn) as (c & s & E & _).
    assert (Ht : truthy (Some (Text.of_Z n ++ rest)) = true)
      by (rewrite E; reflexivity).
    rewrite Ht. apply parseInt_digits; assumption.
  - intros s Hs Hstop. unfold initialPort_of.
    assert (Ht : truthy (Some s) = true)
      by (destruct s; [congruence | reflexivity]).
    rewrite Ht. unfold parseInt.
    destruct (scan_sign (trim_start s)) as [neg s1]. cbn [snd] in Hstop.
    destruct s1 as [|d s1]; [reflexivity|].
    cbn [stops_digits] in Hstop. cbn [scan_digits].
    destruct (is_digit d); [discriminate | reflexivity].
Qed.

Lemma initial_port_reads_PORT_witness :
  0 <= 8080 /\ stops_digits "" = true /\
  initialPort_of (Some (Text.of_Z 8080 ++ "")) = Number.of_Z 8080 /\
  "abc" <> "" /\
  isNaN (initialPort_of (Some "abc")) = true.
Proof.
  split; [lia|]. split; [reflexivity|]. split.
  - exact (proj1 (proj2 (proj2 initial_port_reads_PORT)) 8080 ""
             ltac:(lia) eq_refl).
  - split; [discriminate|].
    exact (proj2 (proj2 (proj2 initial_port_reads_PORT)) "abc"
             ltac:(discriminate) eq_refl).
Defined.

(** X2. [parseFloat] on a price whose text begins with the decimal
    digits of [n] and does not go on with a digit, a point or an
    exponent mark reads exactly [n]: what follows is ignored (lines
    146-147 and 267-268). A price written with a decimal comma is
    therefore read as its integer part. *)
Theorem parseFloat_reads_integer_text n rest :
  0 <= n -> ends_number rest = true ->
  parseFloat (Str (Text.of_Z n ++ rest)) = Number.of_Z n.
Proof.
  intros Hn Hr. unfold parseFloat. cbn [ToString]. unfold parseFloat_string.
  destruct (of_Z_digits n Hn) as [Ha Hv].
  destruct (of_Z_head n Hn) as (c & s & E & Hc).
  assert (Ht : trim_start (Text.of_Z n ++ rest) = Text.of_Z n ++ rest).
  { rewrite E. cbn [append]. apply digit_stays. exact Hc. }
  rewrite Ht. unfold parse_decimal_prefix.
  assert (Hsg : scan_sign (Text.of_Z n ++ rest) = (false, Text.of_Z n ++ rest)).
  { rewrite E. cbn [append]. apply digit_no_sign. exact Hc. }
  rewrite Hsg.
  assert (Hi : starts_with "Infinity" (Text.of_Z n ++ rest) = false).
  { rewrite E. cbn [append]. apply digit_not_Infinity. exact Hc. }
  rewrite Hi, (scan_digits_run _ 0 0 rest Ha (ends_number_stops _ Hr)), Hv.
  assert (Hl : (0 <? 0 + Z.of_nat (String.length (Text.of_Z n)) + 0) = true).
  { apply Z.ltb_lt. rewrite E. cbn [String.length]. lia. }
  assert (Hend : of_decimal false n (scan_exponent rest - 0) = Number.of_Z n).
  { assert (He : scan_exponent rest = 0).
    { destruct rest as [|d rest]; [reflexivity|]. cbn [ends_number] in Hr.
      apply negb_true_iff in Hr. apply orb_false_elim in Hr as [Hr HE].
      apply orb_false_elim in Hr as [Hr He]. cbn [scan_exponent]. rewrite He, HE.
      reflexivity. }
    rewrite He. cbn [Z.sub Z.opp Z.add]. apply of_decimal_integer. exact Hn. }
  destruct rest as [|d rest].
  - rewrite Hl. exact Hend.
  - assert (Hd : Ascii.eqb d "." = false).
    { cbn [ends_number] in Hr. apply negb_true_iff in Hr.
      apply orb_false_elim in Hr as [Hr _]. apply orb_false_elim in Hr as [Hr _].
      apply orb_false_elim in Hr as [_ Hr]. exact Hr. }
    destruct d as [[] [] [] [] [] [] [] []]; try discriminate Hd; rewrite Hl; exact Hend.
Qed.

Lemma parseFloat_reads_integer_text_witness :
  0 <= 36 /\ ends_number ",50" = true /\
  parseFloat (Str (Text.of_Z 36 ++ ",50")) = Number.of_Z 36.
Proof.
  split; [lia|]. split; [reflexivity|].
  exact (parseFloat_reads_integer_text 36 ",50" ltac:(lia) eq_refl).
Defined.

End Parsing.

(* ===================================================================== *)
(** * What the rates block can print *)
(* ===================================================================== *)

Module Rendering.

Import Text Number Js NumberFacts Environment Expected Parsing.

Lemma shr_1_nonneg r : 0 <= shr_m r -> 0 <= shr_m (shr_1 r).
Proof.
  destruct r as [m r s]. cbn [shr_m]. intros H.
  destruct m as [|[p|p|]|p]; cbn; lia.
Qed.

Lemma iter_shr_1_nonneg p : forall r,
  0 <= shr_m r -> 0 <= shr_m (iter_pos shr_1 p r).
Proof.
  induction p as [p IH|p IH|]; intros r H; cbn [iter_pos].
  - apply IH, IH, shr_1_nonneg, H.
  - apply IH, IH, H.
  - apply shr_1_nonneg, H.
Qed.

Lemma shr_fexp_nonneg m e l :
  0 <= m -> 0 <= shr_m (fst (shr_fexp prec emax m e l)).
Proof.
  intros H. unfold shr_fexp, shr.
  assert (H0 : 0 <= shr_m (shr_record_of_loc m l))
    by (destruct l as [|[]]; exact H).
  destruct (fexp prec emax (Zdigits2 m + e) - e); cbn [fst];
    [exact H0 | apply iter_shr_1_nonneg, H0 | exact H0].
Qed.

Lemma round_nearest_even_nonneg m l : 0 <= m -> 0 <= round_nearest_even m l.
Proof.
  intros H. unfold round_nearest_even.
  destruct l as [|[]]; [| destruct (Z.even m) | |]; lia.
Qed.

Lemma binary_round_aux_is_number sx mx ex lx :
  0 <= mx -> isNaN (binary_round_aux prec emax sx mx ex lx) = false.
Proof.
  intros H. unfold binary_round_aux.
  pose proof (shr_fexp_nonneg mx ex lx H) as H1.
  destruct (shr_fexp prec emax mx ex lx) as [mrs' e']. cbn [fst] in H1.
  pose proof (shr_fexp_nonneg _ e' loc_Exact
                (round_nearest_even_nonneg _ (loc_of_shr_record mrs') H1)) as H2.
  destruct (shr_fexp prec emax
              (round_nearest_even (shr_m mrs') (loc_of_shr_record mrs')) e' loc_Exact)
    as [mrs'' e'']. cbn [fst] in H2.
  destruct (shr_m mrs'') as [|m|m]; [reflexivity | | lia].
  destruct (e'' <=? emax - prec); reflexivity.
Qed.

Lemma binary_normalize_is_number m e szero :
  isNaN (binary_normalize prec emax m e szero) = false.
Proof.
  unfold binary_normalize, binary_round.
  destruct m as [|p|p]; [reflexivity | |];
    match goal with
    | |- context [shl_align ?a ?b ?c] => destruct (shl_align a b c) as [mz ez]
    end;
    apply binary_round_aux_is_number; lia.
Qed.

(** The sum of two finite Numbers is a Number: it may overflow to an
    infinity, it is never [NaN]. *)
Lemma add_finite_is_number p s :
  isFinite p = true -> isFinite s = true -> isNaN (add p s) = false.
Proof.
  unfold add, SFadd.
  destruct p as [sp| | |sp mp ep], s as [ss| | |ss ms es];
    try discriminate; intros _ _.
  - destruct sp, ss; reflexivity.
  - reflexivity.
  - reflexivity.
  - apply binary_normalize_is_number.
Qed.

Lemma of_Z_2 : Number.of_Z 2 = S754_finite false 4503599627370496 (-51).
Proof. vm_compute. reflexivity. Qed.

Lemma div_eucl_quotient a b q r : Z.div_eucl a b = (q, r) -> q = a / b.
Proof. intros H. unfold Z.div. rewrite H. reflexivity. Qed.

(** Halving a Number that is not [NaN] gives one that is not [NaN]. *)
Lemma half_is_number x : isNaN x = false -> isNaN (div x (Number.of_Z 2)) = false.
Proof.
  rewrite of_Z_2. unfold div, SFdiv.
  destruct x as [sx|sx| |sx mx ex]; try discriminate; intros _; try reflexivity.
  unfold SFdiv_core_binary.
  match goal with
  | |- context [Z.div_eucl ?a ?b] =>
      pose proof (div_eucl_quotient a b) as Hq;
      assert (Ha : 0 <= a);
      [| destruct (Z.div_eucl a b) as [q r]]
  end.
  - match goal with
    | |- 0 <= match ?s with _ => _ end => destruct s
    end; [lia | apply Z.shiftl_nonneg; lia | lia].
  - apply binary_round_aux_is_number. rewrite (Hq q r eq_refl).
    apply Z.div_pos; [exact Ha | lia].
Qed.

Lemma starts_well_app a b : starts_well a -> starts_well (a ++ b).
Proof. intros (c & t & -> & Hc). exists c, (t ++ b). split; [reflexivity | exact Hc]. Qed.

Lemma starts_well_take (n : nat) d :
  (0 < n)%nat -> starts_well d -> starts_well (take n d).
Proof.
  intros Hn (c & t & -> & Hc). destruct n as [|n]; [lia|].
  exists c, (take n t). split; [reflexivity | exact Hc].
Qed.

Lemma starts_well_not_NaN s : starts_well s -> s <> "NaN".
Proof. intros (c & t & -> & Hc) H. injection H as H _. exact (Hc H). Qed.

Lemma of_Z_starts_well z : starts_well (Text.of_Z z).
Proof.
  destruct (Z_lt_ge_dec z 0) as [Hneg | Hpos].
  - destruct z as [|p|p]; try lia.
    eexists _, _. split; [reflexivity | discriminate].
  - destruct (of_Z_head z ltac:(lia)) as (c & t & E & Hc).
    exists c, t. split; [exact E|]. intros ->. discriminate Hc.
Qed.

Lemma layout_digits_starts_well d k n :
  starts_well d -> starts_well (layout_digits d k n).
Proof.
  intros Hd. unfold layout_digits.
  destruct ((k <=? n) && (n <=? 21)); [apply starts_well_app, Hd|].
  destruct ((0 <? n) && (n <=? 21)) eqn:H1.
  - apply starts_well_app, starts_well_take; [| exact Hd].
    apply andb_prop in H1 as [H1 _]. apply Z.ltb_lt in H1. lia.
  - destruct ((-6 <? n) && (n <=? 0));
      [eexists _, _; split; [reflexivity | discriminate]|].
    destruct (k =? 1); [apply starts_well_app, Hd|].
    apply starts_well_app, starts_well_take; [lia | exact Hd].
Qed.

Lemma toString_positive_starts_well m e : starts_well (toString_positive m e).
Proof.
  unfold toString_positive. destruct (fraction m e) as [num den].
  destruct (shortest_digits 17 (S754_finite false m e) num den
              (decimal_exponent num den) 1) as [s k].
  destruct (s =? 10 ^ k); apply layout_digits_starts_well;
    [eexists _, _; split; [reflexivity | discriminate] | apply of_Z_starts_well].
Qed.

(** What [toFixed(2)] prints for a Number that is not [NaN] never reads
    NaN. *)
Lemma toFixed_starts_well x : isNaN x = false -> starts_well (toFixed x 2).
Proof.
  destruct x as [sx|sx| |sx m e]; try discriminate; intros _.
  - eexists _, _. split; [vm_compute; reflexivity | discriminate].
  - destruct sx; eexists _, _; (split; [reflexivity | discriminate]).
  - destruct (fraction_positive m e) as [Hnum Hden].
    destruct (Z_lt_ge_dec (fst (fraction m e)) (10 ^ 21 * snd (fraction m e)))
      as [Hlt | Hge].
    + destruct (toFixed_two_decimals sx m e Hlt) as (n & -> & _).
      destruct sx; [eexists _, _; split; [reflexivity | discriminate]|].
      cbn [append]. apply starts_well_app, of_Z_starts_well.
    + unfold toFixed. destruct (fraction m e) as [num den]. cbn [fst snd] in *.
      destruct sx; [eexists _, _; split; [reflexivity | discriminate]|].
      cbn [append].
      destruct (Z.leb_spec (10 ^ 21 * den) num) as [_ | H]; [| lia].
      cbn [toString append]. apply toString_positive_starts_well.
Qed.

Lemma finite_is_number x : isFinite x = true -> isNaN x = false.
Proof. destruct x; try discriminate; reflexivity. Qed.

(** X24. With both prices finite, none of the three numbers of the
    rates block reads NaN: the average [(p + s) / 2] of two finite
    Numbers is a Number (at worst an infinity), and [toFixed(2)] of a
    Number that is not [NaN] never prints NaN. The test [!isNaN] alone
    does not give that: the prices Infinity and -Infinity pass it and
    their average prints as NaN (lines 149-153 and 270-274). *)
Theorem finite_rates_never_print_NaN :
  (forall p s,
     isFinite p = true -> isFinite s = true ->
     let average := div (add p s) (Number.of_Z 2) in
     isNaN average = false /\
     toFixed p 2 <> "NaN" /\ toFixed s 2 <> "NaN" /\ toFixed average 2 <> "NaN") /\
  (let p := parseFloat (Str "Infinity") in
   let s := parseFloat (Str "-Infinity") in
   isNaN p = false /\ isNaN s = false /\
   toFixed (div (add p s) (Number.of_Z 2)) 2 = "NaN").
Proof.
  split.
  - intros p s Hp Hs average.
    assert (Ha : isNaN average = false)
      by (apply half_is_number, add_finite_is_number; assumption).
    split; [exact Ha|].
    split; [apply starts_well_not_NaN, toFixed_starts_well, finite_is_number, Hp|].
    split; [apply starts_well_not_NaN, toFixed_starts_well, finite_is_number, Hs|].
    apply starts_well_not_NaN, toFixed_starts_well, Ha.
  - vm_compute. repeat split; reflexivity.
Qed.

Lemma finite_rates_never_print_NaN_witness :
  let p := parseFloat (Str "36.50") in
  let s := parseFloat (Str "40.00") in
  isFinite p = true /\ isFinite s = true /\
  toFixed (div (add p s) (Number.of_Z 2)) 2 <> "NaN".
Proof.
  intros p s.
  assert (Hp : isFinite p = true) by (vm_compute; reflexivity).
  assert (Hs : isFinite s = true) by (vm_compute; reflexivity).
  split; [exact Hp|]. split; [exact Hs|].
  exact (proj2 (proj2 (proj2 (proj1 finite_rates_never_print_NaN p s Hp Hs)))).
Defined.

End Rendering.

(* ===================================================================== *)
(** * The Telegram error printer, branch by branch *)
(* ===================================================================== *)

Module ErrorPrinter.

Import Text Number Js Effects App Observe IOFacts ErrorLogging Expected.

Lemma member_defined v k :
  nullish v = false -> member v k = ret (get_optional v k).
Proof. destruct v; try discriminate; reflexivity. Qed.

Lemma truthy_defined v : ToBoolean v = true -> nullish v = false.
Proof. destruct v; try discriminate; reflexivity. Qed.

(** A computation that only prints and returns, followed by one more
    line. *)
Lemma then_line (m : IO unit) lvl args :
  prints_and_returns m ->
  exists t, quiet t /\
    bind m (fun _ => emit (Console lvl args))
    = ((t ++ [Console lvl args])%list, Returned tt).
Proof.
  intros [Hq [[] Hr]]. exists (trace m). split; [exact Hq|].
  rewrite (bind_returns _ _ _ Hr). reflexivity.
Qed.

(** The branch that decodes the body of the response (lines 85-92). *)
Lemma decoded_lines w body :
  prints_and_returns
    (try_catch
       (bind (if is_string body then of_result (JSON_parse w (ToString body)) else ret body)
          (fun errorBody =>
             bind (member errorBody "error_code")
               (fun error_code =>
                  bind (of_sum (ToString_or_throw (or_else error_code (Str "N/A"))))
                    (fun codeText =>
                       bind (member errorBody "description")
                         (fun description =>
                            bind (of_sum (ToString_or_throw
                                            (or_else description (Str "No description"))))
                              (fun descriptionText =>
                                 console_error
                                   [Str ("   Telegram API Error (" ++ codeText ++ "): "
                                         ++ descriptionText)]))))))
       (fun parseError =>
          console_error [Str "   Telegram API Error (raw response body):"; body])).
Proof.
  apply returns_try_catch; [| intros; apply returns_console].
  apply stays_bind;
    [split_if; [apply stays_of_result | apply returns_stays, returns_ret] |].
  intros errorBody.
  repeat (apply stays_bind;
          [first [apply stays_member | apply stays_of_sum] | intros ?]).
  apply returns_stays, returns_console.
Qed.

(** ToString as an operation, on a value that converts and on one that
    does not. *)
Lemma text_reads v :
  converts v = true -> of_sum (ToString_or_throw v) = ret (ToString v).
Proof. intros H. unfold ToString_or_throw. rewrite H. reflexivity. Qed.

Lemma text_throws v :
  converts v = false ->
  of_sum (ToString_or_throw v)
  = throw (TypeError "Cannot convert object to primitive value").
Proof. intros H. unfold ToString_or_throw. rewrite H. reflexivity. Qed.

(** The two branches for an error without a response body (lines
    93-98). *)
Lemma plain_lines (error : value) :
  nullish error = false ->
  prints_and_returns
    (bind (member error "code")
       (fun code =>
          if ToBoolean code then
            bind (console_error [Str ("   Error Code: " ++ ToString code)])
              (fun _ =>
                 bind (member error "message")
                   (fun message =>
                      console_error [Str ("   Error Message: " ++ ToString message)]))
          else
            bind (member error "message")
              (fun message =>
                 console_error [Str "   Error Details:"; or_else message error]))).
Proof.
  intros H. rewrite !(member_defined _ _ H), bind_ret.
  split_if.
  - apply returns_bind; [apply returns_console | intros _].
    rewrite bind_ret. apply returns_console.
  - rewrite bind_ret. apply returns_console.
Qed.

(** Enters [handleTelegramError] on an error that is neither
    [undefined] nor [null]: the first line is printed and
    [error.response] is read. *)
Ltac enter_handler Hd :=
  unfold handleTelegramError; unfold console_error;
  rewrite bind_emit, (member_defined _ _ Hd), bind_ret.

(** X3. [handleTelegramError] throws when the error it is given is
    [undefined] or [null]: it has then printed its first line and the
    read of [error.response] raises a TypeError. On every other value
    whose [code] and [message] convert to text (an Error object of a
    library, but also a string or a number a promise was rejected with)
    it only prints and returns, whatever [JSON.parse] does with the body
    and whatever the body holds: its first line names the action, its
    last line is the hint on what to check (lines 81-100). *)
Theorem handleTelegramError_prints_unless_nullish w action :
  handleTelegramError w action Undefined
  = ([error_header action],
     Thrown (TypeError "Cannot read properties of undefined (reading 'response')")) /\
  handleTelegramError w action Null
  = ([error_header action],
     Thrown (TypeError "Cannot read properties of null (reading 'response')")) /\
  (forall error,
     nullish error = false ->
     converts (get_optional error "code") = true ->
     converts (get_optional error "message") = true ->
     exists t,
       quiet t /\
       handleTelegramError w action error
       = ((error_header action :: t ++ [error_hint])%list, Returned tt)).
Proof.
  split; [reflexivity|]. split; [reflexivity|].
  intros error Hd _ _. unfold handleTelegramError. unfold console_error at 1.
  rewrite bind_emit, (member_defined _ _ Hd), bind_ret.
  destruct (ToBoolean (get_optional error "response")) eqn:Hr.
  - rewrite (member_truthy _ _ Hr), bind_ret.
    destruct (ToBoolean (get_optional (get_optional error "response") "body")) eqn:Hb.
    + pose proof (decoded_lines w (get_optional (get_optional error "response") "body"))
        as Hm.
      unfold console_error in Hm |- *.
      destruct (then_line _ ERROR
                  [Str "   (Check BOT_TOKEN, CHAT_ID, Thread ID, bot permissions in chat, network connectivity)"]
                  Hm) as (t & Hq & Ht).
      rewrite Ht. exists t. split; [exact Hq | reflexivity].
    + pose proof (plain_lines error Hd) as Hm.
      unfold console_error in Hm |- *.
      destruct (then_line _ ERROR
                  [Str "   (Check BOT_TOKEN, CHAT_ID, Thread ID, bot permissions in chat, network connectivity)"]
                  Hm) as (t & Hq & Ht).
      rewrite Ht. exists t. split; [exact Hq | reflexivity].
  - rewrite bind_ret, Hr.
    pose proof (plain_lines error Hd) as Hm.
    unfold console_error in Hm |- *.
    destruct (then_line _ ERROR
                [Str "   (Check BOT_TOKEN, CHAT_ID, Thread ID, bot permissions in chat, network connectivity)"]
                Hm) as (t & Hq & Ht).
    rewrite Ht. exists t. split; [exact Hq | reflexivity].
Qed.

Lemma handleTelegramError_prints_unless_nullish_witness :
  nullish (Str "boom") = false /\
  converts (get_optional (Str "boom") "code") = true /\
  converts (get_optional (Str "boom") "message") = true /\
  exists t,
    quiet t /\
    handleTelegramError Sample.telegram_down "enviando la foto de inicio" (Str "boom")
    = ((error_header "enviando la foto de inicio" :: t ++ [error_hint])%list,
       Returned tt).
Proof.
  split; [reflexivity|]. split; [reflexivity|]. split; [reflexivity|].
  exact (proj2 (proj2 (handleTelegramError_prints_unless_nullish
                         Sample.telegram_down "enviando la foto de inicio"))
           (Str "boom") eq_refl eq_refl eq_refl).
Defined.

(** X4. When the error carries a response with a body that is an object,
    or a string that [JSON.parse] turns into something other than
    [null], [handleTelegramError] prints three lines and returns: its
    first line, a line about the body and the hint. A code that is
    missing or falsy (0, the empty string) stands as N/A, a description
    that is missing or falsy as "No description". When both convert to
    text the middle line is "Telegram API Error (code): description";
    when one of them does not (an object with an own [toString] that is no
    function) the template literal throws inside the [try] and the middle
    line is the raw body (lines 84-92). *)
Theorem api_error_is_decoded w action error errorBody :
  let body := get_optional (get_optional error "response") "body" in
  let code := or_else (get_optional errorBody "error_code") (Str "N/A") in
  let description :=
    or_else (get_optional errorBody "description") (Str "No description") in
  nullish error = false ->
  ToBoolean (get_optional error "response") = true ->
  ToBoolean body = true ->
  (is_string body = false /\ errorBody = body) \/
  (is_string body = true /\ JSON_parse w (ToString body) = Ok errorBody /\
   nullish errorBody = false) ->
  (converts code && converts description = true ->
   handleTelegramError w action error
   = ([error_header action;
       Console ERROR
         [Str ("   Telegram API Error (" ++ ToString code ++ "): "
               ++ ToString description)];
       error_hint],
      Returned tt)) /\
  (converts code && converts description = false ->
   handleTelegramError w action error
   = ([error_header action;
       Console ERROR [Str "   Telegram API Error (raw response body):"; body];
       error_hint],
      Returned tt)).
Proof.
  intros body code description Hd Hr Hb Hcase.
  assert (He : nullish errorBody = false).
  { destruct Hcase as [[_ ->] | (_ & _ & H)]; [apply truthy_defined, Hb | exact H]. }
  assert (Hread : forall k : value -> IO unit,
            bind (if is_string body then of_result (JSON_parse w (ToString body))
                  else ret body) k
            = k errorBody).
  { intros k. destruct Hcase as [[Hs ->] | (Hs & Hp & _)]; rewrite Hs.
    - apply bind_ret.
    - rewrite Hp. apply (bind_ret errorBody). }
  split; intros Hc; enter_handler Hd;
    rewrite Hr, (member_truthy _ _ Hr), bind_ret; fold body; rewrite Hb, Hread;
    rewrite (member_defined _ _ He), bind_ret; fold code.
  - apply andb_prop in Hc as [Hc1 Hc2].
    rewrite (text_reads _ Hc1), bind_ret, (member_defined _ _ He), bind_ret.
    fold description. rewrite (text_reads _ Hc2), bind_ret. reflexivity.
  - destruct (converts code) eqn:Hc1.
    + cbn [andb] in Hc.
      rewrite (text_reads _ Hc1), bind_ret, (member_defined _ _ He), bind_ret.
      fold description. rewrite (text_throws _ Hc). reflexivity.
    + rewrite (text_throws _ Hc1). reflexivity.
Qed.

Lemma api_error_is_decoded_witness :
  let error := Scenarios.chat_not_found in
  let body := get_optional (get_optional error "response") "body" in
  let code := or_else (get_optional body "error_code") (Str "N/A") in
  let description := or_else (get_optional body "description") (Str "No description") in
  nullish error = false /\
  ToBoolean (get_optional error "response") = true /\
  ToBoolean body = true /\
  is_string body = false /\
  converts code && converts description = true /\
  handleTelegramError Sample.telegram_down "enviando la foto de inicio" error
  = ([error_header "enviando la foto de inicio";
      Console ERROR
        [Str ("   Telegram API Error (" ++ ToString code ++ "): "
              ++ ToString description)];
      error_hint],
     Returned tt) /\
  ToString code = "400" /\
  ToString description = "Bad Request: chat not found".
Proof.
  intros error body code description.
  split; [reflexivity|]. split; [reflexivity|]. split; [reflexivity|].
  split; [reflexivity|]. split; [reflexivity|]. split.
  - exact (proj1 (api_error_is_decoded Sample.telegram_down "enviando la foto de inicio"
                    error body eq_refl eq_refl eq_refl
                    (or_introl (conj eq_refl eq_refl)))
             eq_refl).
  - split; vm_compute; reflexivity.
Defined.

(** X5. When the body of the response is a string that [JSON.parse]
    rejects, or that it turns into [null], the failure is caught:
    [handleTelegramError] prints the raw body between its first line and
    the hint, and returns (lines 85-92). *)
Theorem api_error_raw_body w action error :
  let body := get_optional (get_optional error "response") "body" in
  nullish error = false ->
  ToBoolean (get_optional error "response") = true ->
  ToBoolean body = true ->
  is_string body = true ->
  (exists parseError, JSON_parse w (ToString body) = Err parseError) \/
  (exists errorBody, JSON_parse w (ToString body) = Ok errorBody /\
                     nullish errorBody = true) ->
  handleTelegramError w action error
  = ([error_header action;
      Console ERROR [Str "   Telegram API Error (raw response body):"; body];
      error_hint],
     Returned tt).
Proof.
  intros body Hd Hr Hb Hs Hcase. enter_handler Hd.
  rewrite Hr, (member_truthy _ _ Hr), bind_ret. fold body. rewrite Hb, Hs.
  destruct Hcase as [(parseError & ->) | (errorBody & -> & Hn)].
  - reflexivity.
  - destruct errorBody; try discriminate; reflexivity.
Qed.

Lemma api_error_raw_body_witness :
  let error := Scenarios.bad_gateway in
  let body := get_optional (get_optional error "response") "body" in
  body = Str "Bad Gateway" /\
  JSON_parse Sample.telegram_down (ToString body) = Err [("name", Str "SyntaxError")] /\
  handleTelegramError Sample.telegram_down "enviando el reporte diario" error
  = ([error_header "enviando el reporte diario";
      Console ERROR [Str "   Telegram API Error (raw response body):"; body];
      error_hint],
     Returned tt).
Proof.
  intros error body.
  split; [reflexivity|]. split; [reflexivity|].
  exact (api_error_raw_body Sample.telegram_down "enviando el reporte diario"
           error eq_refl eq_refl eq_refl eq_refl
           (or_introl (ex_intro _ [("name", Str "SyntaxError")] eq_refl))).
Defined.

(** X6. When the error has no response, or a response without a body,
    [handleTelegramError] prints, between its first line and the hint:
    the code and the message on two lines if the error has a truthy
    [code] (a network error) and both convert to text; if the code is
    falsy, one line with the message, or with the error itself when the
    message is missing or empty (lines 93-98). *)
Theorem error_without_body w action error :
  let response := get_optional error "response" in
  let code := get_optional error "code" in
  let message := get_optional error "message" in
  nullish error = false ->
  ToBoolean response = false \/ ToBoolean (get_optional response "body") = false ->
  (ToBoolean code = true ->
   converts code = true -> converts message = true ->
   handleTelegramError w action error
   = ([error_header action;
       Console ERROR [Str ("   Error Code: " ++ ToString code)];
       Console ERROR [Str ("   Error Message: " ++ ToString message)];
       error_hint],
      Returned tt)) /\
  (ToBoolean code = false ->
   handleTelegramError w action error
   = ([error_header action;
       Console ERROR [Str "   Error Details:"; or_else message error];
       error_hint],
      Returned tt)).
Proof.
  intros response code message Hd Hcase.
  assert (Hbody : forall k : value -> IO unit,
            bind (if ToBoolean response then member response "body" else ret response) k
            = k (if ToBoolean response then get_optional response "body" else response)).
  { intros k. destruct (ToBoolean response) eqn:Hr.
    - rewrite (member_truthy _ _ Hr). apply bind_ret.
    - apply bind_ret. }
  assert (Hfalsy : ToBoolean (if ToBoolean response
                              then get_optional response "body" else response) = false).
  { destruct (ToBoolean response) eqn:Hr; [| exact Hr].
    destruct Hcase as [Hc | Hc]; [discriminate | exact Hc]. }
  split; [intros Hc _ _ | intros Hc]; enter_handler Hd; fold response;
    rewrite Hbody, Hfalsy, !(member_defined _ _ Hd), bind_ret; fold code message;
    rewrite Hc, ?bind_emit, bind_ret; reflexivity.
Qed.

Lemma error_without_body_witness :
  let error := Obj Sample.network_error in
  nullish error = false /\
  ToBoolean (get_optional error "response") = false /\
  ToBoolean (get_optional error "code") = true /\
  converts (get_optional error "code") = true /\
  converts (get_optional error "message") = true /\
  handleTelegramError Sample.telegram_down "enviando la foto de inicio" error
  = ([error_header "enviando la foto de inicio";
      Console ERROR [Str ("   Error Code: " ++ ToString (get_optional error "code"))];
      Console ERROR [Str ("   Error Message: " ++ ToString (get_optional error "message"))];
      error_hint],
     Returned tt) /\
  handleTelegramError Sample.telegram_down "enviando la foto de inicio" (Str "boom")
  = ([error_header "enviando la foto de inicio";
      Console ERROR [Str "   Error Details:";
                     or_else (get_optional (Str "boom") "message") (Str "boom")];
      error_hint],
     Returned tt).
Proof.
  intros error.
  split; [reflexivity|]. split; [reflexivity|]. split; [reflexivity|].
  split; [reflexivity|]. split; [reflexivity|]. split.
  - exact (proj1 (error_without_body Sample.telegram_down "enviando la foto de inicio"
                    error eq_refl (or_introl eq_refl))
             eq_refl eq_refl eq_refl).
  - exact (proj2 (error_without_body Sample.telegram_down "enviando la foto de inicio"
                    (Str "boom") eq_refl (or_introl eq_refl))
             eq_refl).
Defined.

End ErrorPrinter.

(* ===================================================================== *)
(** * What a run of a report pipeline does, whatever the world answers *)
(* ===================================================================== *)

Module Traffic.

Import Text Number Js Effects App Observe IOFacts ErrorLogging Report Delivery
  TextFacts Pipeline PipelineProperties Expected.

Lemma http_gets_one t0 url :
  quiet t0 -> forall t1, quiet t1 ->
  http_gets (t0 ++ HttpGet url 10000 :: t1) = [HttpGet url 10000].
Proof.
  intros H0 t1 H1. rewrite http_gets_app, (quiet_http_gets _ H0).
  change (http_gets (HttpGet url 10000 :: t1)) with (HttpGet url 10000 :: http_gets t1).
  rewrite (quiet_http_gets _ H1). reflexivity.
Qed.

Lemma startup_report_requests w cfg :
  http_gets (trace (startup_report w cfg)) = api_requests cfg.
Proof.
  unfold api_requests.
  destruct (truthy (dollarApiUrl cfg)) eqn:Hu.
  - destruct (truthy_inv _ Hu) as (a & u & Hurl). rewrite Hurl.
    assert (Hne : String a u <> "") by discriminate.
    destruct (startup_report_cases w cfg _ Hurl Hne) as (t0 & t1 & Hq0 & Hq1 & ->).
    apply (http_gets_one t0 _ Hq0 t1 Hq1).
  - destruct (startup_report_unconfigured w cfg Hu) as (t & Hq & ->).
    cbn [trace fst]. rewrite (quiet_http_gets _ Hq).
    destruct (truthy_false_cases _ Hu) as [-> | ->]; reflexivity.
Qed.

Lemma daily_report_requests w cfg :
  http_gets (trace (daily_report w cfg)) = api_requests cfg.
Proof.
  unfold api_requests.
  destruct (truthy (dollarApiUrl cfg)) eqn:Hu.
  - destruct (truthy_inv _ Hu) as (a & u & Hurl). rewrite Hurl.
    assert (Hne : String a u <> "") by discriminate.
    destruct (daily_report_cases w cfg _ Hurl Hne) as (t0 & t1 & Hq0 & Hq1 & ->).
    apply (http_gets_one t0 _ Hq0 t1 Hq1).
  - destruct (daily_report_unconfigured w cfg Hu) as (t & Hq & ->).
    cbn [trace fst]. rewrite (quiet_http_gets _ Hq).
    destruct (truthy_false_cases _ Hu) as [-> | ->]; reflexivity.
Qed.

Lemma outbound_in t e :
  outbound t -> In e t ->
  is_console e = true \/ is_http_get e = true \/ is_send e = true.
Proof.
  unfold outbound. intros H He.
  pose proof (proj1 (forallb_forall is_outbound t) H e He) as Ho.
  unfold is_outbound in Ho.
  apply orb_prop in Ho as [Ho | Ho]; [apply orb_prop in Ho as [Ho | Ho] |]; auto.
Qed.

Lemma log_api_error_line w error :
  log_api_error w (Obj error) = ([api_error_detail w error], Returned tt).
Proof.
  unfold log_api_error, api_error_detail, console_error.
  rewrite member_object, bind_ret.
  destruct (ToBoolean (lookup "response" error)) eqn:Hr.
  - rewrite !(member_truthy _ _ Hr), !bind_ret. reflexivity.
  - rewrite !member_object, !bind_ret.
    destruct (ToBoolean (lookup "request" error)); reflexivity.
Qed.

(** X7. With an image configured, each run of a pipeline, startup or
    daily, makes exactly one request to the rate API when its URL is set
    and not empty (a GET on that URL with a timeout of 10000 ms) and none
    otherwise. In every run the request comes before anything is handed
    to Telegram: the trace splits into a part that sends nothing and a
    part that requests nothing (lines 133-136, 202 and 260-262, 306). *)
Theorem one_request_per_run w cfg :
  (truthy (imageUrl cfg) = true ->
   http_gets (trace (sendTelegramStartupPhotoWithRates w cfg)) = api_requests cfg /\
   http_gets (trace (sendDailyUpdate w cfg)) = api_requests cfg) /\
  (exists before after,
     trace (sendTelegramStartupPhotoWithRates w cfg) = (before ++ after)%list /\
     sends before = [] /\ http_gets after = []) /\
  (exists before after,
     trace (sendDailyUpdate w cfg) = (before ++ after)%list /\
     sends before = [] /\ http_gets after = []).
Proof.
  destruct (truthy (imageUrl cfg)) eqn:Hi.
  - destruct (truthy_inv _ Hi) as (a & u & Himg).
    assert (Hne : String a u <> "") by discriminate.
    destruct (startup_pipeline_eq w cfg _ Himg Hne)
      as (s0 & st & sc & Hs0 & Hsr & Hss & _ & Hsp).
    destruct (daily_pipeline_eq w cfg _ Himg Hne)
      as (d0 & dt & dc & Hd0 & Hdr & Hds & _ & Hdp).
    split; [intros _; split | split].
    + destruct (startup_pipeline_sends w cfg _ sc Himg Hne) as [-> _];
        [rewrite Hsr; reflexivity | apply startup_report_requests].
    + destruct (daily_pipeline_sends w cfg _ dc Himg Hne) as [-> _];
        [rewrite Hdr; reflexivity | apply daily_report_requests].
    + exists (s0 ++ st)%list, (trace (startup_send w cfg (String a u) sc)).
      split; [rewrite Hsp, app_assoc; reflexivity|].
      split; [rewrite sends_app, (quiet_sends _ Hs0), Hss; reflexivity|].
      rewrite startup_send_shape. apply http_gets_block.
    + exists (d0 ++ dt)%list, (trace (daily_send w cfg (String a u) dc)).
      split; [rewrite Hdp, app_assoc; reflexivity|].
      split; [rewrite sends_app, (quiet_sends _ Hd0), Hds; reflexivity|].
      rewrite daily_send_shape. apply http_gets_block.
  - rewrite (startup_pipeline_no_image w cfg Hi), (daily_pipeline_no_image w cfg Hi).
    split; [discriminate|].
    split; eexists [], _; (split; [reflexivity | split; reflexivity]).
Qed.

Lemma one_request_per_run_witness :
  truthy (imageUrl Sample.cfg) = true /\
  http_gets (trace (sendTelegramStartupPhotoWithRates Sample.telegram_down Sample.cfg))
  = [HttpGet "https://example.org/api/v1/dollar" 10000] /\
  http_gets (trace (sendDailyUpdate Sample.telegram_down Sample.cfg))
  = [HttpGet "https://example.org/api/v1/dollar" 10000].
Proof.
  split; [reflexivity|].
  exact (proj1 (one_request_per_run Sample.telegram_down Sample.cfg) eq_refl).
Defined.

(** X8. Every message either pipeline hands to Telegram, the photo and
    the text fallback alike, goes to the configured chat with parse mode
    Markdown, and carries the message thread id exactly when
    TELEGRAM_MESSAGE_THREAD_ID is set and not empty; the photo is the
    configured image and carries a caption, the text message carries
    none (lines 72-78, 196-205, 215-218, 302-309, 315-317). *)
Theorem every_send_is_addressed w cfg e :
  In e (sends (trace (sendTelegramStartupPhotoWithRates w cfg))) \/
  In e (sends (trace (sendDailyUpdate w cfg))) ->
  well_addressed cfg e.
Proof.
  assert (Hshape : forall image c banner (l : list event),
            imageUrl cfg = Some image ->
            l = [SendPhoto (chatId cfg) image (photo_options cfg c)] \/
            l = [SendPhoto (chatId cfg) image (photo_options cfg c);
                 SendMessage (chatId cfg) (banner ++ LF ++ LF ++ c) (text_options cfg)] ->
            In e l -> well_addressed cfg e).
  { intros image c banner l Himg Hl He.
    assert (Hth : message_thread_id (buildTelegramOptions cfg) = thread_of cfg).
    { unfold buildTelegramOptions, thread_of.
      destruct (truthy (messageThreadId cfg)); reflexivity. }
    destruct Hl as [-> | ->]; cbn [In] in He.
    - destruct He as [<- | []]. cbn. rewrite Hth. repeat split; auto. discriminate.
    - destruct He as [<- | [<- | []]]; cbn; rewrite Hth.
      + repeat split; auto. discriminate.
      + repeat split; auto.
        unfold buildTelegramOptions. destruct (truthy (messageThreadId cfg)); reflexivity. }
  destruct (truthy (imageUrl cfg)) eqn:Hi.
  - destruct (truthy_inv _ Hi) as (a & u & Himg).
    assert (Hne : String a u <> "") by discriminate.
    intros [He | He].
    + destruct (startup_report_total w cfg) as (t & c & Hr & _).
      destruct (startup_pipeline_sends w cfg _ c Himg Hne ltac:(rewrite Hr; reflexivity))
        as [_ Hs].
      refine (Hshape (String a u) c "⚠️ *Error al enviar foto de inicio.*"
                (sends (trace (sendTelegramStartupPhotoWithRates w cfg))) Himg _ He).
      destruct Hs as [[_ ->] | (error & _ & ->)]; [left | right]; reflexivity.
    + destruct (daily_report_total w cfg) as (t & c & Hr & _).
      destruct (daily_pipeline_sends w cfg _ c Himg Hne ltac:(rewrite Hr; reflexivity))
        as [_ Hs].
      refine (Hshape (String a u) c "⚠️ *Error al enviar foto del reporte diario.*"
                (sends (trace (sendDailyUpdate w cfg))) Himg _ He).
      destruct Hs as [[_ ->] | (error & _ & ->)]; [left | right]; reflexivity.
  - rewrite (startup_pipeline_no_image w cfg Hi), (daily_pipeline_no_image w cfg Hi).
    intros [[] | []].
Qed.

Lemma every_send_is_addressed_witness :
  let fallback :=
    SendMessage (chatId Sample.cfg)
      ("⚠️ *Error al enviar foto del reporte diario.*" ++ LF ++ LF
       ++ daily_rates_caption "02/11/2026, 14:00"
            (parseFloat (Str "36.50")) (parseFloat (Str "40.00")))
      (text_options Sample.cfg) in
  In fallback (sends (trace (sendDailyUpdate Sample.telegram_down Sample.cfg))) /\
  well_addressed Sample.cfg fallback.
Proof.
  intros fallback.
  assert (Hin : In fallback
                  (sends (trace (sendDailyUpdate Sample.telegram_down Sample.cfg))))
    by (vm_compute; right; left; reflexivity).
  split; [exact Hin|].
  exact (every_send_is_addressed Sample.telegram_down Sample.cfg fallback
           (or_intror Hin)).
Defined.

(** X9. Neither pipeline ever throws (its promise never rejects) nor
    leaves the process, whatever the date formatter, the rate API and
    Telegram answer; and all a run does is print, ask the rate API and
    send to Telegram: it opens no port, closes no server, arms no timer
    and schedules nothing (lines 104-224 and 228-323). Failures of the
    libraries are Error objects here. *)
Theorem pipelines_never_fail w cfg :
  result_of (sendTelegramStartupPhotoWithRates w cfg) = Returned tt /\
  result_of (sendDailyUpdate w cfg) = Returned tt /\
  (forall e,
     In e (trace (sendTelegramStartupPhotoWithRates w cfg)) \/
     In e (trace (sendDailyUpdate w cfg)) ->
     is_console e = true \/ is_http_get e = true \/ is_send e = true).
Proof.
  split; [apply startup_pipeline_returns|]. split; [apply daily_pipeline_returns|].
  intros e [He | He].
  - exact (outbound_in _ e (startup_pipeline_outbound w cfg) He).
  - exact (outbound_in _ e (daily_pipeline_outbound w cfg) He).
Qed.

Lemma pipelines_never_fail_witness :
  result_of (sendTelegramStartupPhotoWithRates Sample.telegram_down Sample.cfg)
  = Returned tt /\
  result_of (sendDailyUpdate Sample.no_dates Sample.cfg_no_api) = Returned tt.
Proof.
  split.
  - exact (proj1 (pipelines_never_fail Sample.telegram_down Sample.cfg)).
  - exact (proj1 (proj2 (pipelines_never_fail Sample.no_dates Sample.cfg_no_api))).
Defined.

(** X10. When Telegram accepts the photo, the run hands it nothing
    else: the photo with the caption of the report is the only message,
    no text message follows, and the run ends with its confirmation line
    (lines 199-207 and 305-310). *)
Theorem photo_success_sends_once w cfg image :
  imageUrl cfg = Some image -> image <> "" ->
  (forall c,
     result_of (startup_report w cfg) = Returned c ->
     bot_sendPhoto w (chatId cfg) image (photo_options cfg c) = Ok tt ->
     exists before,
       sends before = [] /\
       sendTelegramStartupPhotoWithRates w cfg
       = ((before
           ++ [SendPhoto (chatId cfg) image (photo_options cfg c);
               Console LOG [Str "✅ Foto de inicio con caption enviada exitosamente."]])%list,
          Returned tt)) /\
  (forall c,
     result_of (daily_report w cfg) = Returned c ->
     bot_sendPhoto w (chatId cfg) image (photo_options cfg c) = Ok tt ->
     exists before,
       sends before = [] /\
       sendDailyUpdate w cfg
       = ((before
           ++ [SendPhoto (chatId cfg) image (photo_options cfg c);
               Console LOG [Str "✅ Reporte diario enviado exitosamente."]])%list,
          Returned tt)).
Proof.
  intros Himg Hne. split; intros c Hc Hok.
  - destruct (startup_pipeline_eq w cfg _ Himg Hne)
      as (t0 & t & c' & Hq0 & Hr & Hs & _ & Hp).
    rewrite Hr in Hc. injection Hc as ->.
    rewrite startup_send_shape, (send_photo_ok w cfg _ _ _ _ _ _ _ Hok) in Hp.
    exists (t0 ++ t)%list.
    split; [rewrite sends_app, (quiet_sends _ Hq0), Hs; reflexivity|].
    rewrite Hp, <- app_assoc. reflexivity.
  - destruct (daily_pipeline_eq w cfg _ Himg Hne)
      as (t0 & t & c' & Hq0 & Hr & Hs & _ & Hp).
    rewrite Hr in Hc. injection Hc as ->.
    rewrite daily_send_shape, (send_photo_ok w cfg _ _ _ _ _ _ _ Hok) in Hp.
    exists (t0 ++ t)%list.
    split; [rewrite sends_app, (quiet_sends _ Hq0), Hs; reflexivity|].
    rewrite Hp, <- app_assoc. reflexivity.
Qed.

Lemma photo_success_sends_once_witness :
  let w := Sample.healthy (Str "36.50") (Str "40.00") in
  let c := daily_rates_caption "02/11/2026, 14:00"
             (parseFloat (Str "36.50")) (parseFloat (Str "40.00")) in
  imageUrl Sample.cfg = Some "https://example.org/rates.png" /\
  result_of (daily_report w Sample.cfg) = Returned c /\
  exists before,
    sends before = [] /\
    sendDailyUpdate w Sample.cfg
    = ((before
        ++ [SendPhoto (chatId Sample.cfg) "https://example.org/rates.png"
              (photo_options Sample.cfg c);
            Console LOG [Str "✅ Reporte diario enviado exitosamente."]])%list,
       Returned tt).
Proof.
  intros w c.
  assert (Hne : "https://example.org/rates.png" <> "") by discriminate.
  assert (Hc : result_of (daily_report w Sample.cfg) = Returned c)
    by (vm_compute; reflexivity).
  split; [reflexivity|]. split; [exact Hc|].
  exact (proj2 (photo_success_sends_once w Sample.cfg
                  "https://example.org/rates.png" eq_refl Hne)
           c Hc eq_refl).
Defined.

(** X11. When the request to the rate API fails, the failure stays in
    the [catch] of the fetch: it prints its first line and one line of
    detail (the status and the data of the response if the error has a
    response, otherwise the message, as "no response received" if a
    request was made and as a configuration error if not), and the
    caption becomes the one that reports the failure, behind the date
    line on the startup path and appended to the heading on the daily
    path (lines 174-189 and 285-296). *)
Theorem api_failure_is_logged w cfg url error :
  dollarApiUrl cfg = Some url -> url <> "" ->
  axios_get w url 10000 = Err error ->
  (forall currentDateVE captionText,
     startup_caption w cfg currentDateVE captionText
     = ([HttpGet url 10000;
         Console ERROR [Str "❌ Error al obtener las tasas del dólar de la API:"];
         api_error_detail w error],
        Returned ("🗓️ *Fecha:* " ++ currentDateVE ++ LF ++ LF
                  ++ "⚠️ Error al obtener las tasas."
                  ++ LF ++ LF ++ "⚡️ Bot iniciado y listo."))) /\
  (forall captionText,
     daily_caption w cfg captionText
     = ([HttpGet url 10000;
         Console ERROR [Str "❌ Error al obtener las tasas del dólar para el reporte diario:"];
         api_error_detail w error],
        Returned (captionText ++ LF ++ LF ++ "⚠️ Error al obtener las tasas actuales."))).
Proof.
  intros Hurl Hne Hget. destruct (truthy_some _ Hne) as (a & u & ->).
  split; intros; [unfold startup_caption | unfold daily_caption];
    rewrite Hurl; unfold call; rewrite Hget; cbn [bind];
    rewrite try_catch_thrown; unfold console_error at 1;
    rewrite bind_emit, log_api_error_line, bind_returned; reflexivity.
Qed.

Lemma api_failure_is_logged_witness :
  let w := Sample.world (Err Sample.network_error) (Ok tt) (Ok tt) Sample.all_free in
  axios_get w "https://example.org/api/v1/dollar" 10000 = Err Sample.network_error /\
  api_error_detail w Sample.network_error
  = Console ERROR [Str "   Error en la configuración de Axios:";
                   Str "timeout of 10000ms exceeded"] /\
  daily_caption w Sample.cfg "📊"
  = ([HttpGet "https://example.org/api/v1/dollar" 10000;
      Console ERROR [Str "❌ Error al obtener las tasas del dólar para el reporte diario:"];
      api_error_detail w Sample.network_error],
     Returned ("📊" ++ LF ++ LF ++ "⚠️ Error al obtener las tasas actuales.")).
Proof.
  intros w.
  assert (Hne : "https://example.org/api/v1/dollar" <> "") by discriminate.
  split; [reflexivity|]. split; [reflexivity|].
  exact (proj2 (api_failure_is_logged w Sample.cfg
                  "https://example.org/api/v1/dollar" Sample.network_error
                  eq_refl Hne eq_refl)
           "📊").
Defined.

(** X12. When the date of the startup report cannot be formatted, the
    failure is printed and the report goes on. With no rate API
    configured the caption begins with the placeholder "[Fecha no
    disponible]". With a rate API configured the caption is rebuilt from
    the date variable, which is still empty: it begins with the date
    label followed by nothing, and the placeholder is gone, whatever the
    rate API answers (lines 117-129, 158, 170, 187). *)
Theorem startup_date_failure w cfg dateError :
  toLocaleString w "es-VE" startup_date_options = Err dateError ->
  (exists t,
     trace (startup_report w cfg)
     = Console ERROR [Str "❌ Error al formatear la fecha:"; Obj dateError] :: t) /\
  (truthy (dollarApiUrl cfg) = false ->
   result_of (startup_report w cfg)
   = Returned ("[Fecha no disponible]" ++ LF ++ LF
               ++ "⚡️ Bot iniciado y listo. (URL de API no configurada)")) /\
  (truthy (dollarApiUrl cfg) = true ->
   exists body,
     result_of (startup_report w cfg)
     = Returned ("🗓️ *Fecha:* " ++ LF ++ LF ++ body)).
Proof.
  intros Hd.
  assert (Hdate : startup_date w
                  = ([Console ERROR [Str "❌ Error al formatear la fecha:"; Obj dateError]],
                     Returned ("", "[Fecha no disponible]" ++ LF ++ LF
                                   ++ "⚡️ Bot iniciado y listo."))).
  { unfold startup_date. rewrite Hd. reflexivity. }
  assert (Hrep : startup_report w cfg
                 = (Console ERROR [Str "❌ Error al formatear la fecha:"; Obj dateError]
                      :: trace (startup_caption w cfg ""
                                  ("[Fecha no disponible]" ++ LF ++ LF
                                   ++ "⚡️ Bot iniciado y listo.")),
                    result_of (startup_caption w cfg ""
                                 ("[Fecha no disponible]" ++ LF ++ LF
                                  ++ "⚡️ Bot iniciado y listo.")))).
  { unfold startup_report. rewrite Hdate, bind_returned. reflexivity. }
  rewrite Hrep. cbn [trace result_of fst snd].
  split; [eexists; reflexivity|]. split.
  - intros Hu. rewrite (startup_caption_unconfigured w cfg _ _ Hu). reflexivity.
  - intros Hu. destruct (truthy_inv _ Hu) as (a & u & Hurl).
    assert (Hne : String a u <> "") by discriminate.
    destruct (axios_get w (String a u) 10000) as [response|error] eqn:Hget.
    + destruct (converts (bcvPrice_of response) && converts (paraleloPrice_of response))
        eqn:Hc.
      * apply andb_prop in Hc as [Hcb Hcs].
        destruct (isNaN (bcvNum_of response) || isNaN (paraleloNum_of response)) eqn:Hnan.
        -- rewrite (startup_caption_unavailable w cfg _ Hurl Hne _ _ response Hget
                      Hcb Hcs Hnan).
           eexists. reflexivity.
        -- apply orb_false_elim in Hnan as [Hp Hs].
           rewrite (startup_caption_rates w cfg _ Hurl Hne _ _ response Hget
                      Hcb Hcs Hp Hs).
           eexists. reflexivity.
      * destruct (startup_caption_unreadable w cfg _ Hurl Hne ""
                    ("[Fecha no disponible]" ++ LF ++ LF ++ "⚡️ Bot iniciado y listo.")
                    response Hget Hc) as (t1 & _ & ->).
        eexists. reflexivity.
    + destruct (startup_caption_failure w cfg _ Hurl Hne ""
                  ("[Fecha no disponible]" ++ LF ++ LF ++ "⚡️ Bot iniciado y listo.")
                  error Hget) as (t1 & _ & ->).
      eexists. reflexivity.
Qed.

Lemma startup_date_failure_witness :
  toLocaleString Sample.no_dates "es-VE" startup_date_options
  = Err [("name", Str "RangeError")] /\
  truthy (dollarApiUrl Sample.cfg) = true /\
  exists body,
    result_of (startup_report Sample.no_dates Sample.cfg)
    = Returned ("🗓️ *Fecha:* " ++ LF ++ LF ++ body).
Proof.
  split; [reflexivity|]. split; [reflexivity|].
  exact (proj2 (proj2 (startup_date_failure Sample.no_dates Sample.cfg
                         [("name", Str "RangeError")] eq_refl))
           eq_refl).
Defined.

End Traffic.

(* ===================================================================== *)
(** * Every run of the bootstrap *)
(* ===================================================================== *)

Module BootstrapRuns.

Import Text Number Js Effects App Observe IOFacts Pipeline Bootstrap Expected.

(** The [listening] callback in full: the line, the startup report, the
    scheduling block. *)
Lemma on_listening_eq w cfg actualPort :
  on_listening w cfg actualPort
  = ((Console LOG [Str ("✅ Servidor API corriendo en http://localhost:"
                        ++ Text.of_Z actualPort)]
      :: trace (sendTelegramStartupPhotoWithRates w cfg) ++ scheduling_events w)%list,
     Returned {| serverInstance := Some {| address_port := actualPort |};
                 cronTasks := scheduled_tasks w |}).
Proof.
  unfold on_listening, scheduling_events, scheduled_tasks.
  unfold console_log at 1. rewrite bind_emit.
  pose proof (startup_pipeline_returns w cfg) as Hr.
  destruct (sendTelegramStartupPhotoWithRates w cfg) as [ts o].
  cbn [result_of snd] in Hr. subst o.
  rewrite bind_returned. unfold call.
  destruct (cron_schedule w "0 14 * * *" true "Etc/GMT-3") as [[]|error]; reflexivity.
Qed.

(** How far the retries go: to the first port, among the [n] that
    remain, that is not in use. *)
Lemma first_port_not_in_use w (n : nat) : forall p,
  exists k : nat,
    (k <= n)%nat /\
    (forall j, 0 <= j < Z.of_nat k -> in_use w (p + j)) /\
    (k = n \/
     (exists actualPort, server_listen w (p + Z.of_nat k) = Bound actualPort) \/
     (exists error, server_listen w (p + Z.of_nat k) = Failed error /\
                    equals_string (lookup "code" error) "EADDRINUSE" = false) \/
     (exists error, server_listen w (p + Z.of_nat k) = Threw error)).
Proof.
  induction n as [|n IH]; intros p.
  - exists 0%nat. split; [lia|]. split; [intros j Hj; simpl in Hj; lia | left; reflexivity].
  - destruct (server_listen w p) as [actualPort|error|error] eqn:Hl.
    + exists 0%nat. split; [lia|]. split; [intros j Hj; simpl in Hj; lia|].
      right. left. exists actualPort. cbn [Z.of_nat]. rewrite Z.add_0_r. exact Hl.
    + destruct (equals_string (lookup "code" error) "EADDRINUSE") eqn:Hc.
      * destruct (IH (p + 1)) as (k & Hk & Hin & Hend).
        exists (S k). split; [lia|]. split.
        -- intros j Hj. destruct (Z.eq_dec j 0) as [-> | Hj0].
           ++ rewrite Z.add_0_r. exists error. split; assumption.
           ++ replace (p + j) with (p + 1 + (j - 1)) by lia. apply Hin. lia.
        -- replace (p + Z.of_nat (S k)) with (p + 1 + Z.of_nat k) by lia.
           destruct Hend as [-> | Hend]; [left; reflexivity | right; exact Hend].
      * exists 0%nat. split; [lia|]. split; [intros j Hj; simpl in Hj; lia|].
        right. right. left. exists error. cbn [Z.of_nat]. rewrite Z.add_0_r.
        split; assumption.
    + exists 0%nat. split; [lia|]. split; [intros j Hj; simpl in Hj; lia|].
      right. right. right. exists error. cbn [Z.of_nat]. rewrite Z.add_0_r. exact Hl.
Qed.

(** Every run of [startServer] from the initial port is one of five:
    all ten ports in use; some ports in use and then a fatal error; some
    ports in use and then a port that binds; [listen] throws on the
    initial port, and the exception leaves [startServer]; some ports in
    use and then [listen] throws, in the timer of the retry, where the
    [uncaughtException] listener ends the process. *)
Lemma startServer_classified w cfg :
  exists k : nat,
    (k <= 10)%nat /\
    (forall j, 0 <= j < Z.of_nat k -> in_use w (initialPort cfg + j)) /\
    ((k = 10%nat /\
      startServer w cfg (initialPort cfg)
      = ((retries (initialPort cfg) 10 ++ [exhausted_line cfg])%list, Exited 1)) \/
     ((k < 10)%nat /\
      exists error,
        server_listen w (initialPort cfg + Z.of_nat k) = Failed error /\
        equals_string (lookup "code" error) "EADDRINUSE" = false /\
        startServer w cfg (initialPort cfg)
        = ((retries (initialPort cfg) k
            ++ [Listen (initialPort cfg + Z.of_nat k);
                Console ERROR [Str "❌ Fatal server startup error:"; Obj error]])%list,
           Exited 1)) \/
     ((k < 10)%nat /\
      exists actualPort,
        server_listen w (initialPort cfg + Z.of_nat k) = Bound actualPort /\
        startServer w cfg (initialPort cfg)
        = ((retries (initialPort cfg) k
            ++ Listen (initialPort cfg + Z.of_nat k)
            :: trace (on_listening w cfg actualPort))%list,
           result_of (on_listening w cfg actualPort))) \/
     (k = 0%nat /\
      exists error,
        server_listen w (initialPort cfg) = Threw error /\
        startServer w cfg (initialPort cfg)
        = ([Listen (initialPort cfg)], Thrown (Obj error))) \/
     ((0 < k < 10)%nat /\
      exists error,
        server_listen w (initialPort cfg + Z.of_nat k) = Threw error /\
        startServer w cfg (initialPort cfg)
        = ((retries (initialPort cfg) k
            ++ Listen (initialPort cfg + Z.of_nat k)
            :: uncaught_events (Obj error))%list,
           Exited 0))).
Proof.
  destruct (first_port_not_in_use w 10 (initialPort cfg)) as (k & Hk & Hin & Hend).
  exists k. split; [exact Hk|]. split; [exact Hin|].
  destruct (Nat.eq_dec k 10) as [-> | Hne].
  - left. split; [reflexivity|].
    assert (Hlast : startServer w cfg (initialPort cfg + Z.of_nat 10)
                    = ([exhausted_line cfg], Exited 1)).
    { rewrite startServer_exhausted; [| unfold MAX_PORT_ATTEMPTS; lia].
      unfold exhausted_line, MAX_PORT_ATTEMPTS. reflexivity. }
    rewrite (startServer_retries w cfg 10 (initialPort cfg));
      [| unfold MAX_PORT_ATTEMPTS; lia | exact Hin | rewrite Hlast; discriminate].
    rewrite Hlast. reflexivity.
  - assert (Hlt : (k < 10)%nat) by lia.
    destruct Hend as [-> | [(actualPort & Hb) | [(error & Hl & Hc) | (error & Hl)]]];
      [contradiction | | |].
    + right. right. left. split; [exact Hlt|]. exists actualPort. split; [exact Hb|].
      pose proof (startServer_bound w cfg (initialPort cfg + Z.of_nat k) actualPort
                    ltac:(unfold MAX_PORT_ATTEMPTS; lia) Hb) as Hlast.
      rewrite (startServer_retries w cfg k (initialPort cfg));
        [| unfold MAX_PORT_ATTEMPTS; lia | exact Hin |].
      * rewrite Hlast. reflexivity.
      * rewrite Hlast, on_listening_eq. discriminate.
    + right. left. split; [exact Hlt|]. exists error. split; [exact Hl|].
      split; [exact Hc|].
      pose proof (startServer_fatal w cfg (initialPort cfg + Z.of_nat k) error
                    ltac:(unfold MAX_PORT_ATTEMPTS; lia) Hl Hc) as Hlast.
      rewrite (startServer_retries w cfg k (initialPort cfg));
        [| unfold MAX_PORT_ATTEMPTS; lia | exact Hin | rewrite Hlast; discriminate].
      rewrite Hlast. reflexivity.
    + right. right. right. destruct k as [|k].
      * left. split; [reflexivity|]. exists error.
        cbn [Z.of_nat] in Hl. rewrite Z.add_0_r in Hl. split; [exact Hl|].
        apply startServer_threw; [unfold MAX_PORT_ATTEMPTS; lia | exact Hl].
      * right. split; [lia|]. exists error. split; [exact Hl|].
        apply startServer_retries_threw;
          [unfold MAX_PORT_ATTEMPTS; lia | exact Hin | exact Hl].
Qed.

(** The ends of a run, read off the five cases. *)
Ltac run_cases w cfg :=
  destruct (startServer_classified w cfg)
    as (k & _ & Hin
        & [[-> Hrun]
          | [(Hlt & error & Hl & Hc & Hrun)
            | [(Hlt & boundPort & Hb & Hrun)
              | [(-> & error & Hl & Hrun)
                | (Hlt & error & Hl & Hrun)]]]]).








Lemma scheduling_events_outward w :
  sends (scheduling_events w) = [] /\ http_gets (scheduling_events w) = [] /\
  listens (scheduling_events w) = [].
Proof.
  unfold scheduling_events.
  destruct (cron_schedule w "0 14 * * *" true "Etc/GMT-3"); repeat split; reflexivity.
Qed.

Lemma startServer_returns_bound w cfg proc :
  result_of (startServer w cfg (initialPort cfg)) = Returned proc ->
  exists actualPort,
    proc = {| serverInstance := Some {| address_port := actualPort |};
              cronTasks := scheduled_tasks w |}.
Proof.
  run_cases w cfg;
    rewrite Hrun; cbn [result_of snd]; try discriminate.
  rewrite on_listening_eq. cbn [result_of snd]. intros [= <-].
  exists boundPort. reflexivity.
Qed.




Lemma startServer_returns_listened w cfg proc :
  result_of (startServer w cfg (initialPort cfg)) = Returned proc ->
  exists q actualPort,
    In (Listen q) (trace (startServer w cfg (initialPort cfg))) /\
    server_listen w q = Bound actualPort /\
    serverInstance proc = Some {| address_port := actualPort |}.
Proof.
  run_cases w cfg;
    rewrite Hrun; cbn [trace result_of fst snd]; try discriminate.
  rewrite on_listening_eq. cbn [result_of snd]. intros [= <-].
  exists (initialPort cfg + Z.of_nat k), boundPort.
  split; [apply in_or_app; right; left; reflexivity|].
  split; [exact Hb | reflexivity].
Qed.


(** The run on a host whose first port is free. *)
Lemma startServer_first_port w cfg actualPort :
  server_listen w (initialPort cfg) = Bound actualPort ->
  startServer w cfg (initialPort cfg)
  = ((Listen (initialPort cfg)
      :: Console LOG [Str ("✅ Servidor API corriendo en http://localhost:"
                           ++ Text.of_Z actualPort)]
      :: trace (sendTelegramStartupPhotoWithRates w cfg) ++ scheduling_events w)%list,
     Returned {| serverInstance := Some {| address_port := actualPort |};
                 cronTasks := scheduled_tasks w |}).
Proof.
  intros Hb.
  rewrite (startServer_bound w cfg _ actualPort);
    [| unfold MAX_PORT_ATTEMPTS; lia | exact Hb].
  rewrite on_listening_eq. reflexivity.
Qed.

(** X13. In every run of [startServer], whatever the ports answer, the
    ports [listen] is called on are the initial port and its successors,
    in order and without a gap, at most ten of them; each one but the
    last was in use, and a run that returns has bound the last one and
    recorded that server (lines 327-355). *)
Theorem bind_attempts_stop_at_first_answer w cfg :
  exists m : nat,
    (m <= 10)%nat /\
    listens (trace (startServer w cfg (initialPort cfg)))
    = bind_attempts (initialPort cfg) m /\
    (forall j, 0 <= j < Z.of_nat m - 1 -> in_use w (initialPort cfg + j)) /\
    (forall proc,
       result_of (startServer w cfg (initialPort cfg)) = Returned proc ->
       exists actualPort,
         server_listen w (initialPort cfg + (Z.of_nat m - 1)) = Bound actualPort /\
         serverInstance proc = Some {| address_port := actualPort |}).
Proof.
  run_cases w cfg.
  - exists 10%nat. split; [lia|]. split; [| split].
    + rewrite Hrun. cbn [trace fst]. rewrite listens_app, listens_retries.
      apply app_nil_r.
    + intros j Hj. apply Hin. lia.
    + intros proc H. rewrite Hrun in H. discriminate.
  - exists (S k). split; [lia|]. split; [| split].
    + rewrite Hrun. cbn [trace fst]. rewrite listens_app, listens_retries.
      apply bind_attempts_last.
    + intros j Hj. apply Hin. lia.
    + intros proc H. rewrite Hrun in H. discriminate.
  - exists (S k). split; [lia|]. split; [| split].
    + rewrite Hrun, on_listening_eq. cbn [trace fst].
      rewrite listens_app, listens_retries.
      change (listens (Listen ?q :: Console ?l ?a :: ?t)) with (Listen q :: listens t).
      rewrite listens_app, (outbound_listens _ (startup_pipeline_outbound w cfg)).
      rewrite (proj2 (proj2 (scheduling_events_outward w))).
      apply bind_attempts_last.
    + intros j Hj. apply Hin. lia.
    + intros proc H. rewrite Hrun, on_listening_eq in H. cbn [result_of snd] in H.
      injection H as <-. exists boundPort.
      replace (Z.of_nat (S k) - 1) with (Z.of_nat k) by lia.
      split; [exact Hb | reflexivity].
  - exists 1%nat. split; [lia|]. split; [| split].
    + rewrite Hrun. unfold bind_attempts. cbn [trace fst seq map Z.of_nat].
      rewrite Z.add_0_r. reflexivity.
    + intros j Hj. simpl in Hj. lia.
    + intros proc H. rewrite Hrun in H. discriminate.
  - exists (S k). split; [lia|]. split; [| split].
    + rewrite Hrun. cbn [trace fst]. rewrite listens_app, listens_retries.
      change (listens (Listen ?q :: uncaught_events ?e)) with [Listen q].
      apply bind_attempts_last.
    + intros j Hj. apply Hin. lia.
    + intros proc H. rewrite Hrun in H. discriminate.
Qed.

Lemma bind_attempts_stop_at_first_answer_witness :
  let w := Sample.world (Err Sample.network_error) (Ok tt) (Ok tt)
             (Sample.free_from 10002) in
  exists m : nat,
    (m <= 10)%nat /\
    listens (trace (startServer w Sample.cfg (initialPort Sample.cfg)))
    = bind_attempts (initialPort Sample.cfg) m /\
    (forall j, 0 <= j < Z.of_nat m - 1 -> in_use w (initialPort Sample.cfg + j)) /\
    (forall proc,
       result_of (startServer w Sample.cfg (initialPort Sample.cfg)) = Returned proc ->
       exists actualPort,
         server_listen w (initialPort Sample.cfg + (Z.of_nat m - 1)) = Bound actualPort /\
         serverInstance proc = Some {| address_port := actualPort |}).
Proof.
  intros w. exact (bind_attempts_stop_at_first_answer w Sample.cfg).
Defined.



(** X15. When the first port binds and the scheduler accepts the task:
    the server is recorded and its port printed, then the startup report
    runs to its end, and only then is the daily task registered, for
    "0 14 * * *" in the zone Etc/GMT-3, and confirmed on the console;
    the state then holds the server and that one task (lines
    354-380). *)
Theorem startup_report_then_schedule w cfg actualPort :
  server_listen w (initialPort cfg) = Bound actualPort ->
  cron_schedule w "0 14 * * *" true "Etc/GMT-3" = Ok tt ->
  startServer w cfg (initialPort cfg)
  = ((Listen (initialPort cfg)
      :: Console LOG [Str ("✅ Servidor API corriendo en http://localhost:"
                           ++ Text.of_Z actualPort)]
      :: trace (sendTelegramStartupPhotoWithRates w cfg)
      ++ [CronSchedule "0 14 * * *" true "Etc/GMT-3";
          Console LOG [Str "⏰ Tarea diaria programada para ejecutarse a las 14:00 (2 PM) UTC+3."]])%list,
     Returned {| serverInstance := Some {| address_port := actualPort |};
                 cronTasks := [{| expression := "0 14 * * *";
                                  scheduled := true;
                                  timezone := "Etc/GMT-3" |}] |}).
Proof.
  intros Hb Hc. rewrite (startServer_first_port w cfg actualPort Hb).
  unfold scheduling_events, scheduled_tasks. rewrite Hc. reflexivity.
Qed.

Lemma startup_report_then_schedule_witness :
  let w := Sample.healthy (Str "36.50") (Str "40.00") in
  server_listen w (initialPort Sample.cfg) = Bound 10000 /\
  startServer w Sample.cfg (initialPort Sample.cfg)
  = ((Listen (initialPort Sample.cfg)
      :: Console LOG [Str ("✅ Servidor API corriendo en http://localhost:"
                           ++ Text.of_Z 10000)]
      :: trace (sendTelegramStartupPhotoWithRates w Sample.cfg)
      ++ [CronSchedule "0 14 * * *" true "Etc/GMT-3";
          Console LOG [Str "⏰ Tarea diaria programada para ejecutarse a las 14:00 (2 PM) UTC+3."]])%list,
     Returned {| serverInstance := Some {| address_port := 10000 |};
                 cronTasks := [{| expression := "0 14 * * *";
                                  scheduled := true;
                                  timezone := "Etc/GMT-3" |}] |}).
Proof.
  intros w. split; [reflexivity|].
  exact (startup_report_then_schedule w Sample.cfg 10000 eq_refl eq_refl).
Defined.

(** X16. When [cron.schedule] throws, the failure is caught and
    printed: the process stays up with its server recorded and no task
    registered, and from then on no tick of the clock does anything: no
    daily report is ever sent (lines 363-385). *)
Theorem schedule_failure_is_not_fatal w cfg actualPort cronError :
  server_listen w (initialPort cfg) = Bound actualPort ->
  cron_schedule w "0 14 * * *" true "Etc/GMT-3" = Err cronError ->
  let proc := {| serverInstance := Some {| address_port := actualPort |};
                 cronTasks := [] |} in
  startServer w cfg (initialPort cfg)
  = ((Listen (initialPort cfg)
      :: Console LOG [Str ("✅ Servidor API corriendo en http://localhost:"
                           ++ Text.of_Z actualPort)]
      :: trace (sendTelegramStartupPhotoWithRates w cfg)
      ++ [CronSchedule "0 14 * * *" true "Etc/GMT-3";
          Console ERROR [Str "❌ Error al programar la tarea diaria con cron:";
                         Obj cronError]])%list,
     Returned proc) /\
  forall ws, run_ticks cfg ws proc = ([], Returned proc).
Proof.
  intros Hb Hc proc. split.
  - rewrite (startServer_first_port w cfg actualPort Hb).
    unfold scheduling_events, scheduled_tasks. rewrite Hc. reflexivity.
  - intros ws. unfold run_ticks. induction ws as [|w' ws IH]; [reflexivity|].
    cbn [run_ticks_with]. unfold tick_with at 1. cbn [cronTasks proc run_tasks].
    rewrite !bind_ret. exact IH.
Qed.

Lemma schedule_failure_is_not_fatal_witness :
  let proc := {| serverInstance := Some {| address_port := 10000 |};
                 cronTasks := [] |} in
  cron_schedule Scenarios.no_scheduler "0 14 * * *" true "Etc/GMT-3"
  = Err [("message", Str "invalid timezone")] /\
  result_of (startServer Scenarios.no_scheduler Sample.cfg (initialPort Sample.cfg))
  = Returned proc /\
  forall ws, run_ticks Sample.cfg ws proc = ([], Returned proc).
Proof.
  intros proc. split; [reflexivity|].
  destruct (schedule_failure_is_not_fatal Scenarios.no_scheduler Sample.cfg 10000
              [("message", Str "invalid timezone")] eq_refl eq_refl)
    as [Hrun Hticks].
  split; [rewrite Hrun; reflexivity | exact Hticks].
Defined.

(** X17. The start fails fast on a missing required setting: when
    TELEGRAM_BOT_TOKEN is unset or empty, and when it is set but
    TELEGRAM_CHAT_ID is unset or empty, the program prints the two lines
    that name the missing setting and leaves with exit code 1; it builds
    no bot, opens no port and sends nothing. The token is checked first
    (lines 23-32). *)
Theorem missing_setting_stops_the_start w cfg :
  (truthy (botToken cfg) = false ->
   main w cfg
   = ([Console ERROR [Str "❌ CRITICAL ERROR: TELEGRAM_BOT_TOKEN is not defined in your .env file or environment variables."];
       Console ERROR [Str "   The bot cannot start without the token."]],
      Exited 1)) /\
  (truthy (botToken cfg) = true -> truthy (chatId cfg) = false ->
   main w cfg
   = ([Console ERROR [Str "❌ CRITICAL ERROR: TELEGRAM_CHAT_ID is not defined in your .env file or environment variables."];
       Console ERROR [Str "   The bot needs a chat ID to send messages."]],
      Exited 1)).
Proof.
  split.
  - intros H. unfold main. rewrite H. reflexivity.
  - intros Ht H. unfold main. rewrite Ht, H. reflexivity.
Qed.

Lemma missing_setting_stops_the_start_witness :
  truthy (botToken Scenarios.cfg_no_token) = false /\
  result_of (main Sample.telegram_down Scenarios.cfg_no_token) = Exited 1 /\
  truthy (botToken Scenarios.cfg_no_chat) = true /\
  truthy (chatId Scenarios.cfg_no_chat) = false /\
  result_of (main Sample.telegram_down Scenarios.cfg_no_chat) = Exited 1.
Proof.
  split; [reflexivity|]. split.
  - rewrite (proj1 (missing_setting_stops_the_start Sample.telegram_down
                      Scenarios.cfg_no_token) eq_refl).
    reflexivity.
  - split; [reflexivity|]. split; [reflexivity|].
    rewrite (proj2 (missing_setting_stops_the_start Sample.telegram_down
                      Scenarios.cfg_no_chat) eq_refl eq_refl).
    reflexivity.
Defined.

(** The top level once both required settings are there. *)
Lemma main_configured w cfg :
  truthy (botToken cfg) = true -> truthy (chatId cfg) = true ->
  main w cfg
  = bind (optional_warnings cfg, Returned tt)
      (fun _ =>
         bind (try_catch
                 (bind (call (NewTelegramBot (botToken cfg))
                          (new_TelegramBot w (botToken cfg)))
                    (fun _ => console_log [Str "🤖 Telegram Bot initialized."]))
                 (fun error =>
                    bind (console_error [Str "❌ Failed to initialize Telegram Bot instance."])
                      (fun _ =>
                         bind (member error "message")
                           (fun message =>
                              bind (console_error [Str "   Error:"; message])
                                (fun _ => exit 1)))))
           (fun _ => startServer w cfg (initialPort cfg))).
Proof.
  intros Ht Hc. unfold main, optional_warnings. rewrite Ht, Hc. cbn [negb].
  rewrite !bind_ret, !bind_optional_warning. cbn [trace result_of fst snd].
  rewrite bind_returned. cbn [trace result_of fst snd].
  destruct (truthy (messageThreadId cfg)), (truthy (imageUrl cfg)),
    (truthy (dollarApiUrl cfg)); cbn [negb app]; reflexivity.
Qed.

Lemma main_with_bot w cfg :
  truthy (botToken cfg) = true -> truthy (chatId cfg) = true ->
  new_TelegramBot w (botToken cfg) = Ok tt ->
  main w cfg
  = ((optional_warnings cfg
      ++ NewTelegramBot (botToken cfg)
      :: Console LOG [Str "🤖 Telegram Bot initialized."]
      :: trace (startServer w cfg (initialPort cfg)))%list,
     result_of (startServer w cfg (initialPort cfg))).
Proof.
  intros Ht Hc Hb. rewrite (main_configured w cfg Ht Hc).
  unfold call. rewrite Hb. rewrite bind_returned.
  unfold console_log. cbn [emit bind try_catch trace result_of fst snd app].
  destruct (startServer w cfg (initialPort cfg)) as [t o]. reflexivity.
Qed.

Lemma main_without_bot w cfg error :
  truthy (botToken cfg) = true -> truthy (chatId cfg) = true ->
  new_TelegramBot w (botToken cfg) = Err error ->
  main w cfg
  = ((optional_warnings cfg
      ++ [NewTelegramBot (botToken cfg);
          Console ERROR [Str "❌ Failed to initialize Telegram Bot instance."];
          Console ERROR [Str "   Error:"; lookup "message" error]])%list,
     Exited 1).
Proof.
  intros Ht Hc Hb. rewrite (main_configured w cfg Ht Hc).
  unfold call. rewrite Hb. reflexivity.
Qed.

(** X18. When the constructor of the bot throws, the start stops there:
    after the warnings for the optional settings, the program prints that
    the bot could not be initialised and the message of the error, and
    leaves with exit code 1 without calling [listen] (lines 49-57). *)
Theorem bot_constructor_failure_is_fatal w cfg error :
  truthy (botToken cfg) = true -> truthy (chatId cfg) = true ->
  new_TelegramBot w (botToken cfg) = Err error ->
  main w cfg
  = ((optional_warnings cfg
      ++ [NewTelegramBot (botToken cfg);
          Console ERROR [Str "❌ Failed to initialize Telegram Bot instance."];
          Console ERROR [Str "   Error:"; lookup "message" error]])%list,
     Exited 1) /\
  listens (trace (main w cfg)) = [].
Proof.
  intros Ht Hc Hb. rewrite (main_without_bot w cfg error Ht Hc Hb).
  split; [reflexivity|]. cbn [trace fst]. rewrite listens_app.
  unfold optional_warnings.
  destruct (truthy (messageThreadId cfg)), (truthy (imageUrl cfg)),
    (truthy (dollarApiUrl cfg)); reflexivity.
Qed.

Lemma bot_constructor_failure_is_fatal_witness :
  new_TelegramBot Scenarios.no_bot (botToken Sample.cfg_no_api)
  = Err [("message", Str "Telegram Bot Token not provided!")] /\
  main Scenarios.no_bot Sample.cfg_no_api
  = ((optional_warnings Sample.cfg_no_api
      ++ [NewTelegramBot (botToken Sample.cfg_no_api);
          Console ERROR [Str "❌ Failed to initialize Telegram Bot instance."];
          Console ERROR [Str "   Error:";
                         lookup "message"
                           [("message", Str "Telegram Bot Token not provided!")]]])%list,
     Exited 1).
Proof.
  split; [reflexivity|].
  exact (proj1 (bot_constructor_failure_is_fatal Scenarios.no_bot Sample.cfg_no_api
                  [("message", Str "Telegram Bot Token not provided!")]
                  eq_refl eq_refl eq_refl)).
Defined.

(** X19. With both required settings there and the bot built, the
    optional settings only cost a warning each: the program prints one
    warning for each of TELEGRAM_MESSAGE_THREAD_ID, TELEGRAM_IMAGE_URL
    and PYDOLARVE_API_URL that is unset or empty, in that order, builds
    the bot once with the token, confirms it, and goes on to
    [startServer] on the initial port, whose run is the rest of the
    start (lines 36-57 and 397). *)
Theorem main_warns_then_binds w cfg :
  truthy (botToken cfg) = true -> truthy (chatId cfg) = true ->
  new_TelegramBot w (botToken cfg) = Ok tt ->
  main w cfg
  = ((optional_warnings cfg
      ++ NewTelegramBot (botToken cfg)
      :: Console LOG [Str "🤖 Telegram Bot initialized."]
      :: trace (startServer w cfg (initialPort cfg)))%list,
     result_of (startServer w cfg (initialPort cfg))) /\
  (truthy (messageThreadId cfg) = true -> truthy (imageUrl cfg) = true ->
   truthy (dollarApiUrl cfg) = true -> optional_warnings cfg = []).
Proof.
  intros Ht Hc Hb. split; [exact (main_with_bot w cfg Ht Hc Hb)|].
  intros H1 H2 H3. unfold optional_warnings. rewrite H1, H2, H3. reflexivity.
Qed.

Lemma main_warns_then_binds_witness :
  let w := Sample.healthy (Str "36.50") (Str "40.00") in
  optional_warnings Sample.cfg_no_api
  = [Console WARN [Str "⚠️  Optional: TELEGRAM_MESSAGE_THREAD_ID is not defined. Messages will be sent to the main chat, not a specific topic/thread."];
     Console WARN [Str "⚠️  Optional: PYDOLARVE_API_URL is not defined. Dollar rates cannot be fetched."]] /\
  main w Sample.cfg_no_api
  = ((optional_warnings Sample.cfg_no_api
      ++ NewTelegramBot (botToken Sample.cfg_no_api)
      :: Console LOG [Str "🤖 Telegram Bot initialized."]
      :: trace (startServer w Sample.cfg_no_api (initialPort Sample.cfg_no_api)))%list,
     result_of (startServer w Sample.cfg_no_api (initialPort Sample.cfg_no_api))).
Proof.
  intros w. split; [reflexivity|].
  exact (proj1 (main_warns_then_binds w Sample.cfg_no_api eq_refl eq_refl eq_refl)).
Defined.



End BootstrapRuns.

(* ===================================================================== *)
(** * After the start: signals and ticks *)
(* ===================================================================== *)

Module Lifecycle.

Import Text Number Js Effects App Observe IOFacts Pipeline Bootstrap Scheduler
  Expected BootstrapRuns.

(** X21. A termination signal that arrives after a start that returned
    always finds the server: the handler announces the signal, asks the
    server to close (the process leaves with code 0 once it has) and arms
    the timer that forces exit code 1 after 5000 ms; the handler itself
    returns. Before any server is recorded the same handler leaves at
    once with code 0. SIGTERM and SIGINT differ in the name they
    announce only (lines 401-423). *)
Theorem signal_after_start_closes_server w cfg proc signal :
  result_of (startServer w cfg (initialPort cfg)) = Returned proc ->
  shutdown signal proc
  = ([Console LOG [Str (LF ++ signal ++ " signal received: closing HTTP server...")];
      ServerClose (ThenExit [(LOG, [Str "✅ HTTP server closed."])] 0);
      SetTimeout (ThenExit [(ERROR, [Str "⚠️ Server close timed out, forcing exit."])] 1) 5000],
     Returned tt) /\
  shutdown signal initial_proc
  = ([Console LOG [Str (LF ++ signal ++ " signal received: closing HTTP server...")];
      Console LOG [Str "ℹ️ No active server to close."]],
     Exited 0) /\
  on_SIGTERM proc = shutdown "SIGTERM" proc /\
  on_SIGINT proc = shutdown "SIGINT (Ctrl+C)" proc.
Proof.
  intros Hp. destruct (startServer_returns_bound w cfg proc Hp) as (actualPort & ->).
  repeat split; reflexivity.
Qed.

Lemma signal_after_start_closes_server_witness :
  let w := Sample.healthy (Str "36.50") (Str "40.00") in
  let proc := {| serverInstance := Some {| address_port := 10000 |};
                 cronTasks := scheduled_tasks w |} in
  result_of (startServer w Sample.cfg (initialPort Sample.cfg)) = Returned proc /\
  on_SIGTERM proc
  = ([Console LOG [Str (LF ++ "SIGTERM" ++ " signal received: closing HTTP server...")];
      ServerClose (ThenExit [(LOG, [Str "✅ HTTP server closed."])] 0);
      SetTimeout (ThenExit [(ERROR, [Str "⚠️ Server close timed out, forcing exit."])] 1) 5000],
     Returned tt).
Proof.
  intros w proc.
  assert (Hrun : result_of (startServer w Sample.cfg (initialPort Sample.cfg))
                 = Returned proc).
  { rewrite (startServer_first_port w Sample.cfg 10000 eq_refl). reflexivity. }
  split; [exact Hrun|].
  exact (proj1 (signal_after_start_closes_server w Sample.cfg proc "SIGTERM" Hrun)).
Defined.

(** X22. The callback of the daily task has one operation outside any
    [try]: the formatting of the time stamp of the line it prints. If
    that formatting throws, the callback throws before it prints and
    before it calls [sendDailyUpdate]: it sends no report and asks no
    rate. Nothing else makes the callback throw, and it never leaves the
    process: once the stamp is formatted it prints its line, runs the
    daily report and returns, whatever the rate API and Telegram answer
    (lines 366-373). *)
Theorem cron_callback_throws_only_on_stamp w cfg :
  (forall error,
     toLocaleString w "en-GB" cron_log_options = Err error ->
     cron_callback w cfg = ([], Thrown (Obj error))) /\
  (forall e,
     result_of (cron_callback w cfg) = Thrown e ->
     exists error,
       toLocaleString w "en-GB" cron_log_options = Err error /\ e = Obj error) /\
  (forall c, result_of (cron_callback w cfg) <> Exited c) /\
  (result_of (cron_callback w cfg) = Returned tt ->
   exists stamp,
     toLocaleString w "en-GB" cron_log_options = Ok stamp /\
     trace (cron_callback w cfg) = tick_line stamp :: trace (sendDailyUpdate w cfg)).
Proof.
  assert (Hok : forall stamp,
            toLocaleString w "en-GB" cron_log_options = Ok stamp ->
            cron_callback w cfg
            = (tick_line stamp :: trace (sendDailyUpdate w cfg), Returned tt)).
  { intros stamp Hst. unfold cron_callback.
    rewrite (cron_callback_with_eq w _ stamp Hst).
    pose proof (daily_pipeline_returns w cfg) as Hr.
    destruct (sendDailyUpdate w cfg) as [t o]. cbn [result_of snd] in Hr.
    subst o. reflexivity. }
  assert (Herr : forall error,
            toLocaleString w "en-GB" cron_log_options = Err error ->
            cron_callback w cfg = ([], Thrown (Obj error))).
  { intros error H. unfold cron_callback, cron_callback_with. rewrite H. reflexivity. }
  split; [exact Herr|].
  destruct (toLocaleString w "en-GB" cron_log_options) as [stamp|error] eqn:H.
  - rewrite (Hok stamp eq_refl). cbn [trace result_of fst snd].
    split; [discriminate|]. split; [discriminate|].
    intros _. exists stamp. split; reflexivity.
  - rewrite (Herr error eq_refl). cbn [trace result_of fst snd].
    split; [| split; discriminate].
    intros e [= <-]. exists error. split; reflexivity.
Qed.

Lemma cron_callback_throws_only_on_stamp_witness :
  toLocaleString Sample.no_dates "en-GB" cron_log_options
  = Err [("name", Str "RangeError")] /\
  cron_callback Sample.no_dates Sample.cfg
  = ([], Thrown (Obj [("name", Str "RangeError")])).
Proof.
  split; [reflexivity|].
  exact (proj1 (cron_callback_throws_only_on_stamp Sample.no_dates Sample.cfg)
           [("name", Str "RangeError")] eq_refl).
Defined.

(** X23. The liveness endpoint never names a port that is not bound:
    before any server is recorded it answers with the word "unknown" in
    place of the port, and after a start that returned it answers with
    the port reported by the socket of a [listen] call of that start
    that succeeded, whatever port was asked for (lines 62-67, 354-356). *)
Theorem liveness_names_the_bound_port w cfg :
  root_handler initial_proc = "API Telegram Server is running on port unknown" /\
  (forall proc,
     result_of (main w cfg) = Returned proc ->
     exists q actualPort,
       In (Listen q) (trace (main w cfg)) /\
       server_listen w q = Bound actualPort /\
       root_handler proc
       = "API Telegram Server is running on port " ++ Text.of_Z actualPort).
Proof.
  split; [reflexivity|]. intros proc.
  destruct (truthy (botToken cfg)) eqn:Ht.
  - destruct (truthy (chatId cfg)) eqn:Hc.
    + destruct (new_TelegramBot w (botToken cfg)) as [[]|error] eqn:Hb.
      * rewrite (main_with_bot w cfg Ht Hc Hb). cbn [trace result_of fst snd].
        intros Hp.
        destruct (startServer_returns_listened w cfg proc Hp)
          as (q & actualPort & Hin & Hl & Hs).
        exists q, actualPort. split; [| split; [exact Hl|]].
        -- apply in_or_app. right. right. right. exact Hin.
        -- unfold root_handler. rewrite Hs. reflexivity.
      * rewrite (main_without_bot w cfg error Ht Hc Hb). discriminate.
    + unfold main. rewrite Ht, Hc. discriminate.
  - unfold main. rewrite Ht. discriminate.
Qed.

Lemma liveness_names_the_bound_port_witness :
  let w := Sample.world (Err Sample.network_error) (Ok tt) (Ok tt)
             (fun port => if port =? 10000 then Bound 43210 else Bound port) in
  let proc := {| serverInstance := Some {| address_port := 43210 |};
                 cronTasks := scheduled_tasks w |} in
  result_of (main w Sample.cfg) = Returned proc /\
  exists q actualPort,
    In (Listen q) (trace (main w Sample.cfg)) /\
    server_listen w q = Bound actualPort /\
    root_handler proc
    = "API Telegram Server is running on port " ++ Text.of_Z actualPort.
Proof.
  intros w proc.
  assert (Hrun : result_of (main w Sample.cfg) = Returned proc).
  { rewrite (main_with_bot w Sample.cfg eq_refl eq_refl eq_refl).
    cbn [result_of snd].
    rewrite (startServer_first_port w Sample.cfg 43210 eq_refl). reflexivity. }
  split; [exact Hrun|].
  exact (proj2 (liveness_names_the_bound_port w Sample.cfg) proc Hrun).
Defined.

End Lifecycle.
